(** * WorkTimeCounter: hours, calendar, ledger and invoice arithmetic

    A shallow embedding of the computation core of the WorkTimeCounter
    repository ([src/server.js] and [src/public/app.js]): the hours parsers,
    [round2], the holiday calendar, the month sum and the month clean-up of
    the ledger, and the money fields of [normalizeInvoice]; then the texts
    and file names, the due date and the date fields of an invoice, the
    handlers that store entries, clients and invoices, and the forms and
    the month filter of the client.

    The handlers are modelled on the stored document as [JSON.parse] reads
    it and [JSON.stringify] writes it; reading and writing the data file
    are taken to succeed.

    JavaScript numbers are IEEE 754 binary64 values.  They are modelled by the
    standard library's [spec_float] with [prec = 53] and [emax = 1024], and the
    arithmetic operators by [SFadd], [SFmul], [SFdiv]: the same rounding
    (nearest, ties to even), the same signed zeros, infinities and NaN.

    JavaScript strings are modelled by [string]; a character stands for the
    code unit of the same number, so the model covers strings whose code units
    are below 256 (ASCII and Latin-1).

    A Date depends on the host: its getters read local time while
    [toISOString] and the parse of a date-only string work in UTC.  The host's
    offset from UTC is a parameter of every function that builds or reads a
    Date. *)

From Stdlib Require Import ZArith QArith Bool List String Ascii Lia.
From Stdlib Require Import SpecFloat.
Import ListNotations.
Local Open Scope string_scope.
Local Open Scope Z_scope.

(** ** Numbers *)

(** A Number: a binary64 value. *)
Definition number : Type := spec_float.

Module Num.

Definition prec : Z := 53.
Definition emax : Z := 1024.

Definition nan : number := S754_nan.
Definition zero : number := S754_zero false.
Definition infinity (neg : bool) : number := S754_infinity neg.

(** The Number nearest to the integer [z] (exact up to [2^53]). *)
Definition ofZ (z : Z) : number := binary_normalize prec emax z 0 false.

Definition add : number -> number -> number := SFadd prec emax.
Definition mul : number -> number -> number := SFmul prec emax.
Definition div : number -> number -> number := SFdiv prec emax.

(** [x < y], [x >= y] and [x === y] on Numbers: all false when an operand is
    NaN, and the two zeros compare equal. *)
Definition ltb (x y : number) : bool := SFltb x y.
Definition geb (x y : number) : bool := SFleb y x.
Definition eqb (x y : number) : bool := SFeqb x y.

(** [Number.isFinite] on a Number. *)
Definition isFinite (x : number) : bool :=
  match x with
  | S754_zero _ | S754_finite _ _ _ => true
  | S754_infinity _ | S754_nan => false
  end.

(** ToBoolean on a Number: false for [+0], [-0] and NaN. *)
Definition truthy (x : number) : bool :=
  match x with
  | S754_zero _ | S754_nan => false
  | _ => true
  end.

(** The integer [n] as a Number whose zero takes the sign [neg]. *)
Definition ofInteger (neg : bool) (n : Z) : number :=
  match n with
  | Z0 => S754_zero neg
  | _ => ofZ n
  end.

(** The exact value of the finite Number of sign [s], mantissa [m] and
    exponent [e], the rational [(-1)^s * m * 2^e]. *)
Definition valueQ (s : bool) (m : positive) (e : Z) : Q :=
  if 0 <=? e then inject_Z (cond_Zopp s (Zpos m) * 2 ^ e)
  else Qmake (cond_Zopp s (Zpos m)) (Z.to_pos (2 ^ (- e))).

(** The integer [floor (x + 1/2)] for [x = sm / 2^k]. *)
Definition nearestUp (sm k : Z) : Z := (2 * sm + 2 ^ k) / 2 ^ (k + 1).

(** [Math.round]: NaN, the infinities, the zeros and integral values are
    returned unchanged; any other value goes to the nearest integer, a tie to
    the integer nearer to +infinity, and a result of zero keeps the sign of
    the argument.  A finite value with a non-negative exponent is integral. *)
Definition Math_round (x : number) : number :=
  match x with
  | S754_finite s m e =>
      if 0 <=? e then x
      else ofInteger s (nearestUp (cond_Zopp s (Zpos m)) (- e))
  | _ => x
  end.

(** The value [m * 10^e10], with sign [neg], rounded to the nearest Number
    (the "rounded mathematical value" of a decimal literal). *)
Definition decimalValue (neg : bool) (m e10 : Z) : number :=
  match m with
  | Zpos _ =>
      if 0 <=? e10 then binary_round prec emax neg (Z.to_pos (m * 10 ^ e10)) 0
      else
        let '(q, e', l) := SFdiv_core_binary prec emax m 0 (10 ^ (- e10)) 0 in
        binary_round_aux prec emax neg q e' l
  | _ => S754_zero neg
  end.

End Num.

(** ** Strings and numeric literals *)

Module Str.

Definition code (c : ascii) : Z := Z.of_N (N_of_ascii c).

(** White space and line terminators among the code units below 256. *)
Definition isWhite (c : ascii) : bool :=
  let n := code c in
  ((9 <=? n) && (n <=? 13)) || (n =? 32) || (n =? 160).

Definition isDigit (c : ascii) : bool :=
  let n := code c in (48 <=? n) && (n <=? 57).

Definition isEmpty (s : string) : bool :=
  match s with
  | EmptyString => true
  | String _ _ => false
  end.

Fixpoint trimStart (s : string) : string :=
  match s with
  | String c r => if isWhite c then trimStart r else s
  | EmptyString => EmptyString
  end.

Fixpoint trimEnd (s : string) : string :=
  match s with
  | String c r =>
      let r' := trimEnd r in
      if isWhite c && isEmpty r' then EmptyString else String c r'
  | EmptyString => EmptyString
  end.

(** [String.prototype.trim]. *)
Definition trim (s : string) : string := trimEnd (trimStart s).

(** [s.includes(c)] for a one-character needle. *)
Fixpoint includes (c : ascii) (s : string) : bool :=
  match s with
  | String d r => if Ascii.eqb d c then true else includes c r
  | EmptyString => false
  end.

(** [s.split(c)] for a one-character separator: never empty. *)
Fixpoint split (c : ascii) (s : string) : list string :=
  match s with
  | EmptyString => [EmptyString]
  | String d r =>
      if Ascii.eqb d c then EmptyString :: split c r
      else
        match split c r with
        | h :: t => String d h :: t
        | [] => [String d EmptyString]
        end
  end.

(** The longest prefix of decimal digits, and what follows it. *)
Fixpoint spanDigits (s : string) : string * string :=
  match s with
  | String c r =>
      if isDigit c then let '(ds, rest) := spanDigits r in (String c ds, rest)
      else (EmptyString, s)
  | EmptyString => (EmptyString, EmptyString)
  end.

(** The value of a digit in the radix, if it is one. *)
Definition digitOf (radix : Z) (c : ascii) : option Z :=
  let n := code c in
  let v :=
    if (48 <=? n) && (n <=? 57) then n - 48
    else if (97 <=? n) && (n <=? 122) then n - 87
    else if (65 <=? n) && (n <=? 90) then n - 55
    else radix in
  if v <? radix then Some v else None.

(** Horner evaluation of a whole string of digits of the radix. *)
Fixpoint digitsValue (radix acc : Z) (s : string) : option Z :=
  match s with
  | EmptyString => Some acc
  | String c r =>
      match digitOf radix c with
      | Some v => digitsValue radix (radix * acc + v) r
      | None => None
      end
  end.

Definition decimalDigits (s : string) : Z :=
  match digitsValue 10 0 s with
  | Some v => v
  | None => 0
  end.

Definition lengthZ (s : string) : Z := Z.of_nat (String.length s).

(** An optional ExponentPart at the head of [s]: its value and what follows;
    [(0, s)] when [s] does not start with a complete exponent. *)
Definition scanExponent (s : string) : Z * string :=
  match s with
  | String c r =>
      if Ascii.eqb c "e" || Ascii.eqb c "E" then
        let '(neg, r1) :=
          match r with
          | String "+" r' => (false, r')
          | String "-" r' => (true, r')
          | _ => (false, r)
          end in
        let '(ds, r2) := spanDigits r1 in
        if isEmpty ds then (0, s)
        else (cond_Zopp neg (decimalDigits ds), r2)
      else (0, s)
  | EmptyString => (0, s)
  end.

Fixpoint dropPrefix (p s : string) : option string :=
  match p, s with
  | EmptyString, _ => Some s
  | String a p', String b s' => if Ascii.eqb a b then dropPrefix p' s' else None
  | String _ _, EmptyString => None
  end.

(** The longest prefix of [s] that is a StrUnsignedDecimalLiteral, as a
    Number of sign [neg], and what follows it. *)
Definition scanUnsignedDecimal (neg : bool) (s : string) : option (number * string) :=
  match dropPrefix "Infinity" s with
  | Some rest => Some (Num.infinity neg, rest)
  | None =>
      let '(ip, r1) := spanDigits s in
      match r1 with
      | String "." r2 =>
          let '(fp, r3) := spanDigits r2 in
          if isEmpty ip && isEmpty fp then None
          else
            let '(e, r4) := scanExponent r3 in
            Some (Num.decimalValue neg (decimalDigits (ip ++ fp)) (e - lengthZ fp), r4)
      | _ =>
          if isEmpty ip then None
          else
            let '(e, r4) := scanExponent r1 in
            Some (Num.decimalValue neg (decimalDigits ip) e, r4)
      end
  end.

(** The longest prefix of [s] that is a StrDecimalLiteral (optional sign). *)
Definition scanDecimal (s : string) : option (number * string) :=
  match s with
  | String "+" r => scanUnsignedDecimal false r
  | String "-" r => scanUnsignedDecimal true r
  | _ => scanUnsignedDecimal false s
  end.

(** A whole string that is a NonDecimalIntegerLiteral: [0x], [0o], [0b]. *)
Definition nonDecimalInteger (s : string) : option Z :=
  match s with
  | String "0" (String p ds) =>
      let radix :=
        if Ascii.eqb p "x" || Ascii.eqb p "X" then 16
        else if Ascii.eqb p "o" || Ascii.eqb p "O" then 8
        else if Ascii.eqb p "b" || Ascii.eqb p "B" then 2
        else 0 in
      if (radix =? 0) || isEmpty ds then None else digitsValue radix 0 ds
  | _ => None
  end.

(** StringToNumber, that is [Number(s)] on a string: white space is trimmed,
    the empty string is [+0], and the rest must be one numeric literal. *)
Definition StringToNumber (s : string) : number :=
  let t := trim s in
  if isEmpty t then Num.zero
  else
    match nonDecimalInteger t with
    | Some n => Num.ofZ n
    | None =>
        match scanDecimal t with
        | Some (v, EmptyString) => v
        | _ => Num.nan
        end
    end.

(** [parseFloat(s)] on a string: leading white space is skipped and the
    longest prefix that is a decimal literal is read; NaN when there is none. *)
Definition parseFloat (s : string) : number :=
  match scanDecimal (trimStart s) with
  | Some (v, _) => v
  | None => Num.nan
  end.

End Str.

(** ** Values

    The primitive values a JSON body or a form field can hold. *)

Inductive jsval : Type :=
| JUndefined
| JNull
| JBool (b : bool)
| JNum (x : number)
| JStr (s : string).

Module Val.

(** ToNumber. *)
Definition ToNumber (v : jsval) : number :=
  match v with
  | JUndefined => Num.nan
  | JNull => Num.zero
  | JBool b => if b then Num.ofZ 1 else Num.zero
  | JNum x => x
  | JStr s => Str.StringToNumber s
  end.

(** ToBoolean. *)
Definition truthy (v : jsval) : bool :=
  match v with
  | JUndefined | JNull => false
  | JBool b => b
  | JNum x => Num.truthy x
  | JStr s => negb (Str.isEmpty s)
  end.

(** [a || b]. *)
Definition or (a b : jsval) : jsval := if truthy a then a else b.

(** [a ?? b]. *)
Definition nullish (a b : jsval) : jsval :=
  match a with
  | JUndefined | JNull => b
  | _ => a
  end.

(** [parseFloat(v)]: the argument is first converted to a string.  The string
    of a Number reads back as the same Number (a negative zero prints as "0");
    the strings of [undefined], [null] and the booleans hold no literal. *)
Definition parseFloat (v : jsval) : number :=
  match v with
  | JStr s => Str.parseFloat s
  | JNum (S754_zero _) => Num.zero
  | JNum x => x
  | _ => Num.nan
  end.

End Val.

(** ** Dates

    A Date holds a time value: milliseconds since 1970-01-01T00:00Z, or NaN
    for an invalid Date ([None] here).  The getters [getFullYear], [getMonth],
    [getDate], [getDay], the setter [setDate] and the constructor
    [new Date(y, m, d)] work in the local time of the host; [toISOString] and
    the parse of a date-only string work in UTC. *)

Module JSDate.

Definition msPerDay : Z := 86400000.

(** What the host contributes: the offset of local time from UTC in
    milliseconds (LocalTZA(t, isUTC) of ECMAScript), and the parse of every
    string that is not a well-formed date-only ISO string: the date-time
    forms of the ISO format, and the strings whose interpretation the
    language leaves to the implementation. *)
Record Host : Type := {
  LocalTZA : Z -> bool -> Z;
  hostParse : string -> option Z
}.

(** A host at a fixed offset of [minutes] from UTC that reads the date-only
    forms and no other string: what is proved of it about a parse holds of
    an engine for the strings in a date-only form. *)
Definition fixedOffset (minutes : Z) : Host :=
  {| LocalTZA := fun _ _ => minutes * 60000; hostParse := fun _ => None |}.

Definition Day (t : Z) : Z := t / msPerDay.
Definition TimeWithinDay (t : Z) : Z := t mod msPerDay.

(** Days from 1970-01-01 to the civil date [y]-[m]-[d] of the proleptic
    Gregorian calendar, [m] in 1..12. *)
Definition daysFromCivil (y m d : Z) : Z :=
  let y' := if m <=? 2 then y - 1 else y in
  let era := y' / 400 in
  let yoe := y' - era * 400 in
  let mp := if 2 <? m then m - 3 else m + 9 in
  let doy := (153 * mp + 2) / 5 + d - 1 in
  let doe := yoe * 365 + yoe / 4 - yoe / 100 + doy in
  era * 146097 + doe - 719468.

(** The civil date (year, month 1..12, day) of a day number. *)
Definition civilFromDays (z : Z) : Z * Z * Z :=
  let z' := z + 719468 in
  let era := z' / 146097 in
  let doe := z' - era * 146097 in
  let yoe := (doe - doe / 1460 + doe / 36524 - doe / 146096) / 365 in
  let doy := doe - (365 * yoe + yoe / 4 - yoe / 100) in
  let mp := (5 * doy + 2) / 153 in
  let d := doy - (153 * mp + 2) / 5 + 1 in
  let m := if mp <? 10 then mp + 3 else mp - 9 in
  (if m <=? 2 then yoe + era * 400 + 1 else yoe + era * 400, m, d).

Definition YearFromTime (t : Z) : Z := fst (fst (civilFromDays (Day t))).
(** The month index, 0..11. *)
Definition MonthFromTime (t : Z) : Z := snd (fst (civilFromDays (Day t))) - 1.
Definition DateFromTime (t : Z) : Z := snd (civilFromDays (Day t)).
(** 0 is Sunday; 1970-01-01 was a Thursday. *)
Definition WeekDay (t : Z) : Z := (Day t + 4) mod 7.

Definition isLeap (y : Z) : bool :=
  ((y mod 4 =? 0) && negb (y mod 100 =? 0)) || (y mod 400 =? 0).

(** Days in month [m] (1..12) of year [y]. *)
Definition daysInMonth (y m : Z) : Z :=
  if m =? 2 then (if isLeap y then 29 else 28)
  else if (m =? 4) || (m =? 6) || (m =? 9) || (m =? 11) then 30
  else 31.

(** MakeDay(year, month, date) with a month index that may lie outside
    0..11 and a date that may lie outside the month. *)
Definition MakeDay (year month date : Z) : Z :=
  daysFromCivil (year + month / 12) (month mod 12 + 1) 1 + date - 1.

Definition MakeDate (day time : Z) : Z := day * msPerDay + time.

Definition TimeClip (t : Z) : option Z :=
  if Z.abs t <=? 8640000000000000 then Some t else None.

(** Decimal digits of a natural number, zero-padded to [width]. *)
Fixpoint digitsRev (fuel : nat) (n : Z) : string :=
  match fuel with
  | O => EmptyString
  | S k =>
      String (ascii_of_N (Z.to_N (48 + n mod 10)))
             (if n / 10 =? 0 then EmptyString else digitsRev k (n / 10))
  end.

Fixpoint revOnto (s acc : string) : string :=
  match s with
  | EmptyString => acc
  | String c r => revOnto r (String c acc)
  end.

Fixpoint zeros (n : nat) : string :=
  match n with
  | O => EmptyString
  | S k => String "0" (zeros k)
  end.

(** The decimal text of [n >= 0]. *)
Definition natText (n : Z) : string :=
  revOnto (digitsRev (S (Z.to_nat (Z.log2 n))) n) EmptyString.

Definition pad (width : nat) (n : Z) : string :=
  let t := natText n in
  zeros (width - String.length t) ++ t.

(** The text of an integral Number, as a template literal prints it. *)
Definition intText (n : Z) : string :=
  if n <? 0 then String "-" (natText (- n)) else natText n.

(** [s.slice(0, n)]. *)
Fixpoint take (n : nat) (s : string) : string :=
  match n, s with
  | S k, String c r => String c (take k r)
  | _, _ => EmptyString
  end.

(** The text of [toISOString] for a time value: UTC fields, a year of four
    digits from 0 to 9999 and of a sign and six digits otherwise. *)
Definition isoText (t : Z) : string :=
  let '(y, m, d) := civilFromDays (Day t) in
  let ms := TimeWithinDay t in
  let year :=
    if (0 <=? y) && (y <=? 9999) then pad 4 y
    else (if y <? 0 then "-" else "+") ++ pad 6 (Z.abs y) in
  year ++ "-" ++ pad 2 m ++ "-" ++ pad 2 d ++ "T"
       ++ pad 2 (ms / 3600000) ++ ":" ++ pad 2 (ms / 60000 mod 60) ++ ":"
       ++ pad 2 (ms / 1000 mod 60) ++ "." ++ pad 3 (ms mod 1000) ++ "Z".

(** [toISOString]: a RangeError ([None]) on an invalid Date. *)
Definition toISOString (d : option Z) : option string :=
  match d with
  | Some t => Some (isoText t)
  | None => None
  end.

(** A string of exactly [n] decimal digits, as its value. *)
Definition fixedDigits (n : nat) (s : string) : option Z :=
  if Nat.eqb (String.length s) n then Str.digitsValue 10 0 s else None.

(** A month 1..12 and a day that exists in that month. *)
Definition validDate (y m d : Z) : bool :=
  (1 <=? m) && (m <=? 12) && (1 <=? d) && (d <=? daysInMonth y m).

(** The date-only forms [YYYY], [YYYY-MM] and [YYYY-MM-DD] of the ISO
    format, with a month in 01..12 and a day that exists in that month: the
    civil date they name (a missing month or day is 1). *)
Definition dateOnlyFields (s : string) : option (Z * Z * Z) :=
  match Str.split "-" s with
  | [ys] =>
      match fixedDigits 4 ys with
      | Some y => Some (y, 1, 1)
      | None => None
      end
  | [ys; ms] =>
      match fixedDigits 4 ys, fixedDigits 2 ms with
      | Some y, Some m => if validDate y m 1 then Some (y, m, 1) else None
      | _, _ => None
      end
  | [ys; ms; ds] =>
      match fixedDigits 4 ys, fixedDigits 2 ms, fixedDigits 2 ds with
      | Some y, Some m, Some d => if validDate y m d then Some (y, m, d) else None
      | _, _, _ => None
      end
  | _ => None
  end.

(** The time value of a date-only string: midnight UTC of its date. *)
Definition parseDateOnly (s : string) : option Z :=
  match dateOnlyFields s with
  | Some (y, m, d) => Some (MakeDate (daysFromCivil y m d) 0)
  | None => None
  end.

Section WithHost.

Variable host : Host.

Definition LocalTime (t : Z) : Z := t + LocalTZA host t true.
Definition UTC (t : Z) : Z := t - LocalTZA host t false.

(** [Date.parse(s)] and [new Date(s)] on a string. *)
Definition parse (s : string) : option Z :=
  match parseDateOnly s with
  | Some t => TimeClip t
  | None =>
      match hostParse host s with
      | Some t => TimeClip t
      | None => None
      end
  end.

(** [new Date(year, monthIndex, day)] on integers: local midnight; a year
    from 0 to 99 stands for 1900 + year. *)
Definition fromYMD (year monthIndex day : Z) : option Z :=
  let yr := if (0 <=? year) && (year <=? 99) then 1900 + year else year in
  TimeClip (UTC (MakeDate (MakeDay yr monthIndex day) 0)).

Definition getFullYear (d : option Z) : option Z :=
  option_map (fun t => YearFromTime (LocalTime t)) d.
Definition getMonth (d : option Z) : option Z :=
  option_map (fun t => MonthFromTime (LocalTime t)) d.
Definition getDate (d : option Z) : option Z :=
  option_map (fun t => DateFromTime (LocalTime t)) d.
Definition getDay (d : option Z) : option Z :=
  option_map (fun t => WeekDay (LocalTime t)) d.

(** [d.setDate(dt)] on an integer: the day of the month is replaced in local
    time; an invalid Date stays invalid. *)
Definition setDate (d : option Z) (dt : Z) : option Z :=
  match d with
  | Some tv =>
      let t := LocalTime tv in
      TimeClip (UTC (MakeDate (MakeDay (YearFromTime t) (MonthFromTime t) dt)
                              (TimeWithinDay t)))
  | None => None
  end.

End WithHost.

End JSDate.

(** ** Helpers shared by [server.js] and [app.js] *)

(** [round2(value)]: [Math.round(Number(value || 0) * 100) / 100]
    ([server.js] lines 65-67 and [app.js] lines 58-60, the same text). *)
Definition round2 (value : jsval) : number :=
  Num.div
    (Num.Math_round
       (Num.mul (Val.ToNumber (Val.or value (JNum Num.zero))) (Num.ofZ 100)))
    (Num.ofZ 100).

(** The branch of the two hours parsers for a string with a colon
    ([server.js] lines 73-77, [app.js] lines 71-75, the same text):
    [const [h, m] = trimmed.split(':').map(Number)], then the range test. *)
Definition parseColon (trimmed : string) : option number :=
  match map Str.StringToNumber (Str.split ":" trimmed) with
  | h :: m :: _ =>
      if Num.isFinite h && Num.isFinite m
         && Num.geb h Num.zero && Num.geb m Num.zero && Num.ltb m (Num.ofZ 60)
      then Some (round2 (JNum (Num.add h (Num.div m (Num.ofZ 60)))))
      else None
  | _ => None
  end.

Module Server.

(** [toNumber(value, fallback)] ([server.js] lines 60-63). *)
Definition toNumber (value fallback : jsval) : jsval :=
  let num := Val.ToNumber value in
  if Num.isFinite num then JNum num else fallback.

(** [parseHoursInput(value)] ([server.js] lines 69-82); [None] is [null]. *)
Definition parseHoursInput (value : jsval) : option number :=
  match value with
  | JStr s =>
      let trimmed := Str.trim s in
      if Str.includes ":" trimmed then parseColon trimmed
      else Some (round2 (toNumber (JStr trimmed) (JNum Num.zero)))
  | _ => Some (round2 (toNumber value (JNum Num.zero)))
  end.

(** The stored document's [entries]: an object from date strings to hours,
    as the list of its own keys in enumeration order, each key once. *)
Definition Entries : Type := list (string * jsval).

(** The test of [/^\d{4}-\d{2}$/]: four digits, a hyphen, two digits; the
    year and the month that [month.split('-').map(Number)] then reads. *)
Definition matchYearMonth (month : string) : option (Z * Z) :=
  match Str.split "-" month with
  | [ys; ms] =>
      match JSDate.fixedDigits 4 ys, JSDate.fixedDigits 2 ms with
      | Some y, Some m => Some (y, m)
      | _, _ => None
      end
  | _ => None
  end.

Inductive Response : Type :=
| BadRequest (error : string)
| Ok (entries : Entries).

(** The loop body's test in the handler of [DELETE /api/month]
    ([server.js] lines 349-350): [getFullYear] and [getMonth] of an invalid
    Date are NaN and equal no number. *)
Definition inMonth (host : JSDate.Host) (year mon : Z) (date : string) : bool :=
  let d := JSDate.parse host date in
  match JSDate.getFullYear host d, JSDate.getMonth host d with
  | Some y, Some m => (y =? year) && (m + 1 =? mon)
  | _, _ => false
  end.

(** The handler of [DELETE /api/month] ([server.js] lines 341-356) on the
    query parameter [month] ([None] when missing) and the stored entries:
    the response and the entries that are stored afterwards. *)
Definition clearMonth (host : JSDate.Host) (month : option string) (entries : Entries)
  : Response * Entries :=
  match month with
  | None => (BadRequest "Month should be YYYY-MM", entries)
  | Some mstr =>
      match matchYearMonth mstr with
      | None => (BadRequest "Month should be YYYY-MM", entries)
      | Some (year, mon) =>
          let kept :=
            filter (fun kv => negb (inMonth host year mon (fst kv))) entries in
          (Ok kept, kept)
      end
  end.

(** [profile.defaults], the two fields that feed the money computation, and
    [DEFAULT_DATA.profile.defaults] ([server.js] lines 44-52). *)
Module Defaults.
Record t : Type := { hourlyRate : jsval; vatPercent : jsval }.
End Defaults.

Definition DEFAULT_defaults : Defaults.t :=
  {| Defaults.hourlyRate := JNull; Defaults.vatPercent := JNum (Num.ofZ 23) |}.

(** The request body of [POST /api/invoices], the fields that feed the money
    computation.  [extra] is [None] when the body has no [extra] object; a
    description is a string when it is there. *)
Module RawExtra.
Record t : Type := { desc : option string; net : jsval }.
End RawExtra.

Module Body.
Record t : Type := {
  hours : jsval;
  rate : jsval;
  vatPercent : jsval;
  manualNet : jsval;
  extra : option RawExtra.t
}.
End Body.

(** The stored extra line, [{ desc, net }]. *)
Module Extra.
Record t : Type := { desc : string; net : number }.
End Extra.

(** The money fields of the record that [normalizeInvoice] returns;
    [None] is [null]. *)
Module Invoice.
Record t : Type := {
  vatPercent : jsval;
  rate : jsval;
  hours : number;
  net : number;
  totalNet : number;
  vatAmount : number;
  gross : number;
  extra : option Extra.t;
  manualNet : option number
}.
End Invoice.

(** [cleanText(value)] ([server.js] lines 56-58) on a string or nothing. *)
Definition cleanText (value : option string) : string :=
  match value with
  | Some s => Str.trim s
  | None => EmptyString
  end.

(** [body.manualNet === 0 || body.manualNet]. *)
Definition manualNetGiven (v : jsval) : bool :=
  match v with
  | JNum (S754_zero _) => true
  | _ => Val.truthy v
  end.

(** [normalizeInvoice(body, profile)] ([server.js] lines 183-242), the money
    fields; [profile] is [None] when it has no [defaults].  The dates, the
    parties, the texts and the identifiers of the record are computed apart
    from these and are left out; [InvoiceRecord.normalizeInvoice] below
    puts the dates, which can throw, before them.  Where the source has a
    Number for sure (the result of [toNumber] with a Number as fallback),
    [Val.ToNumber] reads it. *)
Definition normalizeInvoice (body : Body.t) (profile : option Defaults.t) : Invoice.t :=
  let defaults :=
    match profile with
    | Some d => d
    | None => DEFAULT_defaults
    end in
  let vatPercent :=
    match Body.vatPercent body with
    | JUndefined => Defaults.vatPercent defaults
    | v => toNumber v (Defaults.vatPercent defaults)
    end in
  let hoursVal := parseHoursInput (Body.hours body) in
  let hours :=
    match hoursVal with
    | None => Num.zero
    | Some h => h
    end in
  let rate :=
    toNumber (Body.rate body) (Val.nullish (Defaults.hourlyRate defaults) (JNum Num.zero)) in
  let baseNet := round2 (JNum (Num.mul hours (Val.ToNumber rate))) in
  let extraNetRaw :=
    match Body.extra body with
    | Some x => RawExtra.net x
    | None => JUndefined
    end in
  let extraDesc :=
    match Body.extra body with
    | Some x => RawExtra.desc x
    | None => None
    end in
  let extraNet := round2 (toNumber extraNetRaw (JNum Num.zero)) in
  let manualNet :=
    if manualNetGiven (Body.manualNet body)
    then Some (Val.ToNumber (toNumber (Body.manualNet body) (JNum baseNet)))
    else None in
  let netValue :=
    match manualNet with
    | Some mn => round2 (JNum mn)
    | None => baseNet
    end in
  let totalNet :=
    match manualNet with
    | Some mn => round2 (JNum (Num.add mn extraNet))
    | None => round2 (JNum (Num.add baseNet extraNet))
    end in
  let vatAmount :=
    round2 (JNum (Num.mul totalNet (Num.div (Val.ToNumber vatPercent) (Num.ofZ 100)))) in
  let gross := round2 (JNum (Num.add totalNet vatAmount)) in
  {| Invoice.vatPercent := vatPercent;
     Invoice.rate := rate;
     Invoice.hours := hours;
     Invoice.net := netValue;
     Invoice.totalNet := totalNet;
     Invoice.vatAmount := vatAmount;
     Invoice.gross := gross;
     Invoice.extra :=
       if Num.truthy extraNet && negb (Str.isEmpty (cleanText extraDesc))
       then Some {| Extra.desc := cleanText extraDesc; Extra.net := extraNet |}
       else None;
     Invoice.manualNet := manualNet |}.

End Server.

Module App.

(** [parseNumber(value)] ([app.js] lines 62-65); [None] is [null]. *)
Definition parseNumber (value : jsval) : option number :=
  let num := Val.parseFloat value in
  if Num.isFinite num then Some num else None.

(** [parseHours(value)] ([app.js] lines 67-82); [None] is [null]. *)
Definition parseHours (value : jsval) : option number :=
  match value with
  | JStr s =>
      let trimmed := Str.trim s in
      if Str.includes ":" trimmed then parseColon trimmed
      else
        match parseNumber (JStr trimmed) with
        | None => None
        | Some num => Some (round2 (JNum num))
        end
  | _ =>
      match parseNumber value with
      | None => None
      | Some num => Some (round2 (JNum num))
      end
  end.

(** [state.entries], as the list of its own keys in enumeration order. *)
Definition Entries : Type := list (string * jsval).

(** [Number(hours) || 0]. *)
Definition hoursOr0 (hours : jsval) : number :=
  let n := Val.ToNumber hours in
  if Num.truthy n then n else Num.zero.

(** The test in the loop of [sumEntriesForMonth] ([app.js] lines 142-143). *)
Definition sameMonth (host : JSDate.Host) (targetYear targetMonth : Z) (date : string) : bool :=
  let d := JSDate.parse host date in
  match JSDate.getFullYear host d, JSDate.getMonth host d with
  | Some y, Some m => (y =? targetYear) && (m =? targetMonth)
  | _, _ => false
  end.

(** [sumEntriesForMonth(refDate)] ([app.js] lines 134-148) over the entries
    of the state; [refDate] is a string or nothing, and [None] is [null]. *)
Definition sumEntriesForMonth (host : JSDate.Host) (entries : Entries)
    (refDate : option string) : option number :=
  match refDate with
  | None => None
  | Some r =>
      if Str.isEmpty r then None
      else
        let target := JSDate.parse host r in
        match JSDate.getFullYear host target, JSDate.getMonth host target with
        | Some targetYear, Some targetMonth =>
            let total :=
              fold_left
                (fun total kv =>
                   if sameMonth host targetYear targetMonth (fst kv)
                   then Num.add total (hoursOr0 (snd kv))
                   else total)
                entries Num.zero in
            Some (round2 (JNum total))
        | _, _ => None
        end
  end.

(** [computeEaster(year)] ([app.js] lines 150-166) on an integral year: the
    month (1..12) and the day that the function passes to [new Date].  On
    integers of this size the Number arithmetic is exact: [%] is the
    remainder that takes the sign of the dividend and [Math.floor(a / b)] is
    the floor of the quotient. *)
Definition easterMonthDay (year : Z) : Z * Z :=
  let a := Z.rem year 19 in
  let b := year / 100 in
  let c := Z.rem year 100 in
  let d := b / 4 in
  let e := Z.rem b 4 in
  let f := (b + 8) / 25 in
  let g := (b - f + 1) / 3 in
  let h := Z.rem (19 * a + b - d - g + 15) 30 in
  let i := c / 4 in
  let k := Z.rem c 4 in
  let l := Z.rem (32 + 2 * e + 2 * i - h - k) 7 in
  let m := (a + 11 * h + 22 * l) / 451 in
  let month := (h + l - 7 * m + 114) / 31 in
  let day := Z.rem (h + l - 7 * m + 114) 31 + 1 in
  (month, day).

Definition computeEaster (host : JSDate.Host) (year : Z) : option Z :=
  let '(month, day) := easterMonthDay year in
  JSDate.fromYMD host year (month - 1) day.

(** [dateKey(date)] ([app.js] lines 168-170); [None] when [toISOString]
    throws. *)
Definition dateKey (date : option Z) : option string :=
  option_map (JSDate.take 10) (JSDate.toISOString date).

(** [d.setDate(d.getDate() + n)]. *)
Definition addDays (host : JSDate.Host) (d : option Z) (n : Z) : option Z :=
  match JSDate.getDate host d with
  | Some dt => JSDate.setDate host d (dt + n)
  | None => None
  end.

(** The template literals of [polishHolidays] ([app.js] lines 173-184). *)
Definition fixedHolidays (year : Z) : list string :=
  map (fun md => JSDate.intText year ++ md)
      ["-01-01"; "-01-06"; "-05-01"; "-05-03"; "-08-15";
       "-11-01"; "-11-11"; "-12-24"; "-12-25"; "-12-26"].

(** [polishHolidays(year)] ([app.js] lines 172-196): the elements of the Set
    in insertion order; [None] when [dateKey] throws. *)
Definition polishHolidays (host : JSDate.Host) (year : Z) : option (list string) :=
  let easterSunday := computeEaster host year in
  let easterMonday := addDays host easterSunday 1 in
  let corpusChristi := addDays host easterSunday 60 in
  match dateKey easterMonday, dateKey corpusChristi with
  | Some em, Some cc => Some (fixedHolidays year ++ [em; cc])%list
  | _, _ => None
  end.

(** [holidays.has(key)]. *)
Definition has (holidays : list string) (key : string) : bool :=
  existsb (String.eqb key) holidays.

(** One turn of the loop of [workingDaysInMonth] ([app.js] lines 203-208):
    the count after the day, [None] when [dateKey] throws. *)
Definition countDay (host : JSDate.Host) (holidays : list string) (year month : Z)
    (count : option Z) (day : nat) : option Z :=
  match count with
  | None => None
  | Some n =>
      let d := JSDate.fromYMD host year (month - 1) (Z.of_nat day) in
      let dow := JSDate.getDay host d in
      match dateKey d with
      | None => None
      | Some key =>
          match dow with
          | Some w =>
              if (w =? 0) || (w =? 6) then Some n
              else if has holidays key then Some n
              else Some (n + 1)
          | None => Some (n + 1)
          end
      end
  end.

(** [workingDaysInMonth(year, month)] ([app.js] lines 198-211) on integers;
    [None] when [dateKey] throws.  When [daysInMonth] is NaN the loop does
    not run. *)
Definition workingDaysInMonth (host : JSDate.Host) (year month : Z) : option Z :=
  match polishHolidays host year with
  | None => None
  | Some holidays =>
      match JSDate.getDate host (JSDate.fromYMD host year month 0) with
      | None => Some 0
      | Some daysInMonth =>
          fold_left (countDay host holidays year month)
                    (seq 1 (Z.to_nat daysInMonth)) (Some 0)
      end
  end.

End App.

(** ** The documented formulas

    Definitions that follow the words of the specification, to be compared
    with what the code computes. *)

Module Spec.

(** "Extra line net, if an extra description is present, is
    [round2(extra.net)], else 0." *)
Definition extraLineNet (body : Server.Body.t) : number :=
  match Server.Body.extra body with
  | Some x =>
      if Str.isEmpty (Server.cleanText (Server.RawExtra.desc x)) then Num.zero
      else round2 (Server.toNumber (Server.RawExtra.net x) (JNum Num.zero))
  | None => Num.zero
  end.

(** "totalNet = (manualNet ?? hours*rate) + (extra?.net ?? 0), rounded to 2
    decimals at every intermediate step; vatAmount = round2(totalNet *
    vatPercent/100); gross = totalNet + vatAmount", recomputed from the
    fields stored on a record: (totalNet, vatAmount, gross). *)
Definition rederive (inv : Server.Invoice.t) : number * number * number :=
  let base :=
    match Server.Invoice.manualNet inv with
    | Some mn => mn
    | None =>
        round2 (JNum (Num.mul (Server.Invoice.hours inv)
                              (Val.ToNumber (Server.Invoice.rate inv))))
    end in
  let extraNet :=
    match Server.Invoice.extra inv with
    | Some x => Server.Extra.net x
    | None => Num.zero
    end in
  let totalNet := round2 (JNum (Num.add base extraNet)) in
  let vatAmount :=
    round2 (JNum (Num.mul totalNet
                   (Num.div (Val.ToNumber (Server.Invoice.vatPercent inv)) (Num.ofZ 100)))) in
  (totalNet, vatAmount, round2 (JNum (Num.add totalNet vatAmount))).

(** "Every entry whose date falls within the given calendar month": the
    entry's key names a civil date of that year and month. *)
Definition inMonth (year mon : Z) (date : string) : bool :=
  match JSDate.dateOnlyFields date with
  | Some (y, m, _) => (y =? year) && (m =? mon)
  | None => false
  end.

(** The key [YYYY-MM-DD] of a civil date, years 0 to 9999. *)
Definition key (y m d : Z) : string :=
  JSDate.pad 4 y ++ "-" ++ JSDate.pad 2 m ++ "-" ++ JSDate.pad 2 d.

(** The key of the civil date [n] days after [y]-[m]-[d]. *)
Definition keyAfter (y m d n : Z) : string :=
  let '(y', m', d') := JSDate.civilFromDays (JSDate.daysFromCivil y m d + n) in
  key y' m' d'.

(** "Fixed holidays: Jan 1, Jan 6, May 1, May 3, Aug 15, Nov 1, Nov 11,
    Dec 24, Dec 25, Dec 26", then "Easter Monday (+1 day) and Corpus Christi
    (+60 days from Easter Sunday)", as civil dates of the year. *)
Definition holidaysOf (year : Z) : list string :=
  let '(em, ed) := App.easterMonthDay year in
  [key year 1 1; key year 1 6; key year 5 1; key year 5 3; key year 8 15;
   key year 11 1; key year 11 11; key year 12 24; key year 12 25; key year 12 26;
   keyAfter year em ed 1; keyAfter year em ed 60].

(** The day of the week of a civil date, 0 for Sunday. *)
Definition weekday (y m d : Z) : Z := (JSDate.daysFromCivil y m d + 4) mod 7.

(** "Iterate every calendar day in the month; exclude Saturdays, Sundays, and
    any date present in holidaysOf(year); count the remainder." *)
Definition workingDay (year month : Z) (day : nat) : bool :=
  let d := Z.of_nat day in
  negb ((weekday year month d =? 0) || (weekday year month d =? 6))
  && negb (App.has (holidaysOf year) (key year month d)).

Definition workingDaysInMonth (year month : Z) : Z :=
  Z.of_nat
    (List.length
       (filter (workingDay year month)
               (seq 1 (Z.to_nat (JSDate.daysInMonth year month))))).

End Spec.

(** ** Sample data *)

(** A Number written as a decimal literal. *)
Definition numeral (s : string) : number := Str.StringToNumber s.

(** Hosts at UTC, at UTC+01:00 and at UTC-05:00. *)
Definition utc : JSDate.Host := JSDate.fixedOffset 0.
Definition utcPlus1 : JSDate.Host := JSDate.fixedOffset 60.
Definition utcMinus5 : JSDate.Host := JSDate.fixedOffset (-300).

(** The entries of the specification's example. *)
Definition marchEntries : list (string * jsval) :=
  [("2024-03-01", JNum (numeral "4"));
   ("2024-03-15", JNum (numeral "3.5"));
   ("2024-04-01", JNum (numeral "8"))].

(** [{hours: "1", rate: 10, extra: {net: 5}}]: an extra net and no
    description. *)
Definition extraWithoutDesc : Server.Body.t :=
  {| Server.Body.hours := JStr "1";
     Server.Body.rate := JNum (numeral "10");
     Server.Body.vatPercent := JUndefined;
     Server.Body.manualNet := JUndefined;
     Server.Body.extra :=
       Some {| Server.RawExtra.desc := None;
               Server.RawExtra.net := JNum (numeral "5") |} |}.

(** [{hours: "2", rate: 100, vatPercent: 23, manualNet: 150,
      extra: {desc: "  ", net: 50}}]: a blank description. *)
Definition extraBlankDesc : Server.Body.t :=
  {| Server.Body.hours := JStr "2";
     Server.Body.rate := JNum (numeral "100");
     Server.Body.vatPercent := JNum (numeral "23");
     Server.Body.manualNet := JNum (numeral "150");
     Server.Body.extra :=
       Some {| Server.RawExtra.desc := Some "  ";
               Server.RawExtra.net := JNum (numeral "50") |} |}.


(** [{hours: "8:00", rate: 50, vatPercent: 23}]. *)
Definition eightHours : Server.Body.t :=
  {| Server.Body.hours := JStr "8:00";
     Server.Body.rate := JNum (numeral "50");
     Server.Body.vatPercent := JNum (numeral "23");
     Server.Body.manualNet := JUndefined;
     Server.Body.extra := None |}.

(** ** Quantities named in the properties *)

(** [Number(value || 0) * 100], the product that [round2] rounds. *)
Definition scaled (x : number) : number :=
  Num.mul (Val.ToNumber (Val.or (JNum x) (JNum Num.zero))) (Num.ofZ 100).

(** The number [x] is exactly the integer [n]. *)
Definition isInteger (x : number) (n : Z) : Prop :=
  match x with
  | S754_zero _ => n = 0
  | S754_finite s m e => (Num.valueQ s m e == inject_Z n)%Q
  | _ => False
  end.

(** The range test of the colon branch on the two fields read by [Number]. *)
Definition colonAccepts (h m : number) : bool :=
  Num.isFinite h && Num.isFinite m
  && Num.geb h Num.zero && Num.geb m Num.zero && Num.ltb m (Num.ofZ 60).

(** [hours] as [normalizeInvoice] reads it: the parsed hours, or 0. *)
Definition hoursOf (body : Server.Body.t) : number :=
  match Server.parseHoursInput (Server.Body.hours body) with
  | Some h => h
  | None => Num.zero
  end.

(** [rate] as [normalizeInvoice] reads it. *)
Definition rateOf (body : Server.Body.t) (profile : option Server.Defaults.t) : jsval :=
  Server.toNumber (Server.Body.rate body)
    (Val.nullish
       (Server.Defaults.hourlyRate
          (match profile with Some d => d | None => Server.DEFAULT_defaults end))
       (JNum Num.zero)).

(** [round2(hours * rate)]. *)
Definition baseNetOf (body : Server.Body.t) (profile : option Server.Defaults.t) : number :=
  round2 (JNum (Num.mul (hoursOf body) (Val.ToNumber (rateOf body profile)))).

(** [round2(toNumber(body.extra?.net, 0))], whatever the description. *)
Definition extraNetOf (body : Server.Body.t) : number :=
  round2 (Server.toNumber
            (match Server.Body.extra body with
             | Some x => Server.RawExtra.net x
             | None => JUndefined
             end)
            (JNum Num.zero)).

(** The stored entries of the example together with one of March 2023. *)
Definition storedEntries : Server.Entries :=
  ("2023-03-05", JNum (numeral "6")) :: marchEntries.

(** A year of four digits, a month 1..12 and a day 1..31. *)
Definition inRange (c : Z * Z * Z) : bool :=
  let '(y, m, d) := c in
  (0 <=? y) && (y <=? 9999) && (1 <=? m) && (m <=? 12) && (1 <=? d) && (d <=? 31).

Definition b2z (b : bool) : Z := if b then 1 else 0.

(** ** Texts, parties and file names of [server.js] *)

Module Api.

(** A code unit that [/[^a-z0-9_-]/i] does not match: a letter of either
    case, a digit, an underscore or a hyphen.  Below 256 no other code unit
    has the canonical form of one of these. *)
Definition isSafe (c : ascii) : bool :=
  let n := Str.code c in
  ((97 <=? n) && (n <=? 122)) || ((65 <=? n) && (n <=? 90))
  || ((48 <=? n) && (n <=? 57)) || (n =? 95) || (n =? 45).

(** [s.replace(/[^a-z0-9_-]+/gi, '_')]: every maximal run of other code
    units becomes one underscore; [inRun] says that the run has begun. *)
Fixpoint replaceUnsafe (inRun : bool) (s : string) : string :=
  match s with
  | EmptyString => EmptyString
  | String c r =>
      if isSafe c then String c (replaceUnsafe false r)
      else if inRun then replaceUnsafe true r
      else String "_" (replaceUnsafe true r)
  end.

Definition isUnderscore (c : ascii) : bool := Ascii.eqb c "_".

Fixpoint stripStart (s : string) : string :=
  match s with
  | String c r => if isUnderscore c then stripStart r else s
  | EmptyString => EmptyString
  end.

Fixpoint stripEnd (s : string) : string :=
  match s with
  | String c r =>
      let r' := stripEnd r in
      if isUnderscore c && Str.isEmpty r' then EmptyString else String c r'
  | EmptyString => EmptyString
  end.

(** [sanitizeFileName(text, fallback)] ([server.js] lines 157-160) on a
    string or nothing: [.replace(/^_+|_+$/g, '')] removes the underscores at
    the start, then those at the end. *)
Definition sanitizeFileName (text : option string) (fallback : string) : string :=
  let safe := stripEnd (stripStart (replaceUnsafe false (Server.cleanText text))) in
  if Str.isEmpty safe then fallback else safe.

(** A party as a request or the profile gives it: each field a string or
    missing. *)
Module RawParty.
Record t : Type := {
  name : option string;
  address : option string;
  city : option string;
  taxId : option string;
  nip : option string;
  account : option string;
  bank : option string
}.
End RawParty.

Module Party.
Record t : Type := {
  name : string;
  address : string;
  city : string;
  taxId : string;
  account : string;
  bank : string
}.
End Party.

(** [a || b] on strings that may be missing. *)
Definition orText (a b : option string) : option string :=
  match a with
  | Some s => if Str.isEmpty s then b else a
  | None => b
  end.

(** [normalizeParty(party)] ([server.js] lines 172-181). *)
Definition normalizeParty (party : RawParty.t) : Party.t :=
  {| Party.name := Server.cleanText (RawParty.name party);
     Party.address := Server.cleanText (RawParty.address party);
     Party.city := Server.cleanText (RawParty.city party);
     Party.taxId := Server.cleanText (orText (RawParty.taxId party) (RawParty.nip party));
     Party.account := Server.cleanText (RawParty.account party);
     Party.bank := Server.cleanText (RawParty.bank party) |}.

End Api.

(** Every code unit of [s] passes [p]. *)
Fixpoint allChars (p : ascii -> bool) (s : string) : bool :=
  match s with
  | EmptyString => true
  | String c r => p c && allChars p r
  end.

Definition firstChar (s : string) : option ascii :=
  match s with
  | String c _ => Some c
  | EmptyString => None
  end.

Fixpoint lastChar (s : string) : option ascii :=
  match s with
  | EmptyString => None
  | String c EmptyString => Some c
  | String _ r => lastChar r
  end.

(** A stored party sent back as a request's party. *)
Definition partyAsRaw (p : Api.Party.t) : Api.RawParty.t :=
  {| Api.RawParty.name := Some (Api.Party.name p);
     Api.RawParty.address := Some (Api.Party.address p);
     Api.RawParty.city := Some (Api.Party.city p);
     Api.RawParty.taxId := Some (Api.Party.taxId p);
     Api.RawParty.nip := None;
     Api.RawParty.account := Some (Api.Party.account p);
     Api.RawParty.bank := Some (Api.Party.bank p) |}.

(** The number [x] is a zero, a finite value or an infinity of sign bit
    [s] ([true] for a minus); no NaN has one. *)
Definition hasSign (s : bool) (x : number) : Prop :=
  match x with
  | S754_zero s' | S754_infinity s' | S754_finite s' _ _ => s' = s
  | S754_nan => False
  end.

(** ** Stored objects

    An object read from the data file, as the list of its own properties in
    enumeration order: the keys that are array indices first, in ascending
    order, then the other keys in the order of their creation; each key
    once. *)

Module Obj.

Definition t : Type := list (string * jsval).

(** The own property [k], if there is one. *)
Fixpoint get (k : string) (o : t) : option jsval :=
  match o with
  | [] => None
  | (k', v) :: r => if String.eqb k' k then Some v else get k r
  end.

Definition hasOwn (k : string) (o : t) : bool :=
  match get k o with
  | Some _ => true
  | None => false
  end.

(** A canonical array index: the decimal text of an integer from 0 to
    [2^32 - 2]. *)
Definition arrayIndex (k : string) : option Z :=
  match k with
  | EmptyString => None
  | String c r =>
      if Ascii.eqb c "0" && negb (Str.isEmpty r) then None
      else
        match Str.digitsValue 10 0 k with
        | Some i => if i <=? 4294967294 then Some i else None
        | None => None
        end
  end.

(** The value of an existing own property is replaced where it stands. *)
Fixpoint replace (k : string) (v : jsval) (o : t) : t :=
  match o with
  | [] => []
  | (k', v') :: r =>
      if String.eqb k' k then (k, v) :: r else (k', v') :: replace k v r
  end.

(** A new array index goes before the first key that is a larger index or
    no index. *)
Fixpoint insertIndex (i : Z) (k : string) (v : jsval) (o : t) : t :=
  match o with
  | [] => [(k, v)]
  | (k', v') :: r =>
      match arrayIndex k' with
      | Some j => if j <? i then (k', v') :: insertIndex i k v r else (k, v) :: o
      | None => (k, v) :: o
      end
  end.

(** A new own property. *)
Definition define (k : string) (v : jsval) (o : t) : t :=
  match arrayIndex k with
  | Some i => insertIndex i k v o
  | None => (o ++ [(k, v)])%list
  end.

(** [o[k] = v] for a primitive [v]: an own property is written; the
    inherited setter of ["__proto__"] makes no property of a primitive; any
    other key becomes a new own property. *)
Definition set (k : string) (v : jsval) (o : t) : t :=
  if hasOwn k o then replace k v o
  else if String.eqb k "__proto__" then o
  else define k v o.

(** [delete o[k]]. *)
Definition delete (k : string) (o : t) : t :=
  filter (fun kv => negb (String.eqb (fst kv) k)) o.

End Obj.

Module Json.

(** A Number after [JSON.stringify] and [JSON.parse]: NaN and the
    infinities are written as [null], and the negative zero as [0]; every
    other Number reads back as itself. *)
Definition number (x : number) : jsval :=
  match x with
  | S754_finite _ _ _ => JNum x
  | S754_zero _ => JNum Num.zero
  | S754_infinity _ | S754_nan => JNull
  end.

End Json.

Module Entry.

(** The handler of [POST /api/entry] and [PUT /api/entry] ([server.js]
    lines 311-330) on the fields [date] and [hours] of the body and the
    stored entries: the response and the entries that are stored
    afterwards, both as [JSON.stringify] writes them. *)
Definition post (host : JSDate.Host) (date hours : jsval) (entries : Obj.t)
  : Server.Response * Obj.t :=
  match date with
  | JStr d =>
      if Str.isEmpty d then (Server.BadRequest "Invalid date", entries)
      else
        match JSDate.parse host d with
        | None => (Server.BadRequest "Invalid date", entries)
        | Some _ =>
            match Server.parseHoursInput hours with
            | None => (Server.BadRequest "Invalid hours value", entries)
            | Some numericHours =>
                if Num.ltb numericHours Num.zero
                then (Server.BadRequest "Invalid hours value", entries)
                else
                  let stored := Obj.set d (Json.number numericHours) entries in
                  (Server.Ok stored, stored)
            end
        end
  | _ => (Server.BadRequest "Invalid date", entries)
  end.

(** The handler of [DELETE /api/entry] ([server.js] lines 332-339) on the
    query parameter [date] ([None] when missing). *)
Definition delete (date : option string) (entries : Obj.t) : Server.Response * Obj.t :=
  match date with
  | None => (Server.BadRequest "Missing date", entries)
  | Some d =>
      if Str.isEmpty d then (Server.BadRequest "Missing date", entries)
      else
        let kept := Obj.delete d entries in
        (Server.Ok kept, kept)
  end.

End Entry.

(** The hours that the entry handler may store: a finite Number that is not
    below zero, or [null]. *)
Definition storedHours (v : jsval) : Prop :=
  match v with
  | JNull => True
  | JNum x => Num.isFinite x = true /\ Num.geb x Num.zero = true
  | _ => False
  end.

(** [a === b] on primitive values. *)
Definition strictEq (a b : jsval) : bool :=
  match a, b with
  | JUndefined, JUndefined | JNull, JNull => true
  | JBool x, JBool y => Bool.eqb x y
  | JNum x, JNum y => Num.eqb x y
  | JStr s, JStr t => String.eqb s t
  | _, _ => false
  end.

(** [arr.findIndex(test)]: [None] is [-1]. *)
Fixpoint findIndex {A : Type} (test : A -> bool) (arr : list A) : option nat :=
  match arr with
  | [] => None
  | x :: r => if test x then Some O else option_map S (findIndex test r)
  end.

(** [arr[idx] = value] for an index within the array. *)
Fixpoint setAt {A : Type} (idx : nat) (value : A) (arr : list A) : list A :=
  match arr, idx with
  | [], _ => []
  | _ :: r, O => value :: r
  | x :: r, S i => x :: setAt i value r
  end.

(** [o.id] of a stored object; a missing property reads as [undefined]. *)
Definition idOf (o : Obj.t) : jsval :=
  match Obj.get "id" o with
  | Some v => v
  | None => JUndefined
  end.

Module Client.

(** The fields that the handler reads from the body of
    [POST /api/clients]: an [id] of any primitive value, and texts that are
    strings or missing. *)
Module Body.
Record t : Type := {
  id : jsval;
  name : option string;
  address : option string;
  city : option string;
  taxId : option string
}.
End Body.

Inductive Response : Type :=
| BadRequest (error : string)
| Ok (clients : list Obj.t).

(** The own property [k] is created or overwritten (the spread of an object
    literal defines properties, it does not assign them). *)
Definition put (o : Obj.t) (kv : string * jsval) : Obj.t :=
  if Obj.hasOwn (fst kv) o then Obj.replace (fst kv) (snd kv) o
  else Obj.define (fst kv) (snd kv) o.

(** [{ ...a, ...b }]. *)
Definition spread (a b : Obj.t) : Obj.t := fold_left put b a.

(** The [record] of the handler ([server.js] lines 368-374); [now] is
    [Date.now()]. *)
Definition record (now : Z) (body : Body.t) : Obj.t :=
  [("id", Val.or (Body.id body) (JStr (JSDate.intText now)));
   ("name", JStr (Server.cleanText (Body.name body)));
   ("address", JStr (Server.cleanText (Body.address body)));
   ("city", JStr (Server.cleanText (Body.city body)));
   ("taxId", JStr (Server.cleanText (Body.taxId body)))].

(** The handler of [POST /api/clients] and [PUT /api/clients]
    ([server.js] lines 363-385) on the body and the stored clients, each an
    object: the response and the clients that are stored afterwards. *)
Definition post (now : Z) (body : Body.t) (clients : list Obj.t)
  : Response * list Obj.t :=
  if Str.isEmpty (Server.cleanText (Body.name body))
  then (BadRequest "Client name is required", clients)
  else
    let rec := record now body in
    match findIndex (fun c => strictEq (idOf c) (idOf rec)) clients with
    | Some idx =>
        let next := setAt idx (spread (nth idx clients []) rec) clients in
        (Ok next, next)
    | None =>
        let next := (clients ++ [rec])%list in
        (Ok next, next)
    end.

(** The handler of [DELETE /api/clients] ([server.js] lines 387-395) on the
    query parameter [id] ([None] when missing). *)
Definition delete (id : option string) (clients : list Obj.t) : Response * list Obj.t :=
  match id with
  | None => (BadRequest "Missing client id", clients)
  | Some i =>
      if Str.isEmpty i then (BadRequest "Missing client id", clients)
      else
        let next := filter (fun c => negb (strictEq (idOf c) (JStr i))) clients in
        (Ok next, next)
  end.

End Client.

(** No two clients of the list have the same [id]. *)
Definition distinctIds (clients : list Obj.t) : Prop :=
  ForallOrdPairs (fun a b => strictEq (idOf a) (idOf b) = false) clients.

(** Two stored clients and a request that renames the second. *)
Definition sampleClients : list Obj.t :=
  [[("id", JStr "1700000000000"); ("name", JStr "Acme"); ("address", JStr "1 Main St");
    ("city", JStr "Gdansk"); ("taxId", JStr "PL1")];
   [("id", JStr "c2"); ("name", JStr "Bolt"); ("address", JStr ""); ("city", JStr "");
    ("taxId", JStr ""); ("note", JStr "vip")]].

Definition renameBolt : Client.Body.t :=
  {| Client.Body.id := JStr "c2";
     Client.Body.name := Some "  Bolt Ltd ";
     Client.Body.address := Some "2 Side St";
     Client.Body.city := None;
     Client.Body.taxId := Some "PL2" |}.

Definition newClient : Client.Body.t :=
  {| Client.Body.id := JStr "c3";
     Client.Body.name := Some "Cog";
     Client.Body.address := None;
     Client.Body.city := None;
     Client.Body.taxId := None |}.

(** The integral part of a finite Number (the truncation that
    ToIntegerOrInfinity makes); [None] for NaN and the infinities. *)
Definition integerPart (x : number) : option Z :=
  match x with
  | S754_zero _ => Some 0
  | S754_finite s m e =>
      Some (cond_Zopp s (if 0 <=? e then Zpos m * 2 ^ e else Zpos m / 2 ^ (- e)))
  | S754_infinity _ | S754_nan => None
  end.

Module Due.

(** [d.setDate(x)] on a Number: the integral part of [x] is the new day of
    the month; NaN or an infinity makes the Date invalid. *)
Definition setDate (host : JSDate.Host) (d : option Z) (x : number) : option Z :=
  match integerPart x with
  | Some dt => JSDate.setDate host d dt
  | None => None
  end.

(** [Number.isFinite(dueDays) ? dueDays : 0]: a value that is not a Number
    is not finite. *)
Definition daysOf (dueDays : jsval) : number :=
  match dueDays with
  | JNum x => if Num.isFinite x then x else Num.zero
  | _ => Num.zero
  end.

(** [computeDueDate(issueDate, dueDays)] ([server.js] lines 162-170) on a
    string; [now] is [Date.now()], and [None] is the RangeError that
    [toISOString] throws on an invalid Date. *)
Definition computeDueDate (host : JSDate.Host) (now : Z) (issueDate : string)
    (dueDays : jsval) : option string :=
  let parsed :=
    if Str.isEmpty issueDate then JSDate.TimeClip now
    else JSDate.parse host issueDate in
  let base :=
    match parsed with
    | Some t => Some t
    | None => JSDate.TimeClip now
    end in
  let days := daysOf dueDays in
  match JSDate.getDate host base with
  | Some date =>
      option_map (JSDate.take 10)
        (JSDate.toISOString (setDate host base (Num.add (Num.ofZ date) days)))
  | None => None
  end.

End Due.

(** The day numbers of the dates from 0000-01-01 to 9999-12-31, whose years
    [toISOString] writes with four digits. *)
Definition fourDigitYear (day : Z) : Prop := -719528 <= day <= 2932896.

(** The date fields of [normalizeInvoice] ([server.js] lines 185-189 and
    204-206), which are computed apart from the money fields. *)
Module InvoiceDates.

(** The fields of the body that feed them: texts that are strings or
    missing, and [dueDays] of any primitive value. *)
Module Body.
Record t : Type := {
  issueDate : option string;
  saleDate : option string;
  dueDays : jsval;
  dueDate : option string
}.
End Body.

(** [None] in [month] and [year] is the NaN of an invalid sale date. *)
Record t : Type := {
  issueDate : string;
  saleDate : string;
  dueDays : jsval;
  dueDate : string;
  month : option Z;
  year : option Z
}.

(** [text || other]. *)
Definition orElse (text other : string) : string :=
  if Str.isEmpty text then other else text.

(** [now] is the time of [new Date()], [later] the [Date.now()] of
    [computeDueDate], and [defaultDueDays] is [defaults.dueDays]; [None] is
    the RangeError of a [toISOString]. *)
Definition normalize (host : JSDate.Host) (now later : Z) (body : Body.t)
    (defaultDueDays : jsval) : option t :=
  match JSDate.toISOString (JSDate.TimeClip now) with
  | None => None
  | Some nowIso =>
      let issueDate :=
        orElse (Server.cleanText (Body.issueDate body)) (JSDate.take 10 nowIso) in
      let saleDate := orElse (Server.cleanText (Body.saleDate body)) issueDate in
      let dueDays :=
        match Body.dueDays body with
        | JUndefined => defaultDueDays
        | v => Server.toNumber v defaultDueDays
        end in
      let dueDate :=
        if Str.isEmpty (Server.cleanText (Body.dueDate body))
        then Due.computeDueDate host later issueDate dueDays
        else Some (Server.cleanText (Body.dueDate body)) in
      let sale := JSDate.parse host (orElse saleDate issueDate) in
      match dueDate with
      | None => None
      | Some due =>
          Some {| issueDate := issueDate;
                  saleDate := saleDate;
                  dueDays := dueDays;
                  dueDate := due;
                  month := option_map (fun m => m + 1) (JSDate.getMonth host sale);
                  year := JSDate.getFullYear host sale |}
      end
  end.

End InvoiceDates.

(** ** The invoice form of [app.js] *)

Module Form.

(** The values of the inputs of the invoice form that feed the money
    fields. *)
Record t : Type := {
  hours : string;
  rate : string;
  vatPercent : string;
  manualNet : string;
  extraDesc : string;
  extraNet : string
}.

(** A parsed number, or [null], after [JSON.stringify] and [JSON.parse]. *)
Definition sent (parsed : option number) : jsval :=
  match parsed with
  | Some x => Json.number x
  | None => JNull
  end.

(** [value !== '' ? parseNumber(value) : undefined]; the server reads a
    property that was [undefined] as missing. *)
Definition optionalNumber (value : string) : jsval :=
  if Str.isEmpty value then JUndefined else sent (App.parseNumber (JStr value)).

(** [parseNumber(value) || 0]. *)
Definition numberOr0 (value : string) : number :=
  match App.parseNumber (JStr value) with
  | Some x => if Num.truthy x then x else Num.zero
  | None => Num.zero
  end.

(** The money fields of the payload that [saveInvoice] posts ([app.js]
    lines 521-554), as the server reads them from the body. *)
Definition payload (form : t) : Server.Body.t :=
  {| Server.Body.hours :=
       if Str.isEmpty (hours form) then JNum Num.zero
       else sent (App.parseHours (JStr (hours form)));
     Server.Body.rate := optionalNumber (rate form);
     Server.Body.vatPercent := optionalNumber (vatPercent form);
     Server.Body.manualNet := optionalNumber (manualNet form);
     Server.Body.extra :=
       if Str.isEmpty (Str.trim (extraDesc form)) then None
       else Some {| Server.RawExtra.desc := Some (Str.trim (extraDesc form));
                    Server.RawExtra.net := Json.number (numberOr0 (extraNet form)) |} |}.

End Form.

(** [{issueDate: "2024-03-05", saleDate: "2024-03-01"}]: a sale on the first
    day of March. *)
Definition marchSale : InvoiceDates.Body.t :=
  {| InvoiceDates.Body.issueDate := Some "2024-03-05";
     InvoiceDates.Body.saleDate := Some "2024-03-01";
     InvoiceDates.Body.dueDays := JUndefined;
     InvoiceDates.Body.dueDate := None |}.

(** An invoice form with hours from the ledger, a rate, an extra line and
    no override. *)
Definition sampleForm : Form.t :=
  {| Form.hours := "07:30";
     Form.rate := "120";
     Form.vatPercent := "23";
     Form.manualNet := "";
     Form.extraDesc := " travel ";
     Form.extraNet := "49.99" |}.

(** ** The month filter of [app.js] *)

Module Month.

(** [`${year}-${String(month).padStart(2, '0')}`] for the local year and
    month of the time [now] of [new Date()], as [setDefaultMonth]
    ([app.js] lines 255-259) and [getMonthContext] (lines 91-95) write it
    to the month filter. *)
Definition isoMonth (host : JSDate.Host) (now : Z) : string :=
  let year := JSDate.YearFromTime (JSDate.LocalTime host now) in
  let month := JSDate.MonthFromTime (JSDate.LocalTime host now) + 1 in
  JSDate.intText year ++ "-" ++ JSDate.pad 2 month.

(** What [getMonthContext] returns; [None] in [daysInMonth] is NaN. *)
Record Context : Type := {
  year : Z;
  month : Z;
  daysInMonth : option Z
}.

(** [getMonthContext()] ([app.js] lines 84-98) on the value of the month
    filter: the context, and the value of the filter afterwards. *)
Definition getMonthContext (host : JSDate.Host) (now : Z) (monthValue : string)
  : Context * string :=
  match (if Str.isEmpty monthValue then None else Server.matchYearMonth monthValue) with
  | Some (year, month) =>
      ({| year := year; month := month;
          daysInMonth := JSDate.getDate host (JSDate.fromYMD host year month 0) |},
       monthValue)
  | None =>
      let year := JSDate.YearFromTime (JSDate.LocalTime host now) in
      let month := JSDate.MonthFromTime (JSDate.LocalTime host now) + 1 in
      ({| year := year; month := month;
          daysInMonth := JSDate.getDate host (JSDate.fromYMD host year month 0) |},
       isoMonth host now)
  end.

End Month.

Module InvoiceStore.

Inductive Response : Type :=
| BadRequest (error : string)
| Saved (invoiceId : jsval)
| Deleted.

(** The handler of [POST /api/invoices] and [PUT /api/invoices]
    ([server.js] lines 423-437) after [normalizeInvoice]: [normalized] is
    the record that it returned, as an object, and the stored invoices are
    objects. *)
Definition post (normalized : Obj.t) (invoices : list Obj.t) : Response * list Obj.t :=
  match findIndex (fun inv => strictEq (idOf inv) (idOf normalized)) invoices with
  | Some idx => (Saved (idOf normalized), setAt idx normalized invoices)
  | None => (Saved (idOf normalized), (invoices ++ [normalized])%list)
  end.

(** The handler of [DELETE /api/invoices] ([server.js] lines 439-446) on
    the query parameter [id] ([None] when missing). *)
Definition delete (id : option string) (invoices : list Obj.t) : Response * list Obj.t :=
  match id with
  | None => (BadRequest "Missing invoice id", invoices)
  | Some i =>
      if Str.isEmpty i then (BadRequest "Missing invoice id", invoices)
      else (Deleted, filter (fun inv => negb (strictEq (idOf inv) (JStr i))) invoices)
  end.

End InvoiceStore.

(** Two stored invoices and a new version of the second. *)
Definition sampleInvoices : list Obj.t :=
  [[("id", JStr "1700000000000"); ("invoiceNumber", JStr "INV-1"); ("gross", JNum (Num.ofZ 100))];
   [("id", JStr "i2"); ("invoiceNumber", JStr "INV-2"); ("gross", JNum (Num.ofZ 200))]].

Definition invoiceTwoAgain : Obj.t :=
  [("id", JStr "i2"); ("invoiceNumber", JStr "INV-2"); ("gross", JNum (Num.ofZ 250))].

(** ** The entry form of [app.js] *)

Module EntryForm.

(** [saveEntry] ([app.js] lines 299-307) on the values of the date and
    hours inputs: [None] when it stops at the alert, else the fields [date]
    and [hours] of the body that it posts, as the server reads them. *)
Definition saveEntry (date hours : string) : option (jsval * jsval) :=
  if Str.isEmpty date then None
  else
    match App.parseHours (JStr hours) with
    | None => None
    | Some h => if Num.ltb h Num.zero then None else Some (JStr date, Json.number h)
    end.

End EntryForm.

(** ** [normalizeInvoice] as a whole *)

Module InvoiceRecord.

(** The body of [POST /api/invoices]: its date fields and its money
    fields. *)
Module Body.
Record t : Type := {
  dates : InvoiceDates.Body.t;
  money : Server.Body.t
}.
End Body.

(** [profile.defaults]: the fields that feed the money computation, and
    [dueDays]. *)
Module Defaults.
Record t : Type := {
  money : Server.Defaults.t;
  dueDays : jsval
}.
End Defaults.

(** [DEFAULT_DATA.profile.defaults] ([server.js] lines 44-52). *)
Definition DEFAULT_defaults : Defaults.t :=
  {| Defaults.money := Server.DEFAULT_defaults;
     Defaults.dueDays := JNum (Num.ofZ 14) |}.

(** The date fields and the money fields of the returned record. *)
Record t : Type := {
  dates : InvoiceDates.t;
  money : Server.Invoice.t
}.

(** [normalizeInvoice(body, profile)] ([server.js] lines 183-242) in the
    order of the source: the dates of lines 185-189 come first, and the
    RangeError of a [toISOString] there ([None]) ends the call before the
    money fields of lines 190-202 are computed.  [now] is the time of
    [new Date()] and [later] the [Date.now()] of [computeDueDate].  The
    parties, the texts and the identifiers of the record read strings, on
    which they cannot throw, and are left out. *)
Definition normalizeInvoice (host : JSDate.Host) (now later : Z) (body : Body.t)
    (profile : option Defaults.t) : option t :=
  let defaults :=
    match profile with
    | Some d => d
    | None => DEFAULT_defaults
    end in
  match InvoiceDates.normalize host now later (Body.dates body) (Defaults.dueDays defaults) with
  | None => None
  | Some dates =>
      Some {| dates := dates;
              money := Server.normalizeInvoice (Body.money body)
                         (option_map Defaults.money profile) |}
  end.

End InvoiceRecord.




(** * Properties *)

(** ** Rounding *)

Ltac div_lia := Z.to_euclidean_division_equations; lia.

(** [nearestUp sm k] is the integer [n] with [n - 1/2 <= sm / 2^k < n + 1/2],
    stated without fractions. *)
Lemma nearestUp_bounds (sm k : Z) :
  0 <= k ->
  (2 * Num.nearestUp sm k - 1) * 2 ^ k <= 2 * sm < (2 * Num.nearestUp sm k + 1) * 2 ^ k.
Proof.
  intros Hk. unfold Num.nearestUp.
  assert (Hp : 0 < 2 ^ k) by (apply Z.pow_pos_nonneg; lia).
  replace (k + 1) with (Z.succ k) by lia.
  rewrite Z.pow_succ_r by assumption.
  set (p := 2 ^ k) in *.
  pose proof (Z.div_mod (2 * sm + p) (2 * p) ltac:(lia)) as Hdm.
  pose proof (Z.mod_pos_bound (2 * sm + p) (2 * p) ltac:(lia)) as Hb.
  set (n := (2 * sm + p) / (2 * p)) in *.
  set (r := (2 * sm + p) mod (2 * p)) in *.
  nia.
Qed.

(** The same interval around a fraction of denominator [p]. *)
Lemma half_interval_fraction (n sm : Z) (p : positive) :
  (2 * n - 1) * Zpos p <= 2 * sm < (2 * n + 1) * Zpos p ->
  (inject_Z n - (1 # 2) <= Qmake sm p < inject_Z n + (1 # 2))%Q.
Proof.
  intros [Hlo Hhi]. unfold Qle, Qlt, Qminus, Qplus, Qopp, inject_Z. simpl.
  split; nia.
Qed.

(** An integer lies in its own half-open interval. *)
Lemma half_interval_integer (n : Z) :
  (inject_Z n - (1 # 2) <= inject_Z n < inject_Z n + (1 # 2))%Q.
Proof.
  unfold Qle, Qlt, Qminus, Qplus, Qopp, inject_Z. simpl. split; lia.
Qed.

(** The number of binary digits of a positive integer. *)
Lemma digits2_pos_bounds (p : positive) :
  2 ^ (Zpos (digits2_pos p) - 1) <= Zpos p < 2 ^ Zpos (digits2_pos p).
Proof.
  induction p as [p IH | p IH |]; cbn [digits2_pos].
  - rewrite Pos2Z.inj_succ.
    replace (Z.succ (Zpos (digits2_pos p)) - 1) with (Z.succ (Zpos (digits2_pos p) - 1)) by lia.
    rewrite !Z.pow_succ_r by lia. lia.
  - rewrite Pos2Z.inj_succ.
    replace (Z.succ (Zpos (digits2_pos p)) - 1) with (Z.succ (Zpos (digits2_pos p) - 1)) by lia.
    rewrite !Z.pow_succ_r by lia. lia.
  - cbn. lia.
Qed.

Lemma iter_xO_value (p k : positive) :
  Zpos (Pos.iter xO p k) = Zpos p * 2 ^ Zpos k.
Proof.
  induction k as [| k IH] using Pos.peano_ind.
  - cbn. lia.
  - rewrite Pos.iter_succ, Pos2Z.inj_succ, Z.pow_succ_r by lia.
    rewrite Pos2Z.inj_xO, IH. lia.
Qed.

Lemma iter_xO_digits (p k : positive) :
  digits2_pos (Pos.iter xO p k) = (digits2_pos p + k)%positive.
Proof.
  induction k as [| k IH] using Pos.peano_ind.
  - cbn. lia.
  - rewrite Pos.iter_succ. cbn [digits2_pos]. rewrite IH. lia.
Qed.

(** A mantissa of 53 digits with an exponent in range is left as it is. *)
Lemma binary_round_aux_exact (s : bool) (m : positive) (e : Z) :
  Zpos (digits2_pos m) = 53 -> -1074 <= e <= 971 ->
  binary_round_aux Num.prec Num.emax s (Zpos m) e loc_Exact = S754_finite s m e.
Proof.
  intros Hd He. unfold binary_round_aux, shr_fexp, fexp, emin, Num.prec, Num.emax.
  cbn [Zdigits2 shr_record_of_loc]. rewrite Hd.
  replace (Z.max (53 + e - 53) (3 - 1024 - 53) - e) with 0 by lia.
  cbn [shr shr_m loc_of_shr_record round_nearest_even Zdigits2 shr_record_of_loc].
  rewrite Hd.
  replace (Z.max (53 + e - 53) (3 - 1024 - 53) - e) with 0 by lia.
  cbn [shr shr_m].
  replace (e <=? 1024 - 53) with true by lia. reflexivity.
Qed.

(** An integer below [2^53] is a number, exactly. *)
Lemma ofZ_exact_pos (s : bool) (p : positive) :
  Zpos p < 2 ^ 53 ->
  exists m e,
    binary_round Num.prec Num.emax s p 0 = S754_finite s m e /\
    -52 <= e <= 0 /\ Zpos m = Zpos p * 2 ^ (- e).
Proof.
  intros Hp. pose proof (digits2_pos_bounds p) as Hd.
  assert (Hd53 : Zpos (digits2_pos p) <= 53).
  { destruct (Z_le_gt_dec (Zpos (digits2_pos p)) 53) as [H | H]; [assumption |].
    assert (2 ^ 53 <= 2 ^ (Zpos (digits2_pos p) - 1)) by (apply Z.pow_le_mono_r; lia).
    lia. }
  unfold binary_round, shl_align, fexp, emin, Num.prec, Num.emax.
  replace (Z.max (Zpos (digits2_pos p) + 0 - 53) (3 - 1024 - 53))
    with (Zpos (digits2_pos p) - 53) by lia.
  rewrite Z.sub_0_r.
  destruct (Zpos (digits2_pos p) - 53) as [| k | k] eqn:Hk.
  - exists p, 0. split; [| split; [lia | cbn; lia]].
    apply binary_round_aux_exact; lia.
  - lia.
  - exists (Pos.iter xO p k), (Z.neg k).
    assert (Hkk : Zpos k = 53 - Zpos (digits2_pos p)) by lia.
    split; [| split; [lia |]].
    + apply binary_round_aux_exact; [| lia].
      rewrite iter_xO_digits, Pos2Z.inj_add. lia.
    + rewrite iter_xO_value. cbn [Z.opp]. reflexivity.
Qed.

Lemma ofInteger_exact (s : bool) (n : Z) :
  Z.abs n < 2 ^ 53 -> isInteger (Num.ofInteger s n) n.
Proof.
  intros Hn. destruct n as [| p | p]; [reflexivity | |];
    unfold Num.ofInteger, Num.ofZ, binary_normalize.
  - destruct (ofZ_exact_pos false p Hn) as [m [e [-> [He Hm]]]].
    unfold isInteger, Num.valueQ. cbn [cond_Zopp].
    destruct (0 <=? e) eqn:H0.
    + assert (e = 0) by lia. subst e. cbn in Hm |- *.
      unfold Qeq, inject_Z. cbn. lia.
    + unfold Qeq, inject_Z. cbn [Qnum Qden].
      rewrite Z2Pos.id by (apply Z.pow_pos_nonneg; lia). lia.
  - destruct (ofZ_exact_pos true p Hn) as [m [e [-> [He Hm]]]].
    unfold isInteger, Num.valueQ. cbn [cond_Zopp].
    destruct (0 <=? e) eqn:H0.
    + assert (e = 0) by lia. subst e. cbn in Hm |- *.
      unfold Qeq, inject_Z. cbn. lia.
    + unfold Qeq, inject_Z. cbn [Qnum Qden].
      rewrite Z2Pos.id by (apply Z.pow_pos_nonneg; lia). lia.
Qed.

Lemma nearestUp_small (sm k : Z) :
  0 < k -> Z.abs sm < 2 ^ 53 -> Z.abs (Num.nearestUp sm k) < 2 ^ 53.
Proof.
  intros Hk Hsm. pose proof (nearestUp_bounds sm k ltac:(lia)) as Hb.
  assert (Hp : 2 <= 2 ^ k).
  { change 2 with (2 ^ 1) at 1. apply Z.pow_le_mono_r; lia. }
  set (n := Num.nearestUp sm k) in *. set (p := 2 ^ k) in *.
  change (2 ^ 53) with 9007199254740992 in *. nia.
Qed.

(** [Math.round] of a finite value that is not a zero and has a mantissa
    of at most 53 digits: exactly the integer [n] with
    [n - 1/2 <= x < n + 1/2]. *)
Lemma Math_round_integer (s : bool) (m : positive) (e : Z) :
  Zpos m < 2 ^ 53 ->
  exists n : Z,
    (inject_Z n - (1 # 2) <= Num.valueQ s m e < inject_Z n + (1 # 2))%Q /\
    isInteger (Num.Math_round (S754_finite s m e)) n.
Proof.
  intros Hm. unfold Num.Math_round.
  destruct (0 <=? e) eqn:He.
  - exists (cond_Zopp s (Zpos m) * 2 ^ e). unfold isInteger, Num.valueQ. rewrite He.
    split; [apply half_interval_integer | reflexivity].
  - apply Z.leb_gt in He.
    exists (Num.nearestUp (cond_Zopp s (Zpos m)) (- e)). split.
    + unfold Num.valueQ. replace (0 <=? e) with false by lia.
      apply half_interval_fraction.
      rewrite Z2Pos.id by (apply Z.pow_pos_nonneg; lia).
      apply nearestUp_bounds. lia.
    + apply ofInteger_exact. apply nearestUp_small; [lia |].
      destruct s; cbn [cond_Zopp]; lia.
Qed.

Lemma shr_1_m (mrs : shr_record) :
  0 <= shr_m mrs -> shr_m (shr_1 mrs) = shr_m mrs / 2.
Proof.
  destruct mrs as [m r s]. cbn [shr_m]. intros Hm.
  destruct m as [| [p | p |] | p]; cbn [shr_1 shr_m]; try lia; div_lia.
Qed.

Lemma iter_pos_shr_m (p : positive) (mrs : shr_record) :
  0 <= shr_m mrs ->
  shr_m (iter_pos shr_1 p mrs) = shr_m mrs / 2 ^ Zpos p.
Proof.
  revert mrs. induction p as [p IH | p IH |]; intros mrs Hm; cbn [iter_pos].
  - assert (H1 : 0 <= shr_m (shr_1 mrs)) by (rewrite shr_1_m by assumption; div_lia).
    assert (Hp : 0 < 2 ^ Zpos p) by (apply Z.pow_pos_nonneg; lia).
    assert (H2 : 0 <= shr_m (iter_pos shr_1 p (shr_1 mrs))).
    { rewrite IH by assumption. apply Z.div_pos; lia. }
    rewrite IH by assumption. rewrite IH by assumption. rewrite shr_1_m by assumption.
    assert (Hpow : 2 ^ Zpos p~1 = 2 * 2 ^ Zpos p * 2 ^ Zpos p).
    { replace (Zpos p~1) with (1 + Zpos p + Zpos p) by lia.
      rewrite !Z.pow_add_r by lia. reflexivity. }
    rewrite Hpow, !Z.div_div by lia. f_equal. lia.
  - assert (Hp : 0 < 2 ^ Zpos p) by (apply Z.pow_pos_nonneg; lia).
    assert (H2 : 0 <= shr_m (iter_pos shr_1 p mrs)).
    { rewrite IH by assumption. apply Z.div_pos; lia. }
    rewrite IH by assumption. rewrite IH by assumption.
    assert (Hpow : 2 ^ Zpos p~0 = 2 ^ Zpos p * 2 ^ Zpos p).
    { replace (Zpos p~0) with (Zpos p + Zpos p) by lia.
      rewrite Z.pow_add_r by lia. reflexivity. }
    rewrite Hpow, !Z.div_div by lia. reflexivity.
  - rewrite shr_1_m by assumption. reflexivity.
Qed.

(** The mantissa that the shift to the format leaves has at most 53 digits. *)
Lemma shr_fexp_bound (m e : Z) (l : location) :
  0 <= m ->
  0 <= shr_m (fst (shr_fexp Num.prec Num.emax m e l)) < 2 ^ 53.
Proof.
  intros Hm. unfold shr_fexp, shr.
  assert (Hrec : shr_m (shr_record_of_loc m l) = m) by (destruct l as [| []]; reflexivity).
  destruct (fexp Num.prec Num.emax (Zdigits2 m + e) - e) as [| n | n] eqn:Hn; cbn [fst].
  - rewrite Hrec. split; [assumption |].
    destruct m as [| p | p]; [cbn; lia | | lia].
    pose proof (digits2_pos_bounds p) as Hd. cbn [Zdigits2] in Hn.
    unfold fexp, emin, Num.prec, Num.emax in Hn.
    assert (Zpos (digits2_pos p) <= 53) by lia.
    assert (2 ^ Zpos (digits2_pos p) <= 2 ^ 53) by (apply Z.pow_le_mono_r; lia). lia.
  - rewrite iter_pos_shr_m by (rewrite Hrec; assumption). rewrite Hrec.
    assert (Hp : 0 < 2 ^ Zpos n) by (apply Z.pow_pos_nonneg; lia).
    split; [apply Z.div_pos; lia |].
    destruct m as [| p | p]; [cbn; lia | | lia].
    pose proof (digits2_pos_bounds p) as Hd. cbn [Zdigits2] in Hn.
    unfold fexp, emin, Num.prec, Num.emax in Hn.
    apply Z.div_lt_upper_bound; [lia |].
    destruct (Z_le_gt_dec (Zpos (digits2_pos p)) 53) as [Hle | Hgt].
    + assert (2 ^ Zpos (digits2_pos p) <= 2 ^ 53) by (apply Z.pow_le_mono_r; lia). nia.
    + assert (Hge : Zpos (digits2_pos p) - 53 <= Zpos n) by lia.
      assert (2 ^ (Zpos (digits2_pos p) - 53) <= 2 ^ Zpos n) by (apply Z.pow_le_mono_r; lia).
      assert (2 ^ Zpos (digits2_pos p) = 2 ^ (Zpos (digits2_pos p) - 53) * 2 ^ 53).
      { rewrite <- Z.pow_add_r by lia. f_equal. lia. }
      nia.
  - rewrite Hrec. split; [assumption |].
    destruct m as [| p | p]; [cbn; lia | | lia].
    pose proof (digits2_pos_bounds p) as Hd. cbn [Zdigits2] in Hn.
    unfold fexp, emin, Num.prec, Num.emax in Hn.
    assert (Zpos (digits2_pos p) <= 53) by lia.
    assert (2 ^ Zpos (digits2_pos p) <= 2 ^ 53) by (apply Z.pow_le_mono_r; lia). lia.
Qed.

Lemma round_nearest_even_nonneg (m : Z) (l : location) :
  0 <= m -> 0 <= round_nearest_even m l.
Proof.
  intros Hm. unfold round_nearest_even.
  destruct l as [| []]; try lia. destruct (Z.even m); lia.
Qed.

(** A finite result of the rounding of an operation has a mantissa of at
    most 53 digits. *)
Lemma binary_round_aux_mantissa (sx : bool) (mx ex : Z) (lx : location)
    (s : bool) (m : positive) (e : Z) :
  0 <= mx ->
  binary_round_aux Num.prec Num.emax sx mx ex lx = S754_finite s m e ->
  Zpos m < 2 ^ 53.
Proof.
  intros Hmx. unfold binary_round_aux.
  pose proof (shr_fexp_bound mx ex lx Hmx) as H1.
  destruct (shr_fexp Num.prec Num.emax mx ex lx) as [mrs' e'] eqn:Hs1. cbn [fst] in H1.
  pose proof (round_nearest_even_nonneg (shr_m mrs') (loc_of_shr_record mrs') ltac:(lia)) as Hr.
  pose proof (shr_fexp_bound (round_nearest_even (shr_m mrs') (loc_of_shr_record mrs')) e'
                loc_Exact Hr) as H2.
  destruct (shr_fexp Num.prec Num.emax _ e' loc_Exact) as [mrs'' e''] eqn:Hs2.
  cbn [fst] in H2.
  destruct (shr_m mrs'') as [| p | p] eqn:Hm; try discriminate.
  destruct (e'' <=? Num.emax - Num.prec); [| discriminate].
  intros H. inversion H; subst. lia.
Qed.

(** A finite product has a mantissa of at most 53 digits. *)
Lemma mul_mantissa (x y : number) (s : bool) (m : positive) (e : Z) :
  Num.mul x y = S754_finite s m e -> Zpos m < 2 ^ 53.
Proof.
  unfold Num.mul, SFmul.
  destruct x as [sx | sx | | sx mx ex]; destruct y as [sy | sy | | sy my ey];
    try discriminate.
  apply binary_round_aux_mantissa. lia.
Qed.

(** C3, as the code has it: [round2(x)] is [Math.round(y) / 100] for the
    product [y = Number(x || 0) * 100]; when [y] is finite and not a zero,
    [Math.round(y)] is exactly the integer [n] with
    [n - 1/2 <= y < n + 1/2], so an exact tie goes to the integer nearer to
    +infinity for either sign; a NaN, an infinity and a zero are left as
    they are. *)
Theorem round2_rounds_half_up :
  forall x : number,
    round2 (JNum x) = Num.div (Num.Math_round (scaled x)) (Num.ofZ 100) /\
    match scaled x with
    | S754_finite s m e =>
        exists n : Z,
          (inject_Z n - (1 # 2) <= Num.valueQ s m e < inject_Z n + (1 # 2))%Q /\
          isInteger (Num.Math_round (scaled x)) n
    | y => Num.Math_round y = y
    end.
Proof.
  intros x. split; [reflexivity |].
  destruct (scaled x) as [s | s | | s m e] eqn:Hy; try reflexivity.
  apply Math_round_integer. exact (mul_mantissa _ _ s m e Hy).
Qed.

(** C3, the claim's own example: [-0.125 * 100] is exactly [-12.5], a tie,
    and [round2(-0.125)] is [-0.12], not [-0.13]; the positive tie [0.125]
    goes to [0.13]. *)
Lemma round2_negative_tie_rounds_up :
  scaled (numeral "-0.125") = numeral "-12.5" /\
  round2 (JNum (numeral "-0.125")) = numeral "-0.12" /\
  Num.eqb (round2 (JNum (numeral "-0.125"))) (numeral "-0.13") = false /\
  round2 (JNum (numeral "0.125")) = numeral "0.13".
Proof. vm_compute. repeat split; reflexivity. Qed.

(** ** The hours parsers *)

(** A string built around a colon includes one. *)
Lemma includes_app_colon (a r : string) :
  Str.includes ":" (a ++ String ":" r) = true.
Proof.
  induction a as [| c a IH]; simpl.
  - reflexivity.
  - destruct (Ascii.eqb c ":"); [reflexivity | exact IH].
Qed.

(** A string without a colon is its only field. *)
Lemma split_no_colon (b : string) :
  Str.includes ":" b = false -> Str.split ":" b = [b].
Proof.
  induction b as [| c b IH]; simpl; intros H.
  - reflexivity.
  - destruct (Ascii.eqb c ":"); [discriminate |].
    rewrite (IH H). reflexivity.
Qed.

(** The text before the first colon is the first field. *)
Lemma split_app_colon (a r : string) :
  Str.includes ":" a = false ->
  Str.split ":" (a ++ String ":" r) = a :: Str.split ":" r.
Proof.
  induction a as [| c a IH]; simpl; intros H.
  - reflexivity.
  - destruct (Ascii.eqb c ":"); [discriminate |].
    rewrite (IH H). reflexivity.
Qed.

(** The first two fields of [t.split(':')] when [t] has a colon: the text
    before the first colon and the text from there to the second colon or to
    the end. *)
Lemma split_two_fields (a b tail : string) :
  Str.includes ":" a = false ->
  Str.includes ":" b = false ->
  tail = EmptyString \/ (exists r, tail = String ":" r) ->
  exists rest, Str.split ":" (a ++ String ":" (b ++ tail)) = a :: b :: rest.
Proof.
  intros Ha Hb [-> | [r ->]].
  - exists []. rewrite split_app_colon by assumption.
    replace (b ++ "") with b by (clear; induction b; simpl; congruence).
    rewrite split_no_colon by assumption. reflexivity.
  - exists (Str.split ":" r).
    rewrite split_app_colon by assumption.
    rewrite split_app_colon by assumption. reflexivity.
Qed.

(** Every string with a colon has these two fields. *)
Lemma colon_fields_exist (t : string) :
  Str.includes ":" t = true ->
  exists a b tail,
    t = a ++ String ":" (b ++ tail) /\
    Str.includes ":" a = false /\ Str.includes ":" b = false /\
    (tail = EmptyString \/ exists r, tail = String ":" r).
Proof.
  assert (Hfield : forall u, exists b tail,
             u = b ++ tail /\ Str.includes ":" b = false /\
             (tail = EmptyString \/ exists r, tail = String ":" r)).
  { induction u as [| c u [b [tail [Hu [Hb Ht]]]]].
    - exists EmptyString, EmptyString. auto.
    - destruct (Ascii.eqb c ":") eqn:Hc.
      + apply Ascii.eqb_eq in Hc. subst c.
        exists EmptyString, (String ":" u). simpl. eauto.
      + exists (String c b), tail. simpl. rewrite Hc. subst u. auto. }
  induction t as [| c t IH]; simpl; intros H.
  - discriminate.
  - destruct (Ascii.eqb c ":") eqn:Hc.
    + apply Ascii.eqb_eq in Hc. subst c.
      destruct (Hfield t) as [b [tail [Ht [Hb Htail]]]].
      exists EmptyString, b, tail. simpl. subst t. auto.
    + destruct (IH H) as [a [b [tail [Ht [Ha [Hb Htail]]]]]].
      exists (String c a), b, tail. simpl. rewrite Hc. subst t. auto.
Qed.

(** White space is no colon, so trimming keeps every colon. *)
Lemma includes_trimStart (s : string) :
  Str.includes ":" (Str.trimStart s) = Str.includes ":" s.
Proof.
  induction s as [| c s IH]; [reflexivity |].
  cbn [Str.trimStart]. destruct (Str.isWhite c) eqn:Hw; [| reflexivity].
  rewrite IH. cbn [Str.includes].
  destruct (Ascii.eqb c ":") eqn:Hc; [| reflexivity].
  apply Ascii.eqb_eq in Hc. subst c. discriminate Hw.
Qed.

(** The same at the end of the string, and for [trim]. *)
Lemma includes_trimEnd (s : string) :
  Str.includes ":" (Str.trimEnd s) = Str.includes ":" s.
Proof.
  induction s as [| c s IH]; [reflexivity |].
  cbn [Str.trimEnd Str.includes].
  destruct (Str.isWhite c && Str.isEmpty (Str.trimEnd s)) eqn:Hw.
  - apply andb_prop in Hw. destruct Hw as [Hw He].
    destruct (Ascii.eqb c ":") eqn:Hc.
    + apply Ascii.eqb_eq in Hc. subst c. discriminate Hw.
    + rewrite <- IH. destruct (Str.trimEnd s); [reflexivity | discriminate He].
  - cbn [Str.includes]. rewrite IH. reflexivity.
Qed.

Lemma includes_trim (s : string) :
  Str.includes ":" (Str.trim s) = Str.includes ":" s.
Proof. unfold Str.trim. rewrite includes_trimEnd. apply includes_trimStart. Qed.

(** What both parsers return once the two fields are known. *)
Lemma parseHours_fields (s a b tail : string) :
  Str.trim s = a ++ String ":" (b ++ tail) ->
  Str.includes ":" a = false ->
  Str.includes ":" b = false ->
  tail = EmptyString \/ (exists r, tail = String ":" r) ->
  let result :=
    if colonAccepts (Str.StringToNumber a) (Str.StringToNumber b)
    then Some (round2 (JNum (Num.add (Str.StringToNumber a)
                                     (Num.div (Str.StringToNumber b) (Num.ofZ 60)))))
    else None in
  App.parseHours (JStr s) = result /\ Server.parseHoursInput (JStr s) = result.
Proof.
  intros Ht Ha Hb Htail result.
  destruct (split_two_fields a b tail Ha Hb Htail) as [rest Hsplit].
  unfold App.parseHours, Server.parseHoursInput.
  rewrite Ht, includes_app_colon.
  unfold parseColon. rewrite Hsplit. simpl map. cbv iota.
  split; reflexivity.
Qed.

(** C5, as the code has it: for every string with a colon, the trimmed
    text splits into the text [a] before the first colon, the text [b] from
    there to the second colon or to the end, and the rest; both parsers read
    [h = Number(a)] and [m = Number(b)], and return [round2(h + m/60)]
    exactly when both are finite, [h >= 0], [m >= 0] and [m < 60], and
    nothing otherwise.  Neither part has to be an integer. *)
Theorem parseHours_colon :
  forall s : string,
    Str.includes ":" s = true ->
    exists a b tail : string,
      Str.trim s = a ++ String ":" (b ++ tail) /\
      Str.includes ":" a = false /\
      Str.includes ":" b = false /\
      (tail = EmptyString \/ (exists r, tail = String ":" r)) /\
      let h := Str.StringToNumber a in
      let m := Str.StringToNumber b in
      let result :=
        if Num.isFinite h && Num.isFinite m
           && Num.geb h Num.zero && Num.geb m Num.zero && Num.ltb m (Num.ofZ 60)
        then Some (round2 (JNum (Num.add h (Num.div m (Num.ofZ 60)))))
        else None in
      App.parseHours (JStr s) = result /\ Server.parseHoursInput (JStr s) = result.
Proof.
  intros s Hs. rewrite <- includes_trim in Hs.
  destruct (colon_fields_exist _ Hs) as [a [b [tail [Ht [Ha [Hb Htail]]]]]].
  exists a, b, tail. repeat (split; [assumption |]).
  exact (parseHours_fields s a b tail Ht Ha Hb Htail).
Qed.

(** ["2:30"] has a colon; its fields are ["2"] and ["30"], and the result
    is [2.5]. *)
Lemma parseHours_colon_2_30 :
  Str.includes ":" "2:30" = true /\
  exists a b tail : string,
    Str.trim "2:30" = a ++ String ":" (b ++ tail) /\
    Str.includes ":" a = false /\
    Str.includes ":" b = false /\
    (tail = EmptyString \/ (exists r, tail = String ":" r)) /\
    let h := Str.StringToNumber a in
    let m := Str.StringToNumber b in
    let result :=
      if Num.isFinite h && Num.isFinite m
         && Num.geb h Num.zero && Num.geb m Num.zero && Num.ltb m (Num.ofZ 60)
      then Some (round2 (JNum (Num.add h (Num.div m (Num.ofZ 60)))))
      else None in
    App.parseHours (JStr "2:30") = result /\
    Server.parseHoursInput (JStr "2:30") = result.
Proof.
  split; [reflexivity |].
  exact (parseHours_colon "2:30" eq_refl).
Defined.

(** C5, against the claim: the hours part of ["1.5:30"] is not an integer
    ([1.5] differs from its rounding), yet both parsers return [2]; and the
    minutes part of ["2:30.5"] is not an integer, yet both return [2.51]. *)
Lemma parseHours_colon_accepts_fractions :
  Num.eqb (Num.Math_round (Str.StringToNumber "1.5")) (Str.StringToNumber "1.5") = false /\
  App.parseHours (JStr "1.5:30") = Some (numeral "2") /\
  Server.parseHoursInput (JStr "1.5:30") = Some (numeral "2") /\
  App.parseHours (JStr "2:30.5") = Some (numeral "2.51") /\
  Server.parseHoursInput (JStr "2:30.5") = Some (numeral "2.51").
Proof. vm_compute. repeat split; reflexivity. Qed.

(** The examples of the specification on both parsers. *)
Lemma parseHours_examples :
  App.parseHours (JStr "2:30") = Some (numeral "2.5") /\
  App.parseHours (JStr "2:60") = None /\
  App.parseHours (JStr "2.5") = Some (numeral "2.5") /\
  App.parseHours (JStr "-1") = Some (numeral "-1") /\
  Server.parseHoursInput (JStr "2:30") = Some (numeral "2.5") /\
  Server.parseHoursInput (JStr "2:60") = None /\
  Server.parseHoursInput (JStr "2.5") = Some (numeral "2.5") /\
  Server.parseHoursInput (JStr "-1") = Some (numeral "-1").
Proof. vm_compute. repeat split; reflexivity. Qed.

(** On a string without a colon [parseHours] of [app.js] returns [round2]
    of the Number that [parseFloat] reads when it is finite, and nothing
    otherwise. *)
Lemma App_parseHours_no_colon (s : string) :
  Str.includes ":" s = false ->
  App.parseHours (JStr s) =
    (if Num.isFinite (Str.parseFloat (Str.trim s))
     then Some (round2 (JNum (Str.parseFloat (Str.trim s))))
     else None).
Proof.
  intros H. rewrite <- includes_trim in H.
  unfold App.parseHours, App.parseNumber. rewrite H. simpl.
  destruct (Num.isFinite (Str.parseFloat (Str.trim s))); reflexivity.
Qed.

(** On a string without a colon [parseHoursInput] of [server.js] always
    returns a Number: [round2] of [Number(trimmed)] when that is finite and
    [round2(0)] otherwise. *)
Lemma Server_parseHoursInput_no_colon (s : string) :
  Str.includes ":" s = false ->
  Server.parseHoursInput (JStr s) =
    Some (if Num.isFinite (Str.StringToNumber (Str.trim s))
          then round2 (JNum (Str.StringToNumber (Str.trim s)))
          else round2 (JNum Num.zero)).
Proof.
  intros H. rewrite <- includes_trim in H.
  unfold Server.parseHoursInput, Server.toNumber. rewrite H. simpl.
  destruct (Num.isFinite (Str.StringToNumber (Str.trim s))); reflexivity.
Qed.

(** C4, where the code departs from the claim: ["abc"] has no colon and
    reads as NaN; [parseHours] of [app.js] returns nothing, and
    [parseHoursInput] of [server.js] returns [0]. *)
Theorem parseHoursInput_non_numeric_is_zero :
  Str.includes ":" "abc" = false /\
  Num.isFinite (Str.StringToNumber "abc") = false /\
  App.parseHours (JStr "abc") = None /\
  Server.parseHoursInput (JStr "abc") = Some Num.zero.
Proof. vm_compute. repeat split; reflexivity. Qed.

(** ** The invoice normalizer *)



(** The stored record keeps the hours and the rate that the base net is
    computed from. *)
Lemma normalizeInvoice_inputs (body : Server.Body.t) (profile : option Server.Defaults.t) :
  Server.Invoice.hours (Server.normalizeInvoice body profile) = hoursOf body /\
  Server.Invoice.rate (Server.normalizeInvoice body profile) = rateOf body profile.
Proof. split; reflexivity. Qed.

(** What [normalizeInvoice] computes from the base net, the override and the
    extra net: the override is present exactly when [manualNet] is [0] or
    truthy, and the totals follow the documented formulas with the extra net
    [round2(extra.net)] taken whether or not a description is there. *)
Lemma normalizeInvoice_totals (body : Server.Body.t) (profile : option Server.Defaults.t) :
  let inv := Server.normalizeInvoice body profile in
  let base :=
    match Server.Invoice.manualNet inv with
    | Some mn => mn
    | None => baseNetOf body profile
    end in
  (Server.Invoice.manualNet inv = None <->
   Server.manualNetGiven (Server.Body.manualNet body) = false) /\
  Server.Invoice.totalNet inv = round2 (JNum (Num.add base (extraNetOf body))) /\
  Server.Invoice.vatAmount inv =
    round2 (JNum (Num.mul (Server.Invoice.totalNet inv)
                   (Num.div (Val.ToNumber (Server.Invoice.vatPercent inv)) (Num.ofZ 100)))) /\
  Server.Invoice.gross inv =
    round2 (JNum (Num.add (Server.Invoice.totalNet inv) (Server.Invoice.vatAmount inv))).
Proof.
  unfold Server.normalizeInvoice, baseNetOf, extraNetOf, hoursOf, rateOf. simpl.
  destruct (Server.manualNetGiven (Server.Body.manualNet body)); simpl;
    repeat split; intros; try reflexivity; discriminate.
Qed.

(** An override of zero and no override are told apart: a literal [0]
    replaces the base net, and a missing [manualNet] leaves it. *)
Lemma normalizeInvoice_zero_override
    (body : Server.Body.t) (profile : option Server.Defaults.t) :
  let inv := Server.normalizeInvoice body profile in
  (Server.Body.manualNet body = JNum Num.zero ->
   Server.Invoice.manualNet inv = Some Num.zero /\
   Server.Invoice.net inv = Num.zero /\
   Server.Invoice.totalNet inv = round2 (JNum (Num.add Num.zero (extraNetOf body)))) /\
  (Server.Body.manualNet body = JUndefined ->
   Server.Invoice.manualNet inv = None /\
   Server.Invoice.net inv = baseNetOf body profile /\
   Server.Invoice.totalNet inv =
     round2 (JNum (Num.add (baseNetOf body profile) (extraNetOf body)))).
Proof.
  unfold Server.normalizeInvoice, baseNetOf, extraNetOf, hoursOf, rateOf.
  split; intros H; cbn -[round2 Num.add Num.mul Num.div];
    rewrite H; repeat split; reflexivity.
Qed.

(** With an extra description, or without an [extra] object, the extra net
    of the code is the documented extra-line net, and [totalNet] is the
    documented total. *)
Lemma normalizeInvoice_total_with_description
    (body : Server.Body.t) (profile : option Server.Defaults.t) :
  Server.Body.extra body = None \/
  (exists x, Server.Body.extra body = Some x /\
             Str.isEmpty (Server.cleanText (Server.RawExtra.desc x)) = false) ->
  let inv := Server.normalizeInvoice body profile in
  let base :=
    match Server.Invoice.manualNet inv with
    | Some mn => mn
    | None => baseNetOf body profile
    end in
  Server.Invoice.totalNet inv = round2 (JNum (Num.add base (Spec.extraLineNet body))).
Proof.
  intros Hdesc inv base.
  assert (He : extraNetOf body = Spec.extraLineNet body).
  { unfold extraNetOf, Spec.extraLineNet.
    destruct Hdesc as [-> | [x [-> Hx]]]; [vm_compute; reflexivity |].
    rewrite Hx. reflexivity. }
  rewrite <- He. apply (normalizeInvoice_totals body profile).
Qed.

(** Adding either zero before [round2] gives the same result. *)
Lemma round2_add_zero (b : number) (s : bool) :
  round2 (JNum (Num.add b (S754_zero s))) = round2 (JNum (Num.add b Num.zero)).
Proof.
  destruct b as [[] | [] | | sb mb eb]; destruct s; reflexivity.
Qed.

(** When the extra net is a zero, or the record stores an extra line, the
    stored [totalNet], [vatAmount] and [gross] are what the documented
    formulas give on the stored fields. *)
Lemma normalizeInvoice_rederivable
    (body : Server.Body.t) (profile : option Server.Defaults.t) :
  (exists s, extraNetOf body = S754_zero s) \/
  Server.Invoice.extra (Server.normalizeInvoice body profile) <> None ->
  let inv := Server.normalizeInvoice body profile in
  Spec.rederive inv =
    (Server.Invoice.totalNet inv, Server.Invoice.vatAmount inv, Server.Invoice.gross inv).
Proof.
  intros Hpre inv.
  assert (Ht : fst (fst (Spec.rederive inv)) = Server.Invoice.totalNet inv).
  { subst inv. revert Hpre.
    unfold Spec.rederive, Server.normalizeInvoice.
    cbn -[round2 Num.add Num.mul Num.div].
    fold (extraNetOf body). set (E := extraNetOf body).
    destruct (Server.manualNetGiven (Server.Body.manualNet body));
      destruct (Num.truthy E && negb _) eqn:Hstored;
      cbn -[round2 Num.add Num.mul Num.div]; intros Hpre; try reflexivity;
      (destruct Hpre as [[s Hz] | Hsome]; [| congruence]);
      rewrite Hz, round2_add_zero; reflexivity. }
  unfold Spec.rederive in *. cbn -[round2 Num.add Num.mul Num.div] in *.
  rewrite Ht. reflexivity.
Qed.

(** C1, where the code departs from the claim: for the body
    [{hours: "1", rate: 10, extra: {net: 5}}], which has no extra
    description, the documented extra-line net is 0 and the documented total
    is [round2(10 + 0) = 10]; [normalizeInvoice] returns [totalNet = 15],
    [vatAmount = 3.45] and [gross = 18.45], and stores no extra line. *)
Theorem normalizeInvoice_counts_extra_without_description :
  let inv := Server.normalizeInvoice extraWithoutDesc None in
  Spec.extraLineNet extraWithoutDesc = Num.zero /\
  baseNetOf extraWithoutDesc None = numeral "10" /\
  round2 (JNum (Num.add (baseNetOf extraWithoutDesc None)
                        (Spec.extraLineNet extraWithoutDesc))) = numeral "10" /\
  Server.Invoice.net inv = numeral "10" /\
  Server.Invoice.totalNet inv = numeral "15" /\
  Server.Invoice.vatAmount inv = numeral "3.45" /\
  Server.Invoice.gross inv = numeral "18.45" /\
  Server.Invoice.extra inv = None.
Proof. vm_compute. repeat split; reflexivity. Qed.

(** C2, where the code departs from the claim: for the body
    [{hours: "2", rate: 100, vatPercent: 23, manualNet: 150,
      extra: {desc: "  ", net: 50}}] the record stores [manualNet = 150],
    [extra = null], [totalNet = 200], [vatAmount = 46] and [gross = 246];
    the documented formulas on the stored fields give 150, 34.5 and
    184.5. *)
Theorem normalizeInvoice_totals_not_rederivable :
  let inv := Server.normalizeInvoice extraBlankDesc None in
  Server.Invoice.manualNet inv = Some (numeral "150") /\
  Server.Invoice.extra inv = None /\
  (Server.Invoice.totalNet inv, Server.Invoice.vatAmount inv, Server.Invoice.gross inv)
    = (numeral "200", numeral "46", numeral "246") /\
  Spec.rederive inv = (numeral "150", numeral "34.5", numeral "184.5").
Proof. vm_compute. repeat split; reflexivity. Qed.

(** The example of the specification: [{hours: "8:00", rate: 50,
    vatPercent: 23}] gives [net = totalNet = 400], [vatAmount = 92] and
    [gross = 492], and that record is re-derivable. *)
Lemma normalizeInvoice_eight_hours :
  let inv := Server.normalizeInvoice eightHours None in
  Server.Invoice.net inv = numeral "400" /\
  Server.Invoice.totalNet inv = numeral "400" /\
  Server.Invoice.vatAmount inv = numeral "92" /\
  Server.Invoice.gross inv = numeral "492" /\
  Spec.rederive inv = (numeral "400", numeral "92", numeral "492").
Proof. vm_compute. repeat split; reflexivity. Qed.




(** ** Calendar arithmetic *)

(** A time within day [n] has day number [n]. *)
Lemma Day_within (n a : Z) :
  0 <= a < JSDate.msPerDay -> JSDate.Day (n * JSDate.msPerDay + a) = n.
Proof. unfold JSDate.Day, JSDate.msPerDay. intros H. div_lia. Qed.

(** The day numbers of the years 0 to 10000. *)
Lemma daysFromCivil_bounds (y m d : Z) :
  0 <= y <= 10000 -> 1 <= m <= 12 ->
  -719528 + (d - 1) <= JSDate.daysFromCivil y m d <= 2933231 + d.
Proof.
  intros Hy Hm. unfold JSDate.daysFromCivil.
  destruct (m <=? 2) eqn:?; destruct (2 <? m) eqn:?; div_lia.
Qed.

(** A month has 28 to 31 days. *)
Lemma daysInMonth_range (y m : Z) : 28 <= JSDate.daysInMonth y m <= 31.
Proof.
  unfold JSDate.daysInMonth.
  destruct (m =? 2); [destruct (JSDate.isLeap y) |];
    [ | | destruct ((m =? 4) || (m =? 6) || (m =? 9) || (m =? 11))]; lia.
Qed.

(** The ranges of a date that exists. *)
Lemma validDate_range (y m d : Z) :
  JSDate.validDate y m d = true ->
  1 <= m <= 12 /\ 1 <= d <= JSDate.daysInMonth y m /\ d <= 31.
Proof.
  unfold JSDate.validDate. intros H. pose proof (daysInMonth_range y m). lia.
Qed.

(** The year of the era from the day of the era. *)
Lemma yoe_of_doe (yoe doy : Z) :
  0 <= yoe <= 399 ->
  0 <= doy <= 365 ->
  (doy = 365 -> (yoe + 1) mod 4 = 0 /\ ((yoe + 1) mod 100 <> 0 \/ yoe = 399)) ->
  let doe := yoe * 365 + yoe / 4 - yoe / 100 + doy in
  (doe - doe / 1460 + doe / 36524 - doe / 146096) / 365 = yoe.
Proof. intros Hy Hd Hleap doe. subst doe. div_lia. Qed.

(** The month (counted from March) from the day of the year. *)
Lemma mp_of_doy (mp d : Z) :
  0 <= mp <= 11 ->
  1 <= d <= (153 * (mp + 1) + 2) / 5 - (153 * mp + 2) / 5 ->
  (5 * ((153 * mp + 2) / 5 + d - 1) + 2) / 153 = mp.
Proof. intros Hmp Hd. div_lia. Qed.

(** The day of the year (counted from March 1) of a date that exists. *)
Lemma doy_of_valid (y m d : Z) :
  JSDate.validDate y m d = true ->
  let mp := if 2 <? m then m - 3 else m + 9 in
  let doy := (153 * mp + 2) / 5 + d - 1 in
  0 <= mp <= 11 /\
  1 <= d <= (153 * (mp + 1) + 2) / 5 - (153 * mp + 2) / 5 /\
  0 <= doy <= 365 /\
  (doy = 365 -> m = 2 /\ JSDate.isLeap y = true).
Proof.
  unfold JSDate.validDate. intros Hv.
  assert (Hm : 1 <= m <= 12) by lia.
  assert (Hd : 1 <= d <= JSDate.daysInMonth y m) by lia. clear Hv.
  assert (Hc : m = 1 \/ m = 2 \/ m = 3 \/ m = 4 \/ m = 5 \/ m = 6 \/ m = 7 \/ m = 8
               \/ m = 9 \/ m = 10 \/ m = 11 \/ m = 12) by lia.
  clear Hm. unfold JSDate.daysInMonth in Hd.
  repeat (destruct Hc as [-> | Hc]); [.. | subst m];
    cbn [Z.eqb Z.ltb Z.compare Pos.compare Pos.compare_cont Pos.eqb orb] in Hd |- *;
    try (destruct (JSDate.isLeap y)); repeat split; try div_lia; intros; div_lia.
Qed.

(** A leap year, seen from the year of the era that ends with its
    February. *)
Lemma leap_of_yoe (y : Z) :
  JSDate.isLeap y = true ->
  let yoe := (y - 1) - (y - 1) / 400 * 400 in
  (yoe + 1) mod 4 = 0 /\ ((yoe + 1) mod 100 <> 0 \/ yoe = 399).
Proof.
  unfold JSDate.isLeap. intros H. cbv zeta.
  assert (Hl : (y mod 4 = 0 /\ y mod 100 <> 0) \/ y mod 400 = 0) by lia.
  clear H. div_lia.
Qed.

(** A date that exists is the civil date of its day number. *)
Lemma civil_roundtrip (y m d : Z) :
  JSDate.validDate y m d = true ->
  JSDate.civilFromDays (JSDate.daysFromCivil y m d) = (y, m, d).
Proof.
  intros Hv.
  destruct (doy_of_valid y m d Hv) as [Hmp [Hd [Hdoy Hlast]]].
  assert (Hm : 1 <= m <= 12) by (unfold JSDate.validDate in Hv; lia).
  unfold JSDate.daysFromCivil.
  set (y' := if m <=? 2 then y - 1 else y).
  set (era := y' / 400).
  set (yoe := y' - era * 400).
  set (mp := if 2 <? m then m - 3 else m + 9) in *.
  set (doy := (153 * mp + 2) / 5 + d - 1) in *.
  set (doe := yoe * 365 + yoe / 4 - yoe / 100 + doy).
  assert (Hyoe : 0 <= yoe <= 399) by (subst yoe era; div_lia).
  assert (Hleap : doy = 365 -> (yoe + 1) mod 4 = 0 /\ ((yoe + 1) mod 100 <> 0 \/ yoe = 399)).
  { intros H365. destruct (Hlast H365) as [-> Hl].
    subst yoe era y'. cbn [Z.leb Z.compare Pos.compare Pos.compare_cont].
    apply (leap_of_yoe y Hl). }
  pose proof (yoe_of_doe yoe doy Hyoe Hdoy Hleap) as Hy. cbv zeta in Hy. fold doe in Hy.
  assert (Hdoe : 0 <= doe < 146097) by (subst doe; div_lia).
  unfold JSDate.civilFromDays.
  replace (era * 146097 + doe - 719468 + 719468) with (era * 146097 + doe) by lia.
  replace ((era * 146097 + doe) / 146097) with era by div_lia.
  replace (era * 146097 + doe - era * 146097) with doe by lia.
  cbv zeta. rewrite Hy.
  replace (doe - (365 * yoe + yoe / 4 - yoe / 100)) with doy by (subst doe; lia).
  pose proof (mp_of_doy mp d Hmp Hd) as Hmp'. fold doy in Hmp'. rewrite Hmp'.
  replace (doy - (153 * mp + 2) / 5 + 1) with d by (subst doy; lia).
  assert (Hmm : (if mp <? 10 then mp + 3 else mp - 9) = m).
  { subst mp. destruct (2 <? m) eqn:H2; destruct (_ <? 10) eqn:H10; lia. }
  rewrite Hmm.
  replace (if m <=? 2 then yoe + era * 400 + 1 else yoe + era * 400) with y; [reflexivity |].
  subst yoe y'. destruct (m <=? 2); lia.
Qed.

(** The civil date of any day number has a month 1..12 and a day 1..31. *)
Lemma civilFromDays_range (z : Z) :
  let '(y, m, d) := JSDate.civilFromDays z in 1 <= m <= 12 /\ 1 <= d <= 31.
Proof.
  unfold JSDate.civilFromDays. cbv zeta.
  repeat match goal with |- context [if ?c then _ else _] => destruct c eqn:? end;
  div_lia.
Qed.

(** The day numbers from 0000-01-01 to 9999-12-31 have a year of four
    digits. *)
Lemma civilFromDays_year (z : Z) :
  -719528 <= z <= 2932896 ->
  0 <= fst (fst (JSDate.civilFromDays z)) <= 9999.
Proof.
  intros Hz. unfold JSDate.civilFromDays. cbv zeta.
  repeat match goal with |- context [if ?c then _ else _] => destruct c eqn:? end;
  cbn [fst]; div_lia.
Qed.

(** So their civil dates are in range. *)
Lemma inRange_civil (z : Z) :
  -719528 <= z <= 2932896 -> inRange (JSDate.civilFromDays z) = true.
Proof.
  intros Hz. pose proof (civilFromDays_range z) as Hr.
  pose proof (civilFromDays_year z Hz) as Hy.
  destruct (JSDate.civilFromDays z) as [[y m] d]. cbn [fst] in Hy.
  unfold inRange. lia.
Qed.

(** A decimal digit has a value 0..9. *)
Lemma digitOf_10_range (c : Ascii.ascii) (v : Z) :
  Str.digitOf 10 c = Some v -> 0 <= v <= 9.
Proof.
  unfold Str.digitOf. intros H.
  destruct ((48 <=? Str.code c) && (Str.code c <=? 57)) eqn:H1.
  - destruct (Str.code c - 48 <? 10) eqn:H2; inversion H; subst. lia.
  - destruct ((97 <=? Str.code c) && (Str.code c <=? 122)) eqn:H2.
    + destruct (Str.code c - 87 <? 10) eqn:H3; [lia | discriminate].
    + destruct ((65 <=? Str.code c) && (Str.code c <=? 90)) eqn:H3.
      * destruct (Str.code c - 55 <? 10) eqn:H4; [lia | discriminate].
      * rewrite Z.ltb_irrefl in H. discriminate.
Qed.

(** The value of a string of decimal digits, by its length. *)
Lemma digitsValue_10_bounds (s : string) (acc v : Z) :
  0 <= acc ->
  Str.digitsValue 10 acc s = Some v ->
  acc * 10 ^ Z.of_nat (String.length s) <= v < (acc + 1) * 10 ^ Z.of_nat (String.length s).
Proof.
  revert acc. induction s as [| c s IH]; intros acc Hacc H.
  - simpl in *. inversion H; subst. lia.
  - cbn [Str.digitsValue] in H.
    destruct (Str.digitOf 10 c) as [dv |] eqn:Hd; [| discriminate].
    apply digitOf_10_range in Hd.
    specialize (IH (10 * acc + dv) ltac:(lia) H).
    cbn [String.length]. rewrite Nat2Z.inj_succ, Z.pow_succ_r by lia.
    assert (0 < 10 ^ Z.of_nat (String.length s)) by (apply Z.pow_pos_nonneg; lia).
    nia.
Qed.

(** [n] digits read as a number below [10^n]. *)
Lemma fixedDigits_range (n : nat) (s : string) (v : Z) :
  JSDate.fixedDigits n s = Some v -> 0 <= v < 10 ^ Z.of_nat n.
Proof.
  unfold JSDate.fixedDigits. destruct (Nat.eqb (String.length s) n) eqn:Hn; [| discriminate].
  apply Nat.eqb_eq in Hn. subst n. intros H.
  apply digitsValue_10_bounds in H; lia.
Qed.

(** A date-only string names a date that exists, in a year of four digits. *)
Lemma dateOnlyFields_valid (s : string) (y m d : Z) :
  JSDate.dateOnlyFields s = Some (y, m, d) ->
  0 <= y <= 9999 /\ JSDate.validDate y m d = true.
Proof.
  unfold JSDate.dateOnlyFields.
  destruct (Str.split "-" s) as [| ys [| ms [| ds [| ? ?]]]]; try discriminate.
  - destruct (JSDate.fixedDigits 4 ys) as [y' |] eqn:Hy; [| discriminate].
    intros H. inversion H; subst. apply fixedDigits_range in Hy.
    split; [change (10 ^ Z.of_nat 4) with 10000 in Hy; lia | reflexivity].
  - destruct (JSDate.fixedDigits 4 ys) as [y' |] eqn:Hy; [| discriminate].
    destruct (JSDate.fixedDigits 2 ms) as [m' |] eqn:Hm; [| discriminate].
    destruct (JSDate.validDate y' m' 1) eqn:Hv; [| discriminate].
    intros H. inversion H; subst. apply fixedDigits_range in Hy.
    split; [change (10 ^ Z.of_nat 4) with 10000 in Hy; lia | assumption].
  - destruct (JSDate.fixedDigits 4 ys) as [y' |] eqn:Hy; [| discriminate].
    destruct (JSDate.fixedDigits 2 ms) as [m' |] eqn:Hm; [| discriminate].
    destruct (JSDate.fixedDigits 2 ds) as [d' |] eqn:Hd; [| discriminate].
    destruct (JSDate.validDate y' m' d') eqn:Hv; [| discriminate].
    intros H. inversion H; subst. apply fixedDigits_range in Hy.
    split; [change (10 ^ Z.of_nat 4) with 10000 in Hy; lia | assumption].
Qed.

(** On a host at a fixed offset a date-only string parses to midnight UTC
    of its date. *)
Lemma parse_dateOnly (minutes : Z) (s : string) (y m d : Z) :
  JSDate.dateOnlyFields s = Some (y, m, d) ->
  JSDate.parse (JSDate.fixedOffset minutes) s =
    Some (JSDate.daysFromCivil y m d * JSDate.msPerDay).
Proof.
  intros H. unfold JSDate.parse, JSDate.parseDateOnly. rewrite H.
  destruct (dateOnlyFields_valid _ _ _ _ H) as [Hy Hv].
  destruct (validDate_range _ _ _ Hv) as [Hm [Hd Hd31]].
  pose proof (daysFromCivil_bounds y m d ltac:(lia) Hm) as Hb.
  unfold JSDate.TimeClip, JSDate.MakeDate, JSDate.msPerDay.
  rewrite Z.add_0_r.
  destruct (Z.abs _ <=? 8640000000000000) eqn:Hc; [reflexivity | lia].
Qed.

(** And any other string is rejected there. *)
Lemma parse_not_dateOnly (minutes : Z) (s : string) :
  JSDate.dateOnlyFields s = None ->
  JSDate.parse (JSDate.fixedOffset minutes) s = None.
Proof.
  intros H. unfold JSDate.parse, JSDate.parseDateOnly. rewrite H. reflexivity.
Qed.

(** At UTC or east of it, midnight UTC of a day is a local time of that
    day. *)
Lemma local_day_east (minutes n : Z) :
  0 <= minutes < 1440 ->
  JSDate.Day (JSDate.LocalTime (JSDate.fixedOffset minutes) (n * JSDate.msPerDay)) = n.
Proof.
  intros H. unfold JSDate.LocalTime, JSDate.fixedOffset. cbn [JSDate.LocalTZA].
  apply Day_within. unfold JSDate.msPerDay. lia.
Qed.

(** So there the local year and month of a date-only string are its own. *)
Lemma local_year_month_east (minutes : Z) (s : string) (y m d : Z) :
  0 <= minutes < 1440 ->
  JSDate.dateOnlyFields s = Some (y, m, d) ->
  let host := JSDate.fixedOffset minutes in
  JSDate.getFullYear host (JSDate.parse host s) = Some y /\
  JSDate.getMonth host (JSDate.parse host s) = Some (m - 1).
Proof.
  intros Hmin H host. subst host.
  rewrite (parse_dateOnly _ _ _ _ _ H).
  destruct (dateOnlyFields_valid _ _ _ _ H) as [_ Hv].
  unfold JSDate.getFullYear, JSDate.getMonth, JSDate.YearFromTime, JSDate.MonthFromTime.
  cbn [option_map]. rewrite (local_day_east _ _ Hmin), (civil_roundtrip _ _ _ Hv).
  split; reflexivity.
Qed.

(** String lemmas. *)
Lemma append_assoc (a b c : string) : (a ++ b) ++ c = a ++ (b ++ c).
Proof. induction a as [| x a IH]; simpl; [reflexivity | rewrite IH; reflexivity]. Qed.

(** [slice] returns a prefix of its own length. *)
Lemma take_append (a b : string) : JSDate.take (String.length a) (a ++ b) = a.
Proof. induction a as [| x a IH]; simpl; [destruct b; reflexivity | rewrite IH; reflexivity]. Qed.

Lemma append_length (a b : string) :
  String.length (a ++ b) = (String.length a + String.length b)%nat.
Proof. induction a as [| x a IH]; simpl; [reflexivity | rewrite IH; reflexivity]. Qed.

(** The length of the decimal text of a number. *)
Lemma revOnto_length (s acc : string) :
  String.length (JSDate.revOnto s acc) = (String.length s + String.length acc)%nat.
Proof.
  revert acc. induction s as [| c s IH]; intros acc; simpl.
  - reflexivity.
  - rewrite IH. simpl. lia.
Qed.

Lemma zeros_length (n : nat) : String.length (JSDate.zeros n) = n.
Proof. induction n as [| k IH]; simpl; congruence. Qed.

Lemma digitsRev_length_le (fuel w : nat) (n : Z) :
  (1 <= w)%nat -> 0 <= n < 10 ^ Z.of_nat w ->
  (String.length (JSDate.digitsRev fuel n) <= w)%nat.
Proof.
  revert w n. induction fuel as [| k IH]; intros w n Hw Hn; simpl.
  - lia.
  - destruct (n / 10 =? 0) eqn:Hq; simpl; [lia |].
    apply Z.eqb_neq in Hq.
    destruct w as [| [| w']]; [lia | |].
    + change (10 ^ Z.of_nat 1) with 10 in Hn. exfalso. apply Hq. div_lia.
    + specialize (IH (S w') (n / 10) ltac:(lia)).
      rewrite Nat2Z.inj_succ, Z.pow_succ_r in Hn by lia.
      assert (0 <= n / 10 < 10 ^ Z.of_nat (S w')) by div_lia.
      specialize (IH H). lia.
Qed.

Lemma digitsRev_length_ge (fuel w : nat) (n : Z) :
  (w < fuel)%nat -> 10 ^ Z.of_nat w <= n ->
  (w + 1 <= String.length (JSDate.digitsRev fuel n))%nat.
Proof.
  revert w n. induction fuel as [| k IH]; intros w n Hw Hn; [lia |].
  simpl. destruct w as [| w'].
  - simpl. lia.
  - rewrite Nat2Z.inj_succ, Z.pow_succ_r in Hn by lia.
    assert (Hp : 0 < 10 ^ Z.of_nat w') by (apply Z.pow_pos_nonneg; lia).
    assert (Hq : 10 ^ Z.of_nat w' <= n / 10) by div_lia.
    destruct (n / 10 =? 0) eqn:Hz; [apply Z.eqb_eq in Hz; lia |].
    specialize (IH w' (n / 10) ltac:(lia) Hq). simpl. lia.
Qed.

Lemma natText_length_le (w : nat) (n : Z) :
  (1 <= w)%nat -> 0 <= n < 10 ^ Z.of_nat w -> (String.length (JSDate.natText n) <= w)%nat.
Proof.
  intros Hw Hn. unfold JSDate.natText. rewrite revOnto_length.
  change (String.length "") with 0%nat.
  rewrite Nat.add_0_r. apply digitsRev_length_le; assumption.
Qed.

Lemma pad_length (w : nat) (n : Z) :
  (1 <= w)%nat -> 0 <= n < 10 ^ Z.of_nat w -> String.length (JSDate.pad w n) = w.
Proof.
  intros Hw Hn. unfold JSDate.pad. rewrite append_length, zeros_length.
  pose proof (natText_length_le w n Hw Hn). lia.
Qed.

(** A year up to 9999 pads to four characters and a month or day to two. *)
Lemma pad4_length (y : Z) : 0 <= y <= 9999 -> String.length (JSDate.pad 4 y) = 4%nat.
Proof. intros H. apply pad_length; [lia | change (10 ^ Z.of_nat 4) with 10000; lia]. Qed.

Lemma pad2_length (n : Z) : 0 <= n <= 99 -> String.length (JSDate.pad 2 n) = 2%nat.
Proof. intros H. apply pad_length; [lia | change (10 ^ Z.of_nat 2) with 100; lia]. Qed.

(** A key has ten characters. *)
Lemma key_length (y m d : Z) :
  inRange (y, m, d) = true -> String.length (Spec.key y m d) = 10%nat.
Proof.
  unfold inRange. intros H. unfold Spec.key.
  rewrite !append_length, pad4_length, !pad2_length by lia. reflexivity.
Qed.

(** [dateKey] of a time is the key of the civil date of its UTC day. *)
Lemma dateKey_civil (t y m d : Z) :
  JSDate.civilFromDays (JSDate.Day t) = (y, m, d) ->
  inRange (y, m, d) = true ->
  App.dateKey (Some t) = Some (Spec.key y m d).
Proof.
  intros Hc Hr. unfold App.dateKey, JSDate.toISOString, JSDate.isoText. cbn [option_map].
  rewrite Hc. f_equal.
  assert (Hy : (0 <=? y) && (y <=? 9999) = true) by (unfold inRange in Hr; lia).
  rewrite Hy.
  rewrite <- (key_length y m d Hr).
  set (tail := "T" ++ _).
  replace (JSDate.pad 4 y ++ "-" ++ JSDate.pad 2 m ++ "-" ++ JSDate.pad 2 d ++ tail)
    with (Spec.key y m d ++ tail).
  - apply take_append.
  - unfold Spec.key. rewrite !append_assoc. reflexivity.
Qed.

(** At a fixed offset, local time undoes [UTC]. *)
Lemma local_of_utc (minutes t : Z) :
  JSDate.LocalTime (JSDate.fixedOffset minutes) (JSDate.UTC (JSDate.fixedOffset minutes) t) = t.
Proof. unfold JSDate.LocalTime, JSDate.UTC, JSDate.fixedOffset. cbn [JSDate.LocalTZA]. lia. Qed.

(** At UTC or west of it, a local midnight is a UTC time of the same day. *)
Lemma utc_day_west (minutes n : Z) :
  -1440 < minutes <= 0 ->
  JSDate.Day (JSDate.UTC (JSDate.fixedOffset minutes) (n * JSDate.msPerDay)) = n.
Proof.
  intros H. unfold JSDate.UTC, JSDate.fixedOffset. cbn [JSDate.LocalTZA].
  replace (n * JSDate.msPerDay - minutes * 60000)
    with (n * JSDate.msPerDay + (- minutes * 60000)) by lia.
  apply Day_within. unfold JSDate.msPerDay. lia.
Qed.

(** Midnight of day [n]. *)
Lemma Day_midnight (n : Z) : JSDate.Day (n * JSDate.msPerDay) = n.
Proof. replace (n * JSDate.msPerDay) with (n * JSDate.msPerDay + 0) by lia.
  apply Day_within. unfold JSDate.msPerDay. lia. Qed.

(** And its time within the day. *)
Lemma TimeWithinDay_midnight (n : Z) : JSDate.TimeWithinDay (n * JSDate.msPerDay) = 0.
Proof. unfold JSDate.TimeWithinDay, JSDate.msPerDay. div_lia. Qed.

(** The day number is linear in the day of the month. *)
Lemma daysFromCivil_day (y m d : Z) :
  JSDate.daysFromCivil y m d = JSDate.daysFromCivil y m 1 + d - 1.
Proof. unfold JSDate.daysFromCivil. lia. Qed.

(** [MakeDay] on a month index 0..11. *)
Lemma MakeDay_month (y m d : Z) :
  1 <= m <= 12 -> JSDate.MakeDay y (m - 1) d = JSDate.daysFromCivil y m d.
Proof.
  intros Hm. unfold JSDate.MakeDay.
  replace ((m - 1) / 12) with 0 by div_lia.
  replace ((m - 1) mod 12 + 1) with m by div_lia.
  rewrite Z.add_0_r, (daysFromCivil_day y m d). lia.
Qed.

(** The Dates of four-digit years are within the range of time values. *)
Lemma TimeClip_days (minutes n : Z) :
  -1440 <= minutes <= 1440 -> -1000000 <= n <= 3000000 ->
  JSDate.TimeClip (JSDate.UTC (JSDate.fixedOffset minutes) (JSDate.MakeDate n 0)) =
    Some (JSDate.UTC (JSDate.fixedOffset minutes) (n * JSDate.msPerDay)).
Proof.
  intros Hmin Hn. unfold JSDate.MakeDate. rewrite Z.add_0_r.
  unfold JSDate.TimeClip, JSDate.UTC, JSDate.fixedOffset, JSDate.msPerDay.
  cbn [JSDate.LocalTZA].
  destruct (Z.abs _ <=? 8640000000000000) eqn:Hc; [reflexivity | lia].
Qed.

(** [new Date(y, m - 1, d)] from year 100 on: local midnight of the date. *)
Lemma fromYMD_month (minutes y m d : Z) :
  -1440 <= minutes <= 1440 -> 100 <= y <= 9999 -> 1 <= m <= 12 -> 0 <= d <= 100 ->
  JSDate.fromYMD (JSDate.fixedOffset minutes) y (m - 1) d =
    Some (JSDate.UTC (JSDate.fixedOffset minutes) (JSDate.daysFromCivil y m d * JSDate.msPerDay)).
Proof.
  intros Hmin Hy Hm Hd. unfold JSDate.fromYMD.
  replace ((0 <=? y) && (y <=? 99)) with false by lia.
  rewrite MakeDay_month by assumption.
  apply TimeClip_days; [assumption |].
  pose proof (daysFromCivil_bounds y m d ltac:(lia) Hm). lia.
Qed.

(** The local getters on a local midnight read the civil date. *)
Lemma civil_of_local_midnight (minutes n : Z) :
  let host := JSDate.fixedOffset minutes in
  let t := JSDate.UTC host (n * JSDate.msPerDay) in
  JSDate.getFullYear host (Some t) = Some (fst (fst (JSDate.civilFromDays n))) /\
  JSDate.getMonth host (Some t) = Some (snd (fst (JSDate.civilFromDays n)) - 1) /\
  JSDate.getDate host (Some t) = Some (snd (JSDate.civilFromDays n)) /\
  JSDate.getDay host (Some t) = Some ((n + 4) mod 7).
Proof.
  intros host t. subst host t.
  unfold JSDate.getFullYear, JSDate.getMonth, JSDate.getDate, JSDate.getDay,
    JSDate.YearFromTime, JSDate.MonthFromTime, JSDate.DateFromTime, JSDate.WeekDay.
  cbn [option_map]. rewrite local_of_utc, Day_midnight. repeat split; reflexivity.
Qed.

(** At UTC or west of it, [dateKey] of a local midnight is the key of the
    date. *)
Lemma dateKey_local_midnight_west (minutes y m d : Z) :
  -1440 < minutes <= 0 ->
  JSDate.validDate y m d = true -> 0 <= y <= 9999 ->
  App.dateKey (Some (JSDate.UTC (JSDate.fixedOffset minutes)
                       (JSDate.daysFromCivil y m d * JSDate.msPerDay))) =
    Some (Spec.key y m d).
Proof.
  intros Hmin Hv Hy. apply dateKey_civil.
  - rewrite utc_day_west by assumption. apply civil_roundtrip. assumption.
  - destruct (validDate_range _ _ _ Hv) as [Hm [Hd Hd31]]. unfold inRange. lia.
Qed.

(** Day 0 of the next month index is the last day of the month. *)
Lemma last_day_of_month (y m : Z) :
  1 <= m <= 12 ->
  JSDate.MakeDay y m 0 = JSDate.daysFromCivil y m (JSDate.daysInMonth y m).
Proof.
  intros Hm. unfold JSDate.MakeDay.
  assert (Hc : m = 1 \/ m = 2 \/ m = 3 \/ m = 4 \/ m = 5 \/ m = 6 \/ m = 7 \/ m = 8
               \/ m = 9 \/ m = 10 \/ m = 11 \/ m = 12) by lia.
  unfold JSDate.daysInMonth, JSDate.isLeap, JSDate.daysFromCivil.
  repeat (destruct Hc as [-> | Hc]); [.. | subst m];
    cbn [Z.eqb Z.leb Z.ltb Z.compare Pos.compare Pos.compare_cont orb andb Pos.eqb];
    repeat match goal with |- context [if ?c then _ else _] => destruct c eqn:? end;
    div_lia.
Qed.

(** ** The holiday calendar *)

(** The remainder of a non-negative dividend. *)
Lemma rem_nonneg_range (a b : Z) : 0 <= a -> 0 < b -> 0 <= Z.rem a b < b.
Proof. intros Ha Hb. rewrite Z.rem_mod_nonneg by lia. apply Z.mod_pos_bound. lia. Qed.

(** Easter Sunday as [computeEaster] computes it falls in March or April. *)
Lemma easter_date (year : Z) :
  0 <= year ->
  (fst (App.easterMonthDay year) = 3 /\ 1 <= snd (App.easterMonthDay year) <= 31) \/
  (fst (App.easterMonthDay year) = 4 /\ 1 <= snd (App.easterMonthDay year) <= 30).
Proof.
  intros Hy. unfold App.easterMonthDay.
  pose proof (rem_nonneg_range year 19 Hy ltac:(lia)) as Ha.
  set (a := Z.rem year 19) in *.
  set (b := year / 100).
  assert (Hb : 0 <= b) by (subst b; div_lia).
  pose proof (rem_nonneg_range year 100 Hy ltac:(lia)) as Hc.
  set (c := Z.rem year 100) in *.
  set (d := b / 4).
  pose proof (rem_nonneg_range b 4 Hb ltac:(lia)) as He.
  set (e := Z.rem b 4) in *.
  set (f := (b + 8) / 25).
  set (g := (b - f + 1) / 3).
  assert (Hn1 : 0 <= 19 * a + b - d - g + 15) by (subst d g f; div_lia).
  pose proof (rem_nonneg_range _ 30 Hn1 ltac:(lia)) as Hh.
  set (h := Z.rem (19 * a + b - d - g + 15) 30) in *.
  set (i := c / 4).
  assert (Hi : 0 <= i <= 24) by (subst i; div_lia).
  pose proof (rem_nonneg_range c 4 ltac:(lia) ltac:(lia)) as Hk.
  set (k := Z.rem c 4) in *.
  assert (Hn2 : 0 <= 32 + 2 * e + 2 * i - h - k) by lia.
  pose proof (rem_nonneg_range _ 7 Hn2 ltac:(lia)) as Hl.
  set (l := Z.rem (32 + 2 * e + 2 * i - h - k) 7) in *.
  set (m := (a + 11 * h + 22 * l) / 451).
  assert (Hm : (m = 0 /\ 0 <= h) \/ (m = 1 /\ 28 <= h)) by (subst m; div_lia).
  set (v := h + l - 7 * m + 114).
  assert (Hv : 114 <= v <= 149) by (subst v; lia).
  cbn [fst snd].
  rewrite (Z.rem_mod_nonneg v 31) by lia.
  clearbody v. clear - Hv. div_lia.
Qed.

(** So it is a date that exists. *)
Lemma easter_valid (year : Z) :
  0 <= year ->
  JSDate.validDate year (fst (App.easterMonthDay year)) (snd (App.easterMonthDay year)) = true
  /\ 3 <= fst (App.easterMonthDay year) <= 4.
Proof.
  intros Hy. pose proof (easter_date year Hy) as He.
  set (em := fst (App.easterMonthDay year)) in *.
  set (ed := snd (App.easterMonthDay year)) in *.
  clearbody em ed.
  destruct He as [[-> Hd] | [-> Hd]]; (split; [| lia]);
    unfold JSDate.validDate, JSDate.daysInMonth;
    cbn [Z.eqb Pos.eqb orb]; lia.
Qed.

(** Up to 100 days after a date of March or April stays within the range
    of four-digit years. *)
Lemma spring_day_bound (y m d k : Z) :
  0 <= y <= 9999 -> 3 <= m <= 4 -> 1 <= d <= 31 -> 0 <= k <= 100 ->
  -719528 <= JSDate.daysFromCivil y m d + k <= 2932896.
Proof.
  intros Hy Hm Hd Hk. unfold JSDate.daysFromCivil.
  replace (m <=? 2) with false by lia. replace (2 <? m) with true by lia.
  div_lia.
Qed.

(** From 1000 to 9999 a year prints in a template literal as its four
    digits. *)
Lemma intText_pad4 (y : Z) : 1000 <= y <= 9999 -> JSDate.intText y = JSDate.pad 4 y.
Proof.
  intros H. unfold JSDate.intText, JSDate.pad.
  replace (y <? 0) with false by lia.
  assert (Hlen : String.length (JSDate.natText y) = 4%nat).
  { pose proof (natText_length_le 4 y ltac:(lia)
                  ltac:(change (10 ^ Z.of_nat 4) with 10000; lia)) as Hle.
    assert (Hge : (3 + 1 <= String.length (JSDate.natText y))%nat).
    { unfold JSDate.natText. rewrite revOnto_length.
      change (String.length "") with 0%nat.
      rewrite Nat.add_0_r. apply digitsRev_length_ge.
      - assert (9 <= Z.log2 y) by (change 9 with (Z.log2 1000); apply Z.log2_le_mono; lia).
        lia.
      - change (10 ^ Z.of_nat 3) with 1000. lia. }
    lia. }
  rewrite Hlen. reflexivity.
Qed.

(** The ten template literals are the keys of the ten fixed dates. *)
Lemma fixedHolidays_keys (year : Z) :
  1000 <= year <= 9999 ->
  App.fixedHolidays year =
    [Spec.key year 1 1; Spec.key year 1 6; Spec.key year 5 1; Spec.key year 5 3;
     Spec.key year 8 15; Spec.key year 11 1; Spec.key year 11 11; Spec.key year 12 24;
     Spec.key year 12 25; Spec.key year 12 26].
Proof.
  intros H. unfold App.fixedHolidays, Spec.key. cbn [map].
  rewrite (intText_pad4 _ H).
  change (JSDate.pad 2 1) with "01". change (JSDate.pad 2 6) with "06".
  change (JSDate.pad 2 5) with "05". change (JSDate.pad 2 3) with "03".
  change (JSDate.pad 2 8) with "08". change (JSDate.pad 2 15) with "15".
  change (JSDate.pad 2 11) with "11". change (JSDate.pad 2 12) with "12".
  change (JSDate.pad 2 24) with "24". change (JSDate.pad 2 25) with "25".
  change (JSDate.pad 2 26) with "26".
  reflexivity.
Qed.

(** At UTC or west of it, [dateKey] after [setDate(getDate() + k)] on a
    local midnight is the key of the date [k] days later. *)
Lemma addDays_local_midnight_west (minutes y m d k : Z) :
  -1440 < minutes <= 0 ->
  0 <= y <= 9999 -> JSDate.validDate y m d = true -> 0 <= k <= 100 ->
  inRange (JSDate.civilFromDays (JSDate.daysFromCivil y m d + k)) = true ->
  App.dateKey
    (App.addDays (JSDate.fixedOffset minutes)
       (Some (JSDate.UTC (JSDate.fixedOffset minutes)
                (JSDate.daysFromCivil y m d * JSDate.msPerDay))) k) =
    Some (Spec.keyAfter y m d k).
Proof.
  intros Hmin Hy Hv Hk Hr.
  destruct (validDate_range _ _ _ Hv) as [Hm [Hd Hd31]].
  unfold App.addDays.
  destruct (civil_of_local_midnight minutes (JSDate.daysFromCivil y m d))
    as [_ [_ [Hdate _]]].
  cbv zeta in Hdate. rewrite Hdate, (civil_roundtrip _ _ _ Hv). cbn [snd].
  unfold JSDate.setDate, JSDate.YearFromTime, JSDate.MonthFromTime.
  rewrite local_of_utc, Day_midnight, TimeWithinDay_midnight, (civil_roundtrip _ _ _ Hv).
  cbn [fst snd]. rewrite MakeDay_month by assumption.
  replace (JSDate.daysFromCivil y m (d + k)) with (JSDate.daysFromCivil y m d + k)
    by (rewrite (daysFromCivil_day y m (d + k)), (daysFromCivil_day y m d); lia).
  pose proof (daysFromCivil_bounds y m d ltac:(lia) Hm) as Hb.
  rewrite TimeClip_days by lia.
  unfold Spec.keyAfter.
  destruct (JSDate.civilFromDays (JSDate.daysFromCivil y m d + k)) as [[y' m'] d'] eqn:Hc.
  apply dateKey_civil; [| assumption].
  rewrite utc_day_west by assumption. exact Hc.
Qed.

(** On a host at UTC or west of it (less than a day), for the years 1000
    to 9999, the Set of [polishHolidays(year)] is the documented set: the
    ten fixed dates, Easter Monday and Corpus Christi. *)
Lemma polishHolidays_west_of_utc (minutes year : Z) :
  -1440 < minutes <= 0 -> 1000 <= year <= 9999 ->
  App.polishHolidays (JSDate.fixedOffset minutes) year = Some (Spec.holidaysOf year).
Proof.
  intros Hmin Hy.
  destruct (easter_valid year ltac:(lia)) as [Hv Hspring].
  unfold App.polishHolidays, App.computeEaster, Spec.holidaysOf.
  destruct (App.easterMonthDay year) as [em ed]. cbn [fst snd] in Hv, Hspring.
  destruct (validDate_range _ _ _ Hv) as [Hm [Hd Hd31]].
  rewrite fromYMD_month by lia.
  rewrite !addDays_local_midnight_west;
    try (apply inRange_civil, spring_day_bound); try assumption; try lia.
  rewrite fixedHolidays_keys by assumption. reflexivity.
Qed.

(** [new Date(year, month, 0).getDate()] is the number of days of the
    month. *)
Lemma daysInMonth_west (minutes y m : Z) :
  -1440 <= minutes <= 1440 -> 100 <= y <= 9999 -> 1 <= m <= 12 ->
  JSDate.getDate (JSDate.fixedOffset minutes) (JSDate.fromYMD (JSDate.fixedOffset minutes) y m 0)
    = Some (JSDate.daysInMonth y m).
Proof.
  intros Hmin Hy Hm. unfold JSDate.fromYMD.
  replace ((0 <=? y) && (y <=? 99)) with false by lia.
  rewrite last_day_of_month by assumption.
  pose proof (daysInMonth_range y m) as Hdim.
  pose proof (daysFromCivil_bounds y m (JSDate.daysInMonth y m) ltac:(lia) Hm) as Hb.
  rewrite TimeClip_days by lia.
  destruct (civil_of_local_midnight minutes (JSDate.daysFromCivil y m (JSDate.daysInMonth y m)))
    as [_ [_ [Hdate _]]].
  cbv zeta in Hdate. rewrite Hdate, civil_roundtrip; [reflexivity |].
  unfold JSDate.validDate. lia.
Qed.

(** One turn of the loop counts the day exactly when it is a working day. *)
Lemma countDay_west (minutes year month n : Z) (day : nat) :
  -1440 < minutes <= 0 -> 1000 <= year <= 9999 ->
  JSDate.validDate year month (Z.of_nat day) = true ->
  App.countDay (JSDate.fixedOffset minutes) (Spec.holidaysOf year) year month (Some n) day =
    Some (n + b2z (Spec.workingDay year month day)).
Proof.
  intros Hmin Hy Hv.
  destruct (validDate_range _ _ _ Hv) as [Hm [Hd Hd31]].
  unfold App.countDay. rewrite fromYMD_month by lia.
  destruct (civil_of_local_midnight minutes (JSDate.daysFromCivil year month (Z.of_nat day)))
    as [_ [_ [_ Hdow]]].
  cbv zeta in Hdow. rewrite Hdow.
  rewrite dateKey_local_midnight_west by (assumption || lia).
  unfold Spec.workingDay, Spec.weekday.
  destruct ((_ =? 0) || (_ =? 6)); cbn [negb andb b2z]; [f_equal; lia |].
  destruct (App.has _ _); cbn [negb b2z]; f_equal; lia.
Qed.

(** The loop counts the working days among the days it visits. *)
Lemma fold_countDay_west (minutes year month : Z) (days : list nat) (n : Z) :
  -1440 < minutes <= 0 -> 1000 <= year <= 9999 ->
  (forall day, In day days -> JSDate.validDate year month (Z.of_nat day) = true) ->
  fold_left (App.countDay (JSDate.fixedOffset minutes) (Spec.holidaysOf year) year month)
            days (Some n) =
    Some (n + Z.of_nat (List.length (filter (Spec.workingDay year month) days))).
Proof.
  intros Hmin Hy. revert n. induction days as [| day days IH]; intros n Hv.
  - cbn. f_equal. lia.
  - cbn [fold_left filter]. rewrite countDay_west by (auto with datatypes).
    rewrite IH by (intros; apply Hv; right; assumption).
    destruct (Spec.workingDay year month day); cbn [b2z List.length]; f_equal; lia.
Qed.

(** On a host at UTC or west of it (less than a day), for the years 1000
    to 9999 and the months 1 to 12, [workingDaysInMonth(year, month)] is the
    documented count: the days of the month that are neither a Saturday, nor
    a Sunday, nor in the documented set of holidays. *)
Lemma workingDaysInMonth_west_of_utc (minutes year month : Z) :
  -1440 < minutes <= 0 -> 1000 <= year <= 9999 -> 1 <= month <= 12 ->
  App.workingDaysInMonth (JSDate.fixedOffset minutes) year month =
    Some (Spec.workingDaysInMonth year month).
Proof.
  intros Hmin Hy Hm. unfold App.workingDaysInMonth, Spec.workingDaysInMonth.
  rewrite polishHolidays_west_of_utc by assumption.
  rewrite daysInMonth_west by lia.
  rewrite fold_countDay_west; [f_equal | assumption | assumption |].
  intros day Hin. apply in_seq in Hin.
  pose proof (daysInMonth_range year month).
  unfold JSDate.validDate. lia.
Qed.

(** Easter Sunday 2024 is March 31, for every host: the month and the day
    that [computeEaster] passes to [new Date]. *)
Lemma easter_2024 : App.easterMonthDay 2024 = (3, 31).
Proof. vm_compute. reflexivity. Qed.

(** On a host at UTC the Set of [polishHolidays(2024)] holds the ten fixed
    dates, Easter Monday April 1 and Corpus Christi May 30, the documented
    set, and December 2024 and November 2024 have 19 working days each. *)
Lemma calendar_2024_at_utc :
  App.polishHolidays utc 2024 = Some (Spec.holidaysOf 2024) /\
  App.has (Spec.holidaysOf 2024) "2024-04-01" = true /\
  App.has (Spec.holidaysOf 2024) "2024-05-30" = true /\
  App.workingDaysInMonth utc 2024 12 = Some 19 /\
  App.workingDaysInMonth utc 2024 11 = Some 19.
Proof. vm_compute. repeat split; reflexivity. Qed.

(** C6, where the code departs from the claim: on a host at UTC+01:00 the
    Date of Easter Monday 2024 is local midnight of April 1, which is
    2024-03-31T23:00Z, and [dateKey] takes the UTC date: the Set of
    [polishHolidays(2024)] holds "2024-03-31" and "2024-05-29", and neither
    "2024-04-01" nor "2024-05-30". *)
Theorem polishHolidays_shifted_east_of_utc :
  App.dateKey (App.addDays utcPlus1 (App.computeEaster utcPlus1 2024) 1) = Some "2024-03-31" /\
  App.dateKey (App.addDays utcPlus1 (App.computeEaster utcPlus1 2024) 60) = Some "2024-05-29" /\
  (exists holidays,
      App.polishHolidays utcPlus1 2024 = Some holidays /\
      App.has holidays "2024-04-01" = false /\
      App.has holidays "2024-05-30" = false /\
      App.has holidays "2024-03-31" = true /\
      App.has holidays "2024-05-29" = true) /\
  App.has (Spec.holidaysOf 2024) "2024-04-01" = true /\
  App.has (Spec.holidaysOf 2024) "2024-05-30" = true.
Proof.
  split; [vm_compute; reflexivity |].
  split; [vm_compute; reflexivity |].
  split; [| vm_compute; split; reflexivity].
  eexists. split; [vm_compute; reflexivity |].
  vm_compute. repeat split; reflexivity.
Qed.

(** C7, where the code departs from the claim: November 2024 has 21 days
    from Monday to Friday, two of them holidays (Friday the 1st and Monday
    the 11th), so 19 working days; on a host at UTC+01:00
    [workingDaysInMonth(2024, 11)] is 20.  The key of local November 1 is
    "2024-10-31", so that day is counted, and the key of local November 12
    is "2024-11-11", so that day is left out.  December 2024 gives 19 on
    this host as well. *)
Theorem workingDaysInMonth_off_east_of_utc :
  Spec.workingDaysInMonth 2024 11 = 19 /\
  App.workingDaysInMonth utcPlus1 2024 11 = Some 20 /\
  App.dateKey (JSDate.fromYMD utcPlus1 2024 10 1) = Some "2024-10-31" /\
  App.dateKey (JSDate.fromYMD utcPlus1 2024 10 12) = Some "2024-11-11" /\
  Spec.workingDaysInMonth 2024 12 = 19 /\
  App.workingDaysInMonth utcPlus1 2024 12 = Some 19.
Proof. vm_compute. repeat split; reflexivity. Qed.

(** ** The ledger *)

(** On every host, [sumEntriesForMonth] returns nothing exactly when the
    reference date is missing, empty or does not parse. *)
Lemma sumEntriesForMonth_none_iff (host : JSDate.Host) (entries : App.Entries)
    (refDate : option string) :
  App.sumEntriesForMonth host entries refDate = None <->
  match refDate with
  | None => True
  | Some r => r = EmptyString \/ JSDate.parse host r = None
  end.
Proof.
  unfold App.sumEntriesForMonth, JSDate.getFullYear, JSDate.getMonth.
  destruct refDate as [[| c r] |]; cbn [Str.isEmpty].
  - split; auto.
  - destruct (JSDate.parse host (String c r)); cbn [option_map]; split.
    + discriminate.
    + intros [H | H]; discriminate.
    + auto.
    + reflexivity.
  - split; auto.
Qed.

(** At UTC or east of it (less than a day), on a host that reads the
    date-only forms and no other string, the test of the month handler is
    the documented one: the key names a date of that year and month. *)
Lemma inMonth_east (minutes year mon : Z) (date : string) :
  0 <= minutes < 1440 ->
  Server.inMonth (JSDate.fixedOffset minutes) year mon date = Spec.inMonth year mon date.
Proof.
  intros Hmin. unfold Server.inMonth, Spec.inMonth.
  destruct (JSDate.dateOnlyFields date) as [[[y m] d] |] eqn:Hf.
  - destruct (local_year_month_east _ _ _ _ _ Hmin Hf) as [-> ->].
    replace (m - 1 + 1) with m by lia. reflexivity.
  - rewrite (parse_not_dateOnly _ _ Hf). reflexivity.
Qed.

(** And so is the test of [sumEntriesForMonth], on a month index. *)
Lemma sameMonth_east (minutes year monthIndex : Z) (date : string) :
  0 <= minutes < 1440 ->
  App.sameMonth (JSDate.fixedOffset minutes) year monthIndex date =
    Spec.inMonth year (monthIndex + 1) date.
Proof.
  intros Hmin. unfold App.sameMonth, Spec.inMonth.
  destruct (JSDate.dateOnlyFields date) as [[[y m] d] |] eqn:Hf.
  - destruct (local_year_month_east _ _ _ _ _ Hmin Hf) as [-> ->].
    f_equal. apply eq_true_iff_eq. rewrite !Z.eqb_eq. lia.
  - rewrite (parse_not_dateOnly _ _ Hf). reflexivity.
Qed.

(** On every host, an argument that is missing or does not match [YYYY-MM]
    is rejected and the stored entries stay as they are. *)
Lemma clearMonth_rejects (host : JSDate.Host) (month : option string)
    (entries : Server.Entries) :
  match month with
  | None => True
  | Some m => Server.matchYearMonth m = None
  end ->
  Server.clearMonth host month entries =
    (Server.BadRequest "Month should be YYYY-MM", entries).
Proof.
  unfold Server.clearMonth. destruct month as [m |]; [| reflexivity].
  intros ->. reflexivity.
Qed.

(** On every host, for an argument that matches, the entries stored
    afterwards are the entries that fail the handler's test, unchanged. *)
Lemma clearMonth_keeps (host : JSDate.Host) (month : string) (year mon : Z)
    (entries : Server.Entries) (kv : string * jsval) :
  Server.matchYearMonth month = Some (year, mon) ->
  In kv (snd (Server.clearMonth host (Some month) entries)) <->
  In kv entries /\ Server.inMonth host year mon (fst kv) = false.
Proof.
  intros Hm. unfold Server.clearMonth. rewrite Hm. cbn [snd].
  rewrite filter_In, negb_true_iff. reflexivity.
Qed.

(** On a host at UTC or east of it (less than a day) that reads the
    date-only forms and no other string, for an argument that matches
    [YYYY-MM], the handler removes exactly the entries whose key names a
    date of that month of that year, and keeps every other entry as it is
    and in place. *)
Lemma clearMonth_east_of_utc (minutes : Z) (month : string) (year mon : Z)
    (entries : Server.Entries) :
  0 <= minutes < 1440 ->
  Server.matchYearMonth month = Some (year, mon) ->
  Server.clearMonth (JSDate.fixedOffset minutes) (Some month) entries =
    (Server.Ok (filter (fun kv => negb (Spec.inMonth year mon (fst kv))) entries),
     filter (fun kv => negb (Spec.inMonth year mon (fst kv))) entries).
Proof.
  intros Hmin Hm. unfold Server.clearMonth. rewrite Hm.
  rewrite (filter_ext _ (fun kv => negb (Spec.inMonth year mon (fst kv)))).
  - reflexivity.
  - intros kv. rewrite inMonth_east by assumption. reflexivity.
Qed.

(** On a host at UTC or east of it (less than a day) that reads the
    date-only forms and no other string,
    [sumEntriesForMonth(refDate)] is nothing when [refDate] names no date,
    and otherwise [round2] of the sum of [Number(hours) || 0] over the
    entries whose key names a date of the year and month of [refDate]. *)
Lemma sumEntriesForMonth_east_of_utc (minutes : Z) (entries : App.Entries)
    (refDate : string) :
  0 <= minutes < 1440 ->
  App.sumEntriesForMonth (JSDate.fixedOffset minutes) entries (Some refDate) =
    match JSDate.dateOnlyFields refDate with
    | Some (y, m, _) =>
        Some (round2 (JNum (fold_left
                (fun total kv =>
                   if Spec.inMonth y m (fst kv)
                   then Num.add total (App.hoursOr0 (snd kv)) else total)
                entries Num.zero)))
    | None => None
    end.
Proof.
  intros Hmin. unfold App.sumEntriesForMonth.
  destruct (JSDate.dateOnlyFields refDate) as [[[y m] d] |] eqn:Hf.
  - assert (Hne : Str.isEmpty refDate = false).
    { destruct refDate; [discriminate Hf | reflexivity]. }
    rewrite Hne.
    destruct (local_year_month_east _ _ _ _ _ Hmin Hf) as [-> ->].
    f_equal. f_equal. f_equal.
    generalize Num.zero. induction entries as [| kv entries IH]; intros acc.
    + reflexivity.
    + cbn [fold_left]. rewrite sameMonth_east by assumption.
      replace (m - 1 + 1) with m by lia. apply IH.
  - rewrite (parse_not_dateOnly _ _ Hf).
    destruct (Str.isEmpty refDate); reflexivity.
Qed.

(** On a host at UTC the example of the specification sums to 7.5, a
    reference date that does not parse gives nothing, and a month without
    entries gives 0. *)
Lemma sumEntriesForMonth_at_utc :
  App.sumEntriesForMonth utc marchEntries (Some "2024-03-10") = Some (numeral "7.5") /\
  App.sumEntriesForMonth utc marchEntries (Some "not a date") = None /\
  App.sumEntriesForMonth utc marchEntries (Some "") = None /\
  App.sumEntriesForMonth utc marchEntries None = None /\
  App.sumEntriesForMonth utc marchEntries (Some "2024-05-10") = Some Num.zero.
Proof. vm_compute. repeat split; reflexivity. Qed.

(** C8, where the code departs from the claim: on a host at UTC-05:00 the
    Date of "2024-03-01" is February 29 at 19:00 local time and the Date of
    "2024-04-01" is March 31 at 19:00, so for the reference date
    "2024-03-10" the entry of March 1 is left out and the entry of April 1
    is added: the sum is 3.5 + 8 = 11.5, not 7.5. *)
Theorem sumEntriesForMonth_off_west_of_utc :
  App.sameMonth utcMinus5 2024 2 "2024-03-01" = false /\
  App.sameMonth utcMinus5 2024 2 "2024-03-15" = true /\
  App.sameMonth utcMinus5 2024 2 "2024-04-01" = true /\
  App.sumEntriesForMonth utcMinus5 marchEntries (Some "2024-03-10") = Some (numeral "11.5") /\
  Num.eqb (numeral "11.5") (numeral "7.5") = false.
Proof. vm_compute. repeat split; reflexivity. Qed.

(** On a host at UTC, clearing "2024-03" removes the two entries of March
    2024 and keeps those of March 2023 and April 2024; an argument that does
    not match the pattern is rejected and nothing is removed. *)
Lemma clearMonth_at_utc :
  Server.clearMonth utc (Some "2024-03") storedEntries =
    (Server.Ok [("2023-03-05", JNum (numeral "6")); ("2024-04-01", JNum (numeral "8"))],
     [("2023-03-05", JNum (numeral "6")); ("2024-04-01", JNum (numeral "8"))]) /\
  Server.clearMonth utc (Some "2024-3") storedEntries =
    (Server.BadRequest "Month should be YYYY-MM", storedEntries) /\
  Server.clearMonth utc None storedEntries =
    (Server.BadRequest "Month should be YYYY-MM", storedEntries).
Proof. vm_compute. repeat split; reflexivity. Qed.

(** C9, where the code departs from the claim: on a host at UTC-05:00,
    clearing "2024-03" keeps the entry of "2024-03-01" and removes the entry
    of "2024-04-01"; the entry of "2023-03-05" stays. *)
Theorem clearMonth_off_west_of_utc :
  snd (Server.clearMonth utcMinus5 (Some "2024-03") storedEntries) =
    [("2023-03-05", JNum (numeral "6")); ("2024-03-01", JNum (numeral "4"))].
Proof. vm_compute. reflexivity. Qed.
(** ** Texts and file names *)

Lemma trimStart_head (s : string) :
  match Str.trimStart s with
  | String c _ => Str.isWhite c = false
  | EmptyString => True
  end.
Proof.
  induction s as [| c r IH]; cbn [Str.trimStart]; [exact I |].
  destruct (Str.isWhite c) eqn:Hc; [exact IH | exact Hc].
Qed.

Lemma trimEnd_idempotent (s : string) : Str.trimEnd (Str.trimEnd s) = Str.trimEnd s.
Proof.
  induction s as [| c r IH]; cbn [Str.trimEnd]; [reflexivity |].
  destruct (Str.isWhite c && Str.isEmpty (Str.trimEnd r)) eqn:H; [reflexivity |].
  cbn [Str.trimEnd]. rewrite IH, H. reflexivity.
Qed.

Lemma trimStart_trimEnd (s : string) :
  match s with
  | String c _ => Str.isWhite c = false
  | EmptyString => True
  end ->
  Str.trimStart (Str.trimEnd s) = Str.trimEnd s.
Proof.
  destruct s as [| c r]; [reflexivity |]. intros Hc.
  cbn [Str.trimEnd]. rewrite Hc. cbn [andb Str.trimStart]. rewrite Hc. reflexivity.
Qed.

Lemma trim_idempotent (s : string) : Str.trim (Str.trim s) = Str.trim s.
Proof.
  unfold Str.trim. rewrite trimStart_trimEnd by apply trimStart_head.
  apply trimEnd_idempotent.
Qed.

Lemma trimEnd_last (s : string) (c : ascii) :
  lastChar (Str.trimEnd s) = Some c -> Str.isWhite c = false.
Proof.
  induction s as [| d r IH]; cbn [Str.trimEnd]; [discriminate |].
  destruct (Str.trimEnd r) as [| d' r'] eqn:Hr.
  - cbn [Str.isEmpty]. rewrite andb_true_r.
    destruct (Str.isWhite d) eqn:Hd; cbn [lastChar]; [discriminate |].
    intros H. inversion H; subst. exact Hd.
  - cbn [Str.isEmpty]. rewrite andb_false_r. exact IH.
Qed.

Lemma cleanText_idempotent (value : option string) :
  Server.cleanText (Some (Server.cleanText value)) = Server.cleanText value.
Proof. destruct value as [s |]; cbn [Server.cleanText]; [apply trim_idempotent | reflexivity]. Qed.

Lemma cleanText_first (value : option string) (c : ascii) :
  firstChar (Server.cleanText value) = Some c -> Str.isWhite c = false.
Proof.
  destruct value as [s |]; cbn [Server.cleanText]; [| discriminate].
  intros Hc. unfold Str.trim in Hc.
  rewrite <- trimStart_trimEnd in Hc by apply trimStart_head.
  pose proof (trimStart_head (Str.trimEnd (Str.trimStart s))) as H.
  destruct (Str.trimStart (Str.trimEnd (Str.trimStart s))); [discriminate |].
  inversion Hc; subst. exact H.
Qed.

Lemma cleanText_last (value : option string) (c : ascii) :
  lastChar (Server.cleanText value) = Some c -> Str.isWhite c = false.
Proof.
  destruct value as [s |]; cbn [Server.cleanText]; [apply trimEnd_last | discriminate].
Qed.

(** X1: [cleanText] leaves no white space at either end of its result, and
    cleaning a clean text changes nothing. *)
Theorem cleanText_clean (value : option string) :
  let t := Server.cleanText value in
  (forall c, firstChar t = Some c -> Str.isWhite c = false) /\
  (forall c, lastChar t = Some c -> Str.isWhite c = false) /\
  Server.cleanText (Some t) = t.
Proof.
  split; [| split].
  - apply cleanText_first.
  - apply cleanText_last.
  - apply cleanText_idempotent.
Qed.

(** X2: normalising a party that is already normalised (its six fields
    sent back as they were stored) changes nothing. *)
Theorem normalizeParty_idempotent (party : Api.RawParty.t) :
  Api.normalizeParty (partyAsRaw (Api.normalizeParty party)) = Api.normalizeParty party.
Proof.
  unfold Api.normalizeParty, partyAsRaw.
  cbn [Api.RawParty.name Api.RawParty.address Api.RawParty.city Api.RawParty.taxId
       Api.RawParty.nip Api.RawParty.account Api.RawParty.bank
       Api.Party.name Api.Party.address Api.Party.city Api.Party.taxId
       Api.Party.account Api.Party.bank].
  rewrite !cleanText_idempotent.
  set (t := Server.cleanText (Api.orText (Api.RawParty.taxId party) (Api.RawParty.nip party))).
  assert (Ht : Server.cleanText (Api.orText (Some t) None) = t).
  { unfold Api.orText. destruct (Str.isEmpty t) eqn:He.
    - destruct t; [reflexivity | discriminate].
    - subst t. apply cleanText_idempotent. }
  rewrite Ht. reflexivity.
Qed.

Lemma allChars_replaceUnsafe (inRun : bool) (s : string) :
  allChars Api.isSafe (Api.replaceUnsafe inRun s) = true.
Proof.
  revert inRun. induction s as [| c r IH]; intros inRun; cbn [Api.replaceUnsafe]; [reflexivity |].
  destruct (Api.isSafe c) eqn:Hc.
  - cbn [allChars]. rewrite Hc, IH. reflexivity.
  - destruct inRun; [apply IH |]. cbn [allChars]. rewrite IH. reflexivity.
Qed.

Lemma allChars_stripStart (p : ascii -> bool) (s : string) :
  allChars p s = true -> allChars p (Api.stripStart s) = true.
Proof.
  induction s as [| c r IH]; cbn [Api.stripStart]; [trivial |].
  destruct (Api.isUnderscore c); [| trivial].
  cbn [allChars]. intros H. apply andb_prop in H. apply IH, H.
Qed.

Lemma allChars_stripEnd (p : ascii -> bool) (s : string) :
  allChars p s = true -> allChars p (Api.stripEnd s) = true.
Proof.
  induction s as [| c r IH]; cbn [Api.stripEnd]; [trivial |].
  cbn [allChars]. intros H. apply andb_prop in H. destruct H as [Hc Hr].
  destruct (Api.isUnderscore c && Str.isEmpty (Api.stripEnd r)); [reflexivity |].
  cbn [allChars]. rewrite Hc, (IH Hr). reflexivity.
Qed.

Lemma stripStart_head (s : string) (c : ascii) :
  firstChar (Api.stripStart s) = Some c -> Api.isUnderscore c = false.
Proof.
  induction s as [| d r IH]; cbn [Api.stripStart]; [discriminate |].
  destruct (Api.isUnderscore d) eqn:Hd; [exact IH |].
  cbn [firstChar]. intros H. inversion H; subst. exact Hd.
Qed.

Lemma stripEnd_head (s : string) (c : ascii) :
  (forall d, firstChar s = Some d -> Api.isUnderscore d = false) ->
  firstChar (Api.stripEnd s) = Some c -> Api.isUnderscore c = false.
Proof.
  destruct s as [| d r]; cbn [Api.stripEnd]; [discriminate |].
  intros Hd. rewrite (Hd d eq_refl). cbn [andb firstChar].
  intros H. inversion H; subst. apply Hd. reflexivity.
Qed.

Lemma stripEnd_last (s : string) (c : ascii) :
  lastChar (Api.stripEnd s) = Some c -> Api.isUnderscore c = false.
Proof.
  induction s as [| d r IH]; cbn [Api.stripEnd]; [discriminate |].
  destruct (Api.stripEnd r) as [| d' r'] eqn:Hr.
  - cbn [Str.isEmpty]. rewrite andb_true_r.
    destruct (Api.isUnderscore d) eqn:Hd; cbn [lastChar]; [discriminate |].
    intros H. inversion H; subst. exact Hd.
  - cbn [Str.isEmpty]. rewrite andb_false_r. exact IH.
Qed.

(** X3: the name that [sanitizeFileName] returns is the fallback, or it is
    not empty, holds only letters, digits, underscores and hyphens (so no
    dot, slash or backslash), and neither starts nor ends with an
    underscore. *)
Theorem sanitizeFileName_safe (text : option string) (fallback : string) :
  let name := Api.sanitizeFileName text fallback in
  name = fallback \/
  (name <> EmptyString /\
   allChars Api.isSafe name = true /\
   (forall c, firstChar name = Some c -> c <> "_"%char) /\
   (forall c, lastChar name = Some c -> c <> "_"%char)).
Proof.
  unfold Api.sanitizeFileName.
  set (safe := Api.stripEnd (Api.stripStart (Api.replaceUnsafe false (Server.cleanText text)))).
  cbv zeta. destruct (Str.isEmpty safe) eqn:He; [left; reflexivity | right].
  split; [| split; [| split]].
  - intros H. rewrite H in He. discriminate.
  - apply allChars_stripEnd, allChars_stripStart, allChars_replaceUnsafe.
  - intros c Hc Heq. subst c.
    apply stripEnd_head in Hc; [discriminate |].
    intros d. apply stripStart_head.
  - intros c Hc Heq. subst c. apply stripEnd_last in Hc. discriminate.
Qed.

Lemma isSafe_not_white (c : ascii) : Api.isSafe c = true -> Str.isWhite c = false.
Proof. unfold Api.isSafe, Str.isWhite. cbv zeta. lia. Qed.

Lemma trimStart_allChars (s : string) :
  allChars Api.isSafe s = true -> Str.trimStart s = s.
Proof.
  destruct s as [| c r]; [reflexivity |]. cbn [allChars Str.trimStart].
  intros H. apply andb_prop in H. rewrite (isSafe_not_white c (proj1 H)). reflexivity.
Qed.

Lemma trimEnd_allChars (s : string) :
  allChars Api.isSafe s = true -> Str.trimEnd s = s.
Proof.
  induction s as [| c r IH]; [reflexivity |]. cbn [allChars Str.trimEnd].
  intros H. apply andb_prop in H. destruct H as [Hc Hr].
  rewrite (isSafe_not_white c Hc), (IH Hr). reflexivity.
Qed.

Lemma replaceUnsafe_allChars (s : string) :
  allChars Api.isSafe s = true -> Api.replaceUnsafe false s = s.
Proof.
  induction s as [| c r IH]; [reflexivity |]. cbn [allChars Api.replaceUnsafe].
  intros H. apply andb_prop in H. destruct H as [Hc Hr].
  rewrite Hc, (IH Hr). reflexivity.
Qed.

Lemma stripStart_fixed (s : string) :
  (forall c, firstChar s = Some c -> c <> "_"%char) -> Api.stripStart s = s.
Proof.
  destruct s as [| c r]; [reflexivity |]. cbn [Api.stripStart firstChar]. intros H.
  unfold Api.isUnderscore. destruct (Ascii.eqb_spec c "_"); [| reflexivity].
  exfalso. exact (H c eq_refl e).
Qed.

Lemma stripEnd_fixed (s : string) :
  (forall c, lastChar s = Some c -> c <> "_"%char) -> Api.stripEnd s = s.
Proof.
  induction s as [| c r IH]; [reflexivity |]. cbn [Api.stripEnd]. intros H.
  destruct r as [| d r'].
  - cbn [Api.stripEnd Str.isEmpty lastChar] in *. rewrite andb_true_r.
    unfold Api.isUnderscore. destruct (Ascii.eqb_spec c "_"); [| reflexivity].
    exfalso. exact (H c eq_refl e).
  - rewrite IH by exact H.
    cbn [Str.isEmpty]. rewrite andb_false_r. reflexivity.
Qed.

(** X4: a name that is not empty, holds only letters, digits, underscores
    and hyphens, and has no underscore at either end is returned as it
    is. *)
Theorem sanitizeFileName_keeps_safe_names (s fallback : string) :
  s <> EmptyString ->
  allChars Api.isSafe s = true ->
  (forall c, firstChar s = Some c -> c <> "_"%char) ->
  (forall c, lastChar s = Some c -> c <> "_"%char) ->
  Api.sanitizeFileName (Some s) fallback = s.
Proof.
  intros Hne Hsafe Hfirst Hlast. unfold Api.sanitizeFileName, Server.cleanText, Str.trim.
  rewrite (trimStart_allChars s Hsafe), (trimEnd_allChars s Hsafe),
    (replaceUnsafe_allChars s Hsafe), (stripStart_fixed s Hfirst), (stripEnd_fixed s Hlast).
  destruct s; [contradiction | reflexivity].
Qed.

Lemma sanitizeFileName_keeps_INV_2024_001 :
  Api.sanitizeFileName (Some "INV-2024_001") "invoice" = "INV-2024_001".
Proof.
  apply sanitizeFileName_keeps_safe_names.
  - discriminate.
  - reflexivity.
  - intros c H. inversion H. discriminate.
  - intros c H. inversion H. discriminate.
Defined.

(** ** Signs and NaN *)

Lemma binary_round_aux_sign (sx : bool) (mx ex : Z) (lx : location) :
  0 <= mx -> hasSign sx (binary_round_aux Num.prec Num.emax sx mx ex lx).
Proof.
  intros Hmx. unfold binary_round_aux.
  pose proof (shr_fexp_bound mx ex lx Hmx) as H1.
  destruct (shr_fexp Num.prec Num.emax mx ex lx) as [mrs' e'] eqn:Hs1. cbn [fst] in H1.
  pose proof (round_nearest_even_nonneg (shr_m mrs') (loc_of_shr_record mrs') ltac:(lia)) as Hr.
  pose proof (shr_fexp_bound (round_nearest_even (shr_m mrs') (loc_of_shr_record mrs')) e'
                loc_Exact Hr) as H2.
  destruct (shr_fexp Num.prec Num.emax _ e' loc_Exact) as [mrs'' e''] eqn:Hs2.
  cbn [fst] in H2.
  destruct (shr_m mrs'') as [| p | p] eqn:Hm; [reflexivity | | lia].
  destruct (e'' <=? Num.emax - Num.prec); reflexivity.
Qed.

Lemma mul_sign (sx sy : bool) (mx my : positive) (ex ey : Z) :
  hasSign (xorb sx sy) (Num.mul (S754_finite sx mx ex) (S754_finite sy my ey)).
Proof. unfold Num.mul, SFmul. apply binary_round_aux_sign. lia. Qed.

Lemma div_core_nonneg (m1 m2 : positive) (e1 e2 : Z) :
  0 <= fst (fst (SFdiv_core_binary Num.prec Num.emax (Zpos m1) e1 (Zpos m2) e2)).
Proof.
  unfold SFdiv_core_binary.
  set (e' := Z.min _ _). set (s := e1 - e2 - e').
  set (m' := match s with Zpos _ => Z.shiftl (Zpos m1) s | Z0 => Zpos m1 | Zneg _ => 0 end).
  assert (Hm : 0 <= m').
  { subst m'. destruct s; [lia | | lia]. apply Z.shiftl_nonneg. lia. }
  pose proof (Z_div_mod m' (Zpos m2) ltac:(lia)) as Hdiv.
  destruct (Z.div_eucl m' (Zpos m2)) as [q r]. cbn [fst]. nia.
Qed.

Lemma div_sign (sx sy : bool) (mx my : positive) (ex ey : Z) :
  hasSign (xorb sx sy) (Num.div (S754_finite sx mx ex) (S754_finite sy my ey)).
Proof.
  unfold Num.div, SFdiv.
  pose proof (div_core_nonneg mx my ex ey) as H.
  destruct (SFdiv_core_binary Num.prec Num.emax (Zpos mx) ex (Zpos my) ey) as [[mz ez] lz].
  cbn [fst] in H. apply binary_round_aux_sign. exact H.
Qed.

Lemma ofZ_sign (n : Z) : n <> 0 -> hasSign (n <? 0) (Num.ofZ n).
Proof.
  intros Hn. unfold Num.ofZ, binary_normalize. destruct n as [| p | p]; [contradiction | |].
  - unfold binary_round. destruct (shl_align p 0 _) as [mz ez].
    apply binary_round_aux_sign. lia.
  - unfold binary_round. destruct (shl_align p 0 _) as [mz ez].
    apply binary_round_aux_sign. lia.
Qed.

Lemma nearestUp_sign (s : bool) (m : positive) (k : Z) :
  0 < k ->
  let n := Num.nearestUp (cond_Zopp s (Zpos m)) k in
  if s then n <= 0 else 0 <= n.
Proof.
  intros Hk n. pose proof (nearestUp_bounds (cond_Zopp s (Zpos m)) k ltac:(lia)) as Hb.
  fold n in Hb.
  assert (Hp : 2 <= 2 ^ k).
  { change 2 with (2 ^ 1) at 1. apply Z.pow_le_mono_r; lia. }
  destruct s; cbn [cond_Zopp] in Hb; nia.
Qed.

Lemma Math_round_sign (s : bool) (m : positive) (e : Z) :
  hasSign s (Num.Math_round (S754_finite s m e)).
Proof.
  unfold Num.Math_round. destruct (0 <=? e) eqn:He; [reflexivity |].
  apply Z.leb_gt in He.
  pose proof (nearestUp_sign s m (- e) ltac:(lia)) as Hn. cbv zeta in Hn.
  unfold Num.ofInteger.
  destruct (Num.nearestUp (cond_Zopp s (Zpos m)) (- e)) as [| p | p] eqn:Hp; [reflexivity | |].
  - destruct s; [lia |]. apply (ofZ_sign (Zpos p)). lia.
  - destruct s; [| lia]. apply (ofZ_sign (Zneg p)). lia.
Qed.

Lemma hundred : Num.ofZ 100 = S754_finite false 7036874417766400 (-46).
Proof. vm_compute. reflexivity. Qed.

(** [round2] of a Number: the sign is kept, and a NaN or a zero gives [+0]. *)
Lemma round2_sign (x : number) :
  match x with
  | S754_finite s _ _ | S754_infinity s => hasSign s (round2 (JNum x))
  | _ => round2 (JNum x) = Num.zero
  end.
Proof.
  unfold round2. rewrite hundred.
  destruct x as [s | s | | s m e].
  - reflexivity.
  - destruct s; reflexivity.
  - reflexivity.
  - cbn [Val.or Val.truthy Num.truthy Val.ToNumber].
    pose proof (mul_sign s false m 7036874417766400 e (-46)) as H1.
    rewrite xorb_false_r in H1.
    destruct (Num.mul (S754_finite s m e) (S754_finite false 7036874417766400 (-46)))
      as [s1 | s1 | | s1 m1 e1]; cbn [hasSign] in H1; try contradiction; subst s1.
    + destruct s; reflexivity.
    + destruct s; reflexivity.
    + pose proof (Math_round_sign s m1 e1) as H2.
      destruct (Num.Math_round (S754_finite s m1 e1)) as [s2 | s2 | | s2 m2 e2];
        cbn [hasSign] in H2; try contradiction; subst s2.
      * destruct s; reflexivity.
      * destruct s; reflexivity.
      * pose proof (div_sign s false m2 7036874417766400 e2 (-46)) as H3.
        rewrite xorb_false_r in H3. exact H3.
Qed.

(** X5: [round2] of a Number is never NaN, and it keeps the sign: a value
    that is not below zero is rounded to one that is not below zero, and a
    value that is not above zero to one that is not above zero.  NaN and
    both zeros are rounded to [+0], an infinity is returned as it is, and a
    finite Number that is not zero is rounded to a Number with its sign
    bit. *)
Theorem round2_keeps_sign (x : number) :
  round2 (JNum x) <> Num.nan /\
  (Num.geb x Num.zero = true -> Num.geb (round2 (JNum x)) Num.zero = true) /\
  (Num.geb Num.zero x = true -> Num.geb Num.zero (round2 (JNum x)) = true) /\
  match x with
  | S754_nan | S754_zero _ => round2 (JNum x) = Num.zero
  | S754_infinity _ => round2 (JNum x) = x
  | S754_finite s _ _ => hasSign s (round2 (JNum x))
  end.
Proof.
  pose proof (round2_sign x) as H.
  destruct x as [s | s | | s m e].
  - rewrite H. repeat split; discriminate || reflexivity.
  - repeat split; destruct s; intros; reflexivity || discriminate.
  - rewrite H. repeat split; discriminate || reflexivity.
  - split; [| split; [| split; [| exact H]]];
      destruct (round2 (JNum (S754_finite s m e))) as [s' | s' | | s' m' e'];
      cbn [hasSign] in H; try contradiction; subst s';
      try discriminate; destruct s; intros Hx; reflexivity || discriminate Hx.
Qed.

(** ** The entries of the store *)

Lemma round2_not_nan (x : number) : round2 (JNum x) <> S754_nan.
Proof.
  pose proof (round2_sign x) as H. intros Hn. rewrite Hn in H.
  destruct x; cbn [hasSign] in H; try contradiction; discriminate.
Qed.

Lemma toNumber_number (v : jsval) (x : number) :
  exists y, Server.toNumber v (JNum x) = JNum y.
Proof.
  unfold Server.toNumber. destruct (Num.isFinite (Val.ToNumber v)); eauto.
Qed.

Lemma parseColon_not_nan (t : string) (h : number) :
  parseColon t = Some h -> h <> S754_nan.
Proof.
  unfold parseColon. destruct (map Str.StringToNumber (Str.split ":" t)) as [| a [| b r]];
    try discriminate.
  destruct (_ && _); [| discriminate].
  intros H. inversion H. apply round2_not_nan.
Qed.

Lemma parseHoursInput_not_nan (v : jsval) (h : number) :
  Server.parseHoursInput v = Some h -> h <> S754_nan.
Proof.
  unfold Server.parseHoursInput. intros H.
  assert (Hn : forall w, Some (round2 (Server.toNumber w (JNum Num.zero))) = Some h ->
                         h <> S754_nan).
  { intros w Hw. destruct (toNumber_number w Num.zero) as [y Hy]. rewrite Hy in Hw.
    inversion Hw. apply round2_not_nan. }
  destruct v as [| | b | x | s]; try (apply (Hn _ H)).
  destruct (Str.includes ":" (Str.trim s)); [apply (parseColon_not_nan _ _ H) | apply (Hn _ H)].
Qed.

Lemma storedHours_number (h : number) :
  h <> S754_nan -> Num.ltb h Num.zero = false -> storedHours (Json.number h).
Proof.
  intros Hn Hlt. destruct h as [s | s | | s m e]; cbn [Json.number storedHours].
  - split; reflexivity.
  - exact I.
  - contradiction.
  - destruct s; [discriminate Hlt | split; reflexivity].
Qed.

Lemma get_replace_same (k : string) (v : jsval) (o : Obj.t) :
  Obj.hasOwn k o = true -> Obj.get k (Obj.replace k v o) = Some v.
Proof.
  unfold Obj.hasOwn. induction o as [| [k' v'] r IH]; cbn [Obj.get Obj.replace]; [discriminate |].
  destruct (String.eqb k' k) eqn:Hk.
  - intros _. cbn [Obj.get]. rewrite String.eqb_refl. reflexivity.
  - intros H. cbn [Obj.get]. rewrite Hk. apply IH, H.
Qed.

Lemma get_replace_other (k k0 : string) (v : jsval) (o : Obj.t) :
  k0 <> k -> Obj.get k0 (Obj.replace k v o) = Obj.get k0 o.
Proof.
  intros Hne. induction o as [| [k' v'] r IH]; cbn [Obj.get Obj.replace]; [reflexivity |].
  destruct (String.eqb k' k) eqn:Hk.
  - apply String.eqb_eq in Hk. subst k'. cbn [Obj.get].
    destruct (String.eqb_spec k k0); [congruence | reflexivity].
  - cbn [Obj.get]. rewrite IH. reflexivity.
Qed.

Lemma get_app (k : string) (a b : Obj.t) :
  Obj.get k (a ++ b)%list = match Obj.get k a with Some v => Some v | None => Obj.get k b end.
Proof.
  induction a as [| [k' v'] r IH]; cbn [Obj.get app]; [reflexivity |].
  destruct (String.eqb k' k); [reflexivity | exact IH].
Qed.

Lemma get_insertIndex_same (i : Z) (k : string) (v : jsval) (o : Obj.t) :
  Obj.get k o = None -> Obj.get k (Obj.insertIndex i k v o) = Some v.
Proof.
  induction o as [| [k' v'] r IH]; cbn [Obj.get Obj.insertIndex].
  - intros _. rewrite String.eqb_refl. reflexivity.
  - destruct (String.eqb k' k) eqn:Hk; [discriminate |]. intros H.
    destruct (Obj.arrayIndex k') as [j |]; [destruct (j <? i) |];
      cbn [Obj.get]; rewrite ?Hk, ?String.eqb_refl; auto.
Qed.

Lemma get_insertIndex_other (i : Z) (k k0 : string) (v : jsval) (o : Obj.t) :
  k0 <> k -> Obj.get k0 (Obj.insertIndex i k v o) = Obj.get k0 o.
Proof.
  intros Hne. assert (Hk : String.eqb k k0 = false) by (apply String.eqb_neq; congruence).
  induction o as [| [k' v'] r IH]; cbn [Obj.get Obj.insertIndex].
  - rewrite Hk. reflexivity.
  - destruct (Obj.arrayIndex k') as [j |]; [destruct (j <? i) |];
      cbn [Obj.get]; rewrite ?Hk, ?IH; reflexivity.
Qed.

Lemma get_define_same (k : string) (v : jsval) (o : Obj.t) :
  Obj.get k o = None -> Obj.get k (Obj.define k v o) = Some v.
Proof.
  intros H. unfold Obj.define. destruct (Obj.arrayIndex k) as [i |].
  - apply get_insertIndex_same, H.
  - rewrite get_app, H. cbn [Obj.get]. rewrite String.eqb_refl. reflexivity.
Qed.

Lemma get_define_other (k k0 : string) (v : jsval) (o : Obj.t) :
  k0 <> k -> Obj.get k0 (Obj.define k v o) = Obj.get k0 o.
Proof.
  intros Hne. unfold Obj.define. destruct (Obj.arrayIndex k) as [i |].
  - apply get_insertIndex_other, Hne.
  - rewrite get_app. cbn [Obj.get].
    destruct (String.eqb_spec k k0); [congruence |]. destruct (Obj.get k0 o); reflexivity.
Qed.

Lemma get_set_other (k k0 : string) (v : jsval) (o : Obj.t) :
  k0 <> k -> Obj.get k0 (Obj.set k v o) = Obj.get k0 o.
Proof.
  intros Hne. unfold Obj.set. destruct (Obj.hasOwn k o).
  - apply get_replace_other, Hne.
  - destruct (String.eqb k "__proto__"); [reflexivity | apply get_define_other, Hne].
Qed.

Lemma get_set_same (k : string) (v : jsval) (o : Obj.t) :
  Obj.get k (Obj.set k v o) = Some v \/
  (k = "__proto__" /\ Obj.get k o = None /\ Obj.set k v o = o).
Proof.
  unfold Obj.set. destruct (Obj.hasOwn k o) eqn:Hown.
  - left. apply get_replace_same, Hown.
  - assert (Hnone : Obj.get k o = None).
    { unfold Obj.hasOwn in Hown. destruct (Obj.get k o); [discriminate | reflexivity]. }
    destruct (String.eqb_spec k "__proto__") as [Hp | Hp].
    + right. auto.
    + left. apply get_define_same, Hnone.
Qed.

Lemma get_delete_same (k : string) (o : Obj.t) : Obj.get k (Obj.delete k o) = None.
Proof.
  unfold Obj.delete. induction o as [| [k' v'] r IH]; cbn [filter fst Obj.get]; [reflexivity |].
  destruct (String.eqb k' k) eqn:Hk; cbn [negb]; [exact IH |].
  cbn [Obj.get]. rewrite Hk. exact IH.
Qed.

Lemma get_delete_other (k k0 : string) (o : Obj.t) :
  k0 <> k -> Obj.get k0 (Obj.delete k o) = Obj.get k0 o.
Proof.
  intros Hne. unfold Obj.delete.
  induction o as [| [k' v'] r IH]; cbn [filter fst Obj.get]; [reflexivity |].
  destruct (String.eqb k' k) eqn:Hk; cbn [negb].
  - apply String.eqb_eq in Hk. subst k'.
    destruct (String.eqb_spec k k0); [congruence | exact IH].
  - cbn [Obj.get]. rewrite IH. reflexivity.
Qed.

Lemma delete_absent (k : string) (o : Obj.t) : Obj.get k o = None -> Obj.delete k o = o.
Proof.
  unfold Obj.delete. induction o as [| [k' v'] r IH]; cbn [filter fst Obj.get]; [reflexivity |].
  destruct (String.eqb k' k) eqn:Hk; [discriminate |]. cbn [negb]. intros H.
  rewrite (IH H). reflexivity.
Qed.

Lemma delete_insertIndex (i : Z) (k : string) (v : jsval) (o : Obj.t) :
  Obj.get k o = None -> Obj.delete k (Obj.insertIndex i k v o) = o.
Proof.
  unfold Obj.delete.
  induction o as [| [k' v'] r IH]; cbn [Obj.get Obj.insertIndex].
  - intros _. cbn [filter fst]. rewrite String.eqb_refl. reflexivity.
  - destruct (String.eqb k' k) eqn:Hk; [discriminate |]. intros H.
    pose proof (delete_absent k r H) as Hr. unfold Obj.delete in Hr.
    destruct (Obj.arrayIndex k') as [j |]; [destruct (j <? i) |];
      cbn [filter fst]; rewrite ?Hk, ?String.eqb_refl; cbn [negb];
      rewrite ?Hk; cbn [negb]; rewrite ?(IH H), ?Hr; reflexivity.
Qed.

Lemma delete_define (k : string) (v : jsval) (o : Obj.t) :
  Obj.get k o = None -> Obj.delete k (Obj.define k v o) = o.
Proof.
  intros H. unfold Obj.define. destruct (Obj.arrayIndex k) as [i |].
  - apply delete_insertIndex, H.
  - unfold Obj.delete. rewrite filter_app. cbn [filter fst].
    rewrite String.eqb_refl. cbn [negb]. rewrite app_nil_r. apply delete_absent, H.
Qed.

Lemma delete_set (k : string) (v : jsval) (o : Obj.t) :
  Obj.get k o = None -> Obj.delete k (Obj.set k v o) = o.
Proof.
  intros H. unfold Obj.set, Obj.hasOwn. rewrite H.
  destruct (String.eqb k "__proto__"); [apply delete_absent, H | apply delete_define, H].
Qed.

(** X6: a request that [POST /api/entry] accepts can be read back: the
    entry of its date holds the parsed hours as JSON stores them, and every
    other entry is as before. *)
Theorem entry_post_then_get (host : JSDate.Host) (d : string) (hours : jsval)
    (entries : Obj.t) (h : number) :
  d <> EmptyString -> d <> "__proto__" -> JSDate.parse host d <> None ->
  Server.parseHoursInput hours = Some h -> Num.ltb h Num.zero = false ->
  exists stored,
    Entry.post host (JStr d) hours entries = (Server.Ok stored, stored) /\
    Obj.get d stored = Some (Json.number h) /\
    (forall k, k <> d -> Obj.get k stored = Obj.get k entries).
Proof.
  intros Hd Hp Hparse Hh Hlt. exists (Obj.set d (Json.number h) entries).
  split; [| split].
  - unfold Entry.post. destruct d; [contradiction |]. cbn [Str.isEmpty].
    destruct (JSDate.parse host (String a d)); [| contradiction].
    rewrite Hh, Hlt. reflexivity.
  - destruct (get_set_same d (Json.number h) entries) as [H | [H _]]; [exact H | contradiction].
  - intros k Hk. apply get_set_other, Hk.
Qed.

Lemma entry_post_then_get_2024_03_02 :
  exists stored,
    Entry.post utc (JStr "2024-03-02") (JStr "7:30") marchEntries = (Server.Ok stored, stored) /\
    Obj.get "2024-03-02" stored = Some (Json.number (numeral "7.5")) /\
    (forall k, k <> "2024-03-02" -> Obj.get k stored = Obj.get k marchEntries).
Proof.
  apply entry_post_then_get.
  - discriminate.
  - discriminate.
  - vm_compute. discriminate.
  - vm_compute. reflexivity.
  - vm_compute. reflexivity.
Defined.

(** X7: [POST /api/entry] stores hours that are a finite Number not below
    zero, or [null] (hours so large that [round2] overflows): never a
    negative Number and never NaN.  A rejected request leaves the store as
    it was. *)
Theorem entry_post_stores_valid_hours (host : JSDate.Host) (date hours : jsval)
    (entries : Obj.t) :
  match Entry.post host date hours entries with
  | (Server.Ok reply, stored) =>
      reply = stored /\
      exists d, date = JStr d /\ d <> EmptyString /\ JSDate.parse host d <> None /\
                forall v, Obj.get d stored = Some v -> storedHours v
  | (Server.BadRequest _, stored) => stored = entries
  end.
Proof.
  unfold Entry.post. destruct date as [| | b | x | d]; try reflexivity.
  destruct d as [| c r]; [reflexivity |]. cbn [Str.isEmpty].
  destruct (JSDate.parse host (String c r)) as [t |] eqn:Hparse; [| reflexivity].
  destruct (Server.parseHoursInput hours) as [h |] eqn:Hh; [| reflexivity].
  destruct (Num.ltb h Num.zero) eqn:Hlt; [reflexivity |].
  split; [reflexivity |]. exists (String c r).
  repeat split; [discriminate | congruence |].
  intros v Hv.
  destruct (get_set_same (String c r) (Json.number h) entries) as [H | [_ [Hnone H]]].
  - rewrite H in Hv. inversion Hv; subst v.
    apply storedHours_number; [apply (parseHoursInput_not_nan _ _ Hh) | exact Hlt].
  - cbv zeta in Hv. rewrite H, Hnone in Hv. discriminate.
Qed.

(** X8: [DELETE /api/entry] with a date removes the entry of that date and
    no other, and removing a date that has no entry changes nothing. *)
Theorem entry_delete_removes (d : string) (entries : Obj.t) :
  d <> EmptyString ->
  exists kept,
    Entry.delete (Some d) entries = (Server.Ok kept, kept) /\
    Obj.get d kept = None /\
    (forall k, k <> d -> Obj.get k kept = Obj.get k entries) /\
    (Obj.get d entries = None -> kept = entries).
Proof.
  intros Hd. exists (Obj.delete d entries). unfold Entry.delete.
  destruct d; [contradiction |]. cbn [Str.isEmpty].
  split; [reflexivity | split; [apply get_delete_same | split]].
  - intros k Hk. apply get_delete_other, Hk.
  - apply delete_absent.
Qed.

Lemma entry_delete_removes_2024_03_15 :
  exists kept,
    Entry.delete (Some "2024-03-15") marchEntries = (Server.Ok kept, kept) /\
    Obj.get "2024-03-15" kept = None /\
    (forall k, k <> "2024-03-15" -> Obj.get k kept = Obj.get k marchEntries) /\
    (Obj.get "2024-03-15" marchEntries = None -> kept = marchEntries).
Proof. apply entry_delete_removes. discriminate. Defined.

(** X9: saving an entry for a date that had none and then deleting that
    date gives back the store as it was. *)
Theorem entry_post_delete_roundtrip (host : JSDate.Host) (d : string) (hours : jsval)
    (entries stored : Obj.t) :
  Obj.get d entries = None ->
  Entry.post host (JStr d) hours entries = (Server.Ok stored, stored) ->
  Entry.delete (Some d) stored = (Server.Ok entries, entries).
Proof.
  intros Hnone. unfold Entry.post, Entry.delete.
  destruct d as [| c r]; [discriminate |]. cbn [Str.isEmpty].
  destruct (JSDate.parse host (String c r)); [| discriminate].
  destruct (Server.parseHoursInput hours) as [h |]; [| discriminate].
  destruct (Num.ltb h Num.zero); [discriminate |].
  intros H. inversion H; subst stored.
  rewrite (delete_set _ _ _ Hnone). reflexivity.
Qed.

Lemma entry_post_delete_roundtrip_2024_03_02 :
  Entry.delete (Some "2024-03-02")
    (snd (Entry.post utc (JStr "2024-03-02") (JStr "7:30") marchEntries)) =
    (Server.Ok marchEntries, marchEntries).
Proof.
  apply (entry_post_delete_roundtrip utc "2024-03-02" (JStr "7:30")).
  - reflexivity.
  - vm_compute. reflexivity.
Defined.

(** X10: after [DELETE /api/month] for a month, the month sum that the
    client shows for a reference date which the same host reads as a day of
    that month is 0, whatever the host. *)
Theorem clearMonth_then_sum_is_zero (host : JSDate.Host) (month ref : string)
    (year mon : Z) (entries : Server.Entries) :
  Server.matchYearMonth month = Some (year, mon) ->
  ref <> EmptyString ->
  JSDate.getFullYear host (JSDate.parse host ref) = Some year ->
  JSDate.getMonth host (JSDate.parse host ref) = Some (mon - 1) ->
  App.sumEntriesForMonth host (snd (Server.clearMonth host (Some month) entries)) (Some ref)
    = Some Num.zero.
Proof.
  intros Hm Hr Hy Hmon. unfold Server.clearMonth, App.sumEntriesForMonth.
  rewrite Hm. cbn [snd]. destruct ref as [| c r]; [contradiction |]. cbn [Str.isEmpty].
  rewrite Hy, Hmon.
  assert (Hfold : forall (es : list (string * jsval)) (acc : number),
             fold_left
               (fun total kv =>
                  if App.sameMonth host year (mon - 1) (fst kv)
                  then Num.add total (App.hoursOr0 (snd kv)) else total)
               (filter (fun kv => negb (Server.inMonth host year mon (fst kv))) es) acc = acc).
  { induction es as [| kv es IH]; intros acc; cbn [filter fold_left]; [reflexivity |].
    destruct (Server.inMonth host year mon (fst kv)) eqn:Hin; cbn [negb]; [apply IH |].
    cbn [fold_left].
    assert (Hs : App.sameMonth host year (mon - 1) (fst kv) = false).
    { unfold App.sameMonth. unfold Server.inMonth in Hin.
      destruct (JSDate.getFullYear host (JSDate.parse host (fst kv))) as [y |]; [| reflexivity].
      destruct (JSDate.getMonth host (JSDate.parse host (fst kv))) as [m |]; [| reflexivity].
      rewrite <- Hin. f_equal. lia. }
    rewrite Hs. apply IH. }
  rewrite Hfold. reflexivity.
Qed.

Lemma clearMonth_then_sum_is_zero_2024_03 :
  App.sumEntriesForMonth utcMinus5
    (snd (Server.clearMonth utcMinus5 (Some "2024-03") storedEntries)) (Some "2024-03-10")
    = Some Num.zero.
Proof.
  apply (clearMonth_then_sum_is_zero utcMinus5 "2024-03" "2024-03-10" 2024 3).
  - reflexivity.
  - discriminate.
  - vm_compute. reflexivity.
  - vm_compute. reflexivity.
Defined.

(** ** The clients of the store *)

Lemma SFeqb_true (x y : number) :
  Num.eqb x y = true ->
  x = y \/ (exists s s', x = S754_zero s /\ y = S754_zero s').
Proof.
  unfold Num.eqb, SFeqb.
  destruct x as [s | s | | s m e]; destruct y as [s' | s' | | s' m' e']; cbn [SFcompare];
    intros H; try discriminate H;
    try (right; eauto; fail);
    try (destruct s; discriminate H); try (destruct s'; discriminate H).
  - destruct s, s'; try discriminate H; left; reflexivity.
  - destruct s, s'; try discriminate H;
      (destruct (Z.compare_spec e e') as [He | He | He]; try discriminate H;
       destruct (Pos.compare_cont Eq m m') eqn:Hm; try discriminate H;
       left; subst e'; apply Pos.compare_eq in Hm; subst m'; reflexivity).
Qed.

Lemma strictEq_trans (a b c : jsval) :
  strictEq a b = true -> strictEq c a = strictEq c b.
Proof.
  destruct a as [| | x | x | s]; destruct b as [| | y | y | t]; cbn [strictEq];
    intros H; try discriminate H; try reflexivity.
  - apply Bool.eqb_prop in H. subst y. reflexivity.
  - destruct (SFeqb_true x y H) as [-> | [s [s' [-> ->]]]]; [reflexivity |].
    destruct c as [| | z | z | u]; reflexivity.
  - apply String.eqb_eq in H. subst t. reflexivity.
Qed.

Lemma Num_eqb_sym (x y : number) : Num.eqb x y = Num.eqb y x.
Proof.
  assert (Himp : forall a b, Num.eqb a b = true -> Num.eqb b a = true).
  { intros a b H. destruct (SFeqb_true a b H) as [<- | [s [s' [-> ->]]]];
      [exact H | reflexivity]. }
  destruct (Num.eqb x y) eqn:Hxy.
  - symmetry. apply Himp, Hxy.
  - destruct (Num.eqb y x) eqn:Hyx; [| reflexivity].
    apply Himp in Hyx. congruence.
Qed.

Lemma strictEq_sym (a b : jsval) : strictEq a b = strictEq b a.
Proof.
  destruct a as [| | x | x | s]; destruct b as [| | y | y | t]; cbn [strictEq];
    try reflexivity.
  - destruct x, y; reflexivity.
  - apply Num_eqb_sym.
  - apply String.eqb_sym.
Qed.

Lemma strictEq_JStr (v : jsval) (s : string) : strictEq v (JStr s) = true <-> v = JStr s.
Proof.
  destruct v as [| | x | x | t]; cbn [strictEq]; try (split; discriminate).
  rewrite String.eqb_eq. split; congruence.
Qed.

Lemma truthy_strictEq_refl (v : jsval) : Val.truthy v = true -> strictEq v v = true.
Proof.
  destruct v as [| | b | x | s]; cbn [Val.truthy strictEq]; try discriminate.
  - intros _. destruct b; reflexivity.
  - destruct x as [sx | sx | | sx m e]; cbn [Num.truthy]; try discriminate; intros _.
    + destruct sx; reflexivity.
    + unfold Num.eqb, SFeqb. cbn [SFcompare].
      rewrite Z.compare_refl.
      assert (H : Pos.compare_cont Eq m m = Eq) by apply Pos.compare_refl.
      destruct sx; rewrite H; reflexivity.
  - intros _. apply String.eqb_refl.
Qed.

Lemma get_put (o : Obj.t) (k k0 : string) (v : jsval) :
  Obj.get k0 (Client.put o (k, v)) = if String.eqb k k0 then Some v else Obj.get k0 o.
Proof.
  unfold Client.put. cbn [fst snd].
  destruct (String.eqb_spec k k0) as [-> | Hne].
  - destruct (Obj.hasOwn k0 o) eqn:Hown.
    + apply get_replace_same, Hown.
    + apply get_define_same. unfold Obj.hasOwn in Hown.
      destruct (Obj.get k0 o); [discriminate | reflexivity].
  - destruct (Obj.hasOwn k o); [apply get_replace_other | apply get_define_other]; congruence.
Qed.

(** The five properties of the record after the merge. *)
Lemma get_spread_record (c : Obj.t) (now : Z) (body : Client.Body.t) :
  let merged := Client.spread c (Client.record now body) in
  idOf merged = Val.or (Client.Body.id body) (JStr (JSDate.intText now)) /\
  Obj.get "name" merged = Some (JStr (Server.cleanText (Client.Body.name body))) /\
  Obj.get "address" merged = Some (JStr (Server.cleanText (Client.Body.address body))) /\
  Obj.get "city" merged = Some (JStr (Server.cleanText (Client.Body.city body))) /\
  Obj.get "taxId" merged = Some (JStr (Server.cleanText (Client.Body.taxId body))).
Proof.
  unfold Client.spread, Client.record, idOf. cbn [fold_left].
  repeat split; repeat (rewrite get_put; cbn [String.eqb Ascii.eqb Bool.eqb]); reflexivity.
Qed.

Lemma findIndex_Some {A : Type} (test : A -> bool) (arr : list A) (idx : nat) (d : A) :
  findIndex test arr = Some idx ->
  (idx < List.length arr)%nat /\ test (nth idx arr d) = true /\
  forall i, (i < idx)%nat -> test (nth i arr d) = false.
Proof.
  revert idx. induction arr as [| x r IH]; intros idx; cbn [findIndex]; [discriminate |].
  destruct (test x) eqn:Hx.
  - intros H. inversion H; subst idx. cbn [nth List.length]. repeat split; [lia | exact Hx | lia].
  - destruct (findIndex test r) as [j |]; [| discriminate]. cbn [option_map].
    intros H. inversion H; subst idx. destruct (IH j eq_refl) as [Hl [Ht Hb]].
    cbn [nth List.length]. repeat split; [lia | exact Ht |].
    intros [| i] Hi; [exact Hx | apply Hb; lia].
Qed.

Lemma findIndex_None {A : Type} (test : A -> bool) (arr : list A) :
  findIndex test arr = None -> forall x, In x arr -> test x = false.
Proof.
  induction arr as [| y r IH]; cbn [findIndex]; [intros _ x [] |].
  destruct (test y) eqn:Hy; [discriminate |].
  destruct (findIndex test r); [discriminate |]. intros _ x [-> | Hx]; [exact Hy | auto].
Qed.

Lemma setAt_length {A : Type} (idx : nat) (v : A) (arr : list A) :
  List.length (setAt idx v arr) = List.length arr.
Proof.
  revert idx. induction arr as [| x r IH]; intros [| i]; cbn [setAt List.length];
    try reflexivity. rewrite IH. reflexivity.
Qed.

Lemma nth_setAt {A : Type} (idx i : nat) (v d : A) (arr : list A) :
  (idx < List.length arr)%nat ->
  nth i (setAt idx v arr) d = if Nat.eqb i idx then v else nth i arr d.
Proof.
  revert idx i. induction arr as [| x r IH]; intros idx i; cbn [List.length]; [lia |].
  intros Hlt. destruct idx as [| j]; destruct i as [| i']; cbn [setAt nth Nat.eqb];
    try reflexivity.
  apply IH. lia.
Qed.

Lemma distinct_setAt (clients : list Obj.t) (idx : nat) (c : Obj.t) :
  distinctIds clients ->
  (idx < List.length clients)%nat ->
  strictEq (idOf (nth idx clients [])) (idOf c) = true ->
  distinctIds (setAt idx c clients).
Proof.
  unfold distinctIds. intros Hd. revert idx.
  induction Hd as [| a l Ha Hl IH]; intros idx Hlt Heq; cbn [List.length] in Hlt; [lia |].
  destruct idx as [| j]; cbn [setAt nth] in *.
  - constructor; [| exact Hl].
    apply Forall_forall. intros b Hb. rewrite Forall_forall in Ha.
    rewrite (strictEq_sym (idOf c)), <- (strictEq_trans _ _ _ Heq), strictEq_sym.
    apply Ha, Hb.
  - constructor; [| apply IH; [lia | exact Heq]].
    apply Forall_forall. intros b Hb. rewrite Forall_forall in Ha.
    apply In_nth with (d := []) in Hb. destruct Hb as [i [Hi Hb]].
    rewrite setAt_length in Hi. rewrite nth_setAt in Hb by lia.
    destruct (Nat.eqb i j) eqn:Hij.
    + subst b. rewrite <- (strictEq_trans _ _ _ Heq). apply Ha, nth_In. lia.
    + subst b. apply Ha, nth_In. exact Hi.
Qed.

Lemma distinct_app (clients : list Obj.t) (c : Obj.t) :
  distinctIds clients ->
  (forall a, In a clients -> strictEq (idOf a) (idOf c) = false) ->
  distinctIds (clients ++ [c]).
Proof.
  unfold distinctIds. intros Hd.
  induction Hd as [| a l Ha Hl IH]; intros Hc; cbn [app].
  - constructor; constructor.
  - constructor.
    + apply Forall_app. split; [exact Ha |]. constructor; [| constructor].
      apply Hc. left. reflexivity.
    + apply IH. intros b Hb. apply Hc. right. exact Hb.
Qed.

(** X11: [POST /api/clients] keeps the ids of the stored clients distinct. *)
Theorem client_post_keeps_ids_distinct (now : Z) (body : Client.Body.t)
    (clients : list Obj.t) :
  distinctIds clients -> distinctIds (snd (Client.post now body clients)).
Proof.
  intros Hd. unfold Client.post.
  destruct (Str.isEmpty (Server.cleanText (Client.Body.name body))); [exact Hd |].
  destruct (findIndex _ clients) as [idx |] eqn:Hf; cbn [snd].
  - destruct (findIndex_Some _ _ _ [] Hf) as [Hlt [Ht _]].
    apply distinct_setAt; [exact Hd | exact Hlt |].
    destruct (get_spread_record (nth idx clients []) now body) as [Hid _].
    rewrite Hid. exact Ht.
  - apply distinct_app; [exact Hd |]. intros a Ha.
    apply (findIndex_None _ _ Hf a Ha).
Qed.

Lemma client_post_keeps_ids_distinct_sample :
  distinctIds (snd (Client.post 1700000000001 renameBolt sampleClients)).
Proof.
  apply client_post_keeps_ids_distinct.
  repeat constructor.
Defined.

Lemma findIndex_setAt {A : Type} (test : A -> bool) (arr : list A) (idx : nat) (v : A) :
  findIndex test arr = Some idx -> test v = true ->
  findIndex test (setAt idx v arr) = Some idx.
Proof.
  revert idx. induction arr as [| x r IH]; intros idx; cbn [findIndex]; [discriminate |].
  destruct (test x) eqn:Hx.
  - intros H Hv. inversion H; subst idx. cbn [setAt findIndex]. rewrite Hv. reflexivity.
  - destruct (findIndex test r) as [j |] eqn:Hj; [| discriminate]. cbn [option_map].
    intros H Hv. inversion H; subst idx. cbn [setAt findIndex]. rewrite Hx.
    rewrite (IH j eq_refl Hv). reflexivity.
Qed.

Lemma findIndex_app_new {A : Type} (test : A -> bool) (arr : list A) (v : A) :
  findIndex test arr = None -> test v = true ->
  findIndex test (arr ++ [v]) = Some (List.length arr).
Proof.
  induction arr as [| x r IH]; cbn [findIndex app List.length].
  - intros _ Hv. rewrite Hv. reflexivity.
  - destruct (test x); [discriminate |].
    destruct (findIndex test r); [discriminate |]. intros _ Hv.
    rewrite (IH eq_refl Hv). reflexivity.
Qed.

Lemma record_fields (now : Z) (body : Client.Body.t) :
  let rec := Client.record now body in
  idOf rec = Val.or (Client.Body.id body) (JStr (JSDate.intText now)) /\
  Obj.get "name" rec = Some (JStr (Server.cleanText (Client.Body.name body))) /\
  Obj.get "address" rec = Some (JStr (Server.cleanText (Client.Body.address body))) /\
  Obj.get "city" rec = Some (JStr (Server.cleanText (Client.Body.city body))) /\
  Obj.get "taxId" rec = Some (JStr (Server.cleanText (Client.Body.taxId body))).
Proof. repeat split. Qed.

Lemma record_id_refl (now : Z) (body : Client.Body.t) :
  let rid := Val.or (Client.Body.id body) (JStr (JSDate.intText now)) in
  strictEq rid rid = true.
Proof.
  cbv zeta. unfold Val.or. destruct (Val.truthy (Client.Body.id body)) eqn:Ht.
  - apply truthy_strictEq_refl, Ht.
  - cbn [strictEq]. apply String.eqb_refl.
Qed.

(** X12: a request that [POST /api/clients] accepts (a name that is not
    blank) can be read back: the first stored client with the id of the
    request (the [id] of the body, or the text of [Date.now()] when it is
    missing or falsy) holds the cleaned name, address, city and tax id, the
    clients at the other positions are as before, and the list grows by
    one exactly when no client had that id. *)
Theorem client_post_then_find (now : Z) (body : Client.Body.t) (clients : list Obj.t) :
  Str.isEmpty (Server.cleanText (Client.Body.name body)) = false ->
  let rid := Val.or (Client.Body.id body) (JStr (JSDate.intText now)) in
  let test := fun c => strictEq (idOf c) rid in
  exists next idx,
    Client.post now body clients = (Client.Ok next, next) /\
    findIndex test next = Some idx /\
    idx = match findIndex test clients with
          | Some i => i
          | None => List.length clients
          end /\
    List.length next = match findIndex test clients with
                       | Some _ => List.length clients
                       | None => S (List.length clients)
                       end /\
    (let c := nth idx next [] in
     idOf c = rid /\
     Obj.get "name" c = Some (JStr (Server.cleanText (Client.Body.name body))) /\
     Obj.get "address" c = Some (JStr (Server.cleanText (Client.Body.address body))) /\
     Obj.get "city" c = Some (JStr (Server.cleanText (Client.Body.city body))) /\
     Obj.get "taxId" c = Some (JStr (Server.cleanText (Client.Body.taxId body)))) /\
    (forall i, i <> idx -> nth i next [] = nth i clients []).
Proof.
  intros Hname rid test. unfold Client.post. rewrite Hname.
  pose proof (record_fields now body) as Hrec. cbv zeta in Hrec.
  pose proof (record_id_refl now body) as Hrefl. cbv zeta in Hrefl. fold rid in Hrefl.
  assert (Hid : idOf (Client.record now body) = rid) by apply Hrec.
  rewrite Hid. fold test.
  destruct (findIndex test clients) as [i |] eqn:Hf.
  - destruct (findIndex_Some test clients i [] Hf) as [Hlt [Ht _]].
    pose proof (get_spread_record (nth i clients []) now body) as Hm. cbv zeta in Hm.
    fold rid in Hm.
    exists (setAt i (Client.spread (nth i clients []) (Client.record now body)) clients), i.
    split; [reflexivity |]. split.
    { apply findIndex_setAt; [exact Hf |]. unfold test. rewrite (proj1 Hm). exact Hrefl. }
    split; [reflexivity |]. split; [apply setAt_length |]. split.
    + rewrite nth_setAt by exact Hlt. rewrite Nat.eqb_refl. exact Hm.
    + intros j Hj. rewrite nth_setAt by exact Hlt.
      destruct (Nat.eqb_spec j i); [contradiction | reflexivity].
  - exists (clients ++ [Client.record now body])%list, (List.length clients).
    split; [reflexivity |]. split.
    { apply findIndex_app_new; [exact Hf |]. unfold test. rewrite Hid. exact Hrefl. }
    split; [reflexivity |]. split; [rewrite length_app; cbn; lia |]. split.
    + rewrite app_nth2 by lia. rewrite Nat.sub_diag. cbn [nth]. fold rid in Hrec. exact Hrec.
    + intros j Hj. destruct (Nat.lt_ge_cases j (List.length clients)) as [Hlt | Hge].
      * apply app_nth1, Hlt.
      * rewrite app_nth2 by lia. rewrite (nth_overflow clients) by lia.
        destruct (j - List.length clients)%nat as [| [| k]] eqn:Hk; [lia | reflexivity | reflexivity].
Qed.

Lemma client_post_then_find_rename :
  exists next idx,
    Client.post 1700000000001 renameBolt sampleClients = (Client.Ok next, next) /\
    findIndex (fun c => strictEq (idOf c) (JStr "c2")) next = Some idx /\
    idx = 1%nat /\
    List.length next = 2%nat /\
    (let c := nth idx next [] in
     idOf c = JStr "c2" /\
     Obj.get "name" c = Some (JStr "Bolt Ltd") /\
     Obj.get "address" c = Some (JStr "2 Side St") /\
     Obj.get "city" c = Some (JStr "") /\
     Obj.get "taxId" c = Some (JStr "PL2")) /\
    (forall i, i <> idx -> nth i next [] = nth i sampleClients []).
Proof.
  apply (client_post_then_find 1700000000001 renameBolt sampleClients).
  reflexivity.
Defined.

Lemma filter_all {A : Type} (p : A -> bool) (l : list A) :
  (forall x, In x l -> p x = true) -> filter p l = l.
Proof.
  induction l as [| x r IH]; cbn [filter]; [reflexivity |]. intros H.
  rewrite (H x (or_introl eq_refl)), IH; [reflexivity |].
  intros y Hy. apply H. right. exact Hy.
Qed.

(** X13: [DELETE /api/clients] with an id removes exactly the clients whose
    [id] is that string and keeps the others in their order; a client whose
    [id] is not a string, for one a Number, cannot be deleted. *)
Theorem client_delete_removes (i : string) (clients : list Obj.t) :
  i <> EmptyString ->
  exists next,
    Client.delete (Some i) clients = (Client.Ok next, next) /\
    next = filter (fun c => negb (strictEq (idOf c) (JStr i))) clients /\
    (forall c, In c next <-> In c clients /\ idOf c <> JStr i) /\
    (forall c x, In c clients -> idOf c = JNum x -> In c next).
Proof.
  intros Hi. exists (filter (fun c => negb (strictEq (idOf c) (JStr i))) clients).
  unfold Client.delete. destruct i as [| a r]; [contradiction |]. cbn [Str.isEmpty].
  split; [reflexivity | split; [reflexivity | split]].
  - intros c. rewrite filter_In, negb_true_iff, <- not_true_iff_false, strictEq_JStr.
    reflexivity.
  - intros c x Hc Hx. rewrite filter_In. split; [exact Hc |]. rewrite Hx. reflexivity.
Qed.

Lemma client_delete_removes_c2 :
  exists next,
    Client.delete (Some "c2") sampleClients = (Client.Ok next, next) /\
    next = filter (fun c => negb (strictEq (idOf c) (JStr "c2"))) sampleClients /\
    (forall c, In c next <-> In c sampleClients /\ idOf c <> JStr "c2") /\
    (forall c x, In c sampleClients -> idOf c = JNum x -> In c next).
Proof. apply client_delete_removes. discriminate. Defined.

(** X14: adding a client under a new id (a string that is not empty and that
    no stored client has) and then deleting that id gives back the list of
    clients as it was. *)
Theorem client_post_delete_roundtrip (now : Z) (body : Client.Body.t) (i : string)
    (clients : list Obj.t) :
  Client.Body.id body = JStr i -> i <> EmptyString ->
  Str.isEmpty (Server.cleanText (Client.Body.name body)) = false ->
  (forall c, In c clients -> idOf c <> JStr i) ->
  Client.delete (Some i) (snd (Client.post now body clients)) = (Client.Ok clients, clients).
Proof.
  intros Hid Hi Hname Hnew. unfold Client.post. rewrite Hname.
  assert (Hrid : idOf (Client.record now body) = JStr i).
  { unfold Client.record, idOf. cbn [Obj.get String.eqb Ascii.eqb Bool.eqb].
    rewrite Hid. unfold Val.or. destruct i; [contradiction | reflexivity]. }
  rewrite Hrid.
  assert (Hf : findIndex (fun c => strictEq (idOf c) (JStr i)) clients = None).
  { clear - Hnew. induction clients as [| c r IH]; cbn [findIndex]; [reflexivity |].
    destruct (strictEq (idOf c) (JStr i)) eqn:Hc.
    - apply strictEq_JStr in Hc. exfalso. apply (Hnew c); [left; reflexivity | exact Hc].
    - rewrite IH; [reflexivity |]. intros c' Hc'. apply Hnew. right. exact Hc'. }
  rewrite Hf. cbn [snd]. unfold Client.delete.
  destruct i as [| a r]; [contradiction |]. cbn [Str.isEmpty].
  rewrite filter_app. cbn [filter]. rewrite Hrid. cbn [strictEq]. rewrite String.eqb_refl.
  cbn [negb]. rewrite app_nil_r.
  rewrite filter_all; [reflexivity |].
  intros c Hc. rewrite negb_true_iff, <- not_true_iff_false, strictEq_JStr. apply Hnew, Hc.
Qed.

Lemma client_post_delete_roundtrip_c3 :
  Client.delete (Some "c3") (snd (Client.post 1700000000001 newClient sampleClients)) =
    (Client.Ok sampleClients, sampleClients).
Proof.
  apply (client_post_delete_roundtrip 1700000000001 newClient "c3" sampleClients).
  - reflexivity.
  - discriminate.
  - reflexivity.
  - intros c [<- | [<- | []]]; discriminate.
Defined.

(** ** Whole numbers *)

Lemma shr_1_even (q : Z) :
  0 <= q ->
  shr_1 {| shr_m := 2 * q; shr_r := false; shr_s := false |} =
    {| shr_m := q; shr_r := false; shr_s := false |}.
Proof. intros Hq. destruct q as [| p | p]; [reflexivity | reflexivity | lia]. Qed.

(** Shifting out bits that are all zero is exact. *)
Lemma iter_shr_1_exact (k : positive) (q : Z) :
  0 <= q ->
  iter_pos shr_1 k {| shr_m := q * 2 ^ Zpos k; shr_r := false; shr_s := false |} =
    {| shr_m := q; shr_r := false; shr_s := false |}.
Proof.
  revert q. induction k as [k IH | k IH |]; intros q Hq; cbn [iter_pos].
  - assert (Hp : 0 < 2 ^ Zpos k) by (apply Z.pow_pos_nonneg; lia).
    replace (q * 2 ^ Zpos k~1) with (2 * ((q * 2 ^ Zpos k) * 2 ^ Zpos k)).
    + rewrite shr_1_even by nia. rewrite IH by nia. apply IH, Hq.
    + replace (Zpos k~1) with (1 + Zpos k + Zpos k) by lia.
      rewrite !Z.pow_add_r by lia. change (2 ^ 1) with 2. ring.
  - assert (Hp : 0 < 2 ^ Zpos k) by (apply Z.pow_pos_nonneg; lia).
    replace (q * 2 ^ Zpos k~0) with ((q * 2 ^ Zpos k) * 2 ^ Zpos k).
    + rewrite IH by nia. apply IH, Hq.
    + replace (Zpos k~0) with (Zpos k + Zpos k) by lia.
      rewrite !Z.pow_add_r by lia. ring.
  - change (2 ^ 1) with 2. rewrite Z.mul_comm. apply shr_1_even, Hq.
Qed.

Lemma digits2_pos_shift (p : positive) (k : Z) (pk : positive) :
  0 <= k -> Zpos pk = Zpos p * 2 ^ k ->
  Zpos (digits2_pos pk) = Zpos (digits2_pos p) + k.
Proof.
  intros Hk Hpk. destruct k as [| k | k]; [| | lia].
  - rewrite Z.mul_1_r in Hpk. inversion Hpk. lia.
  - rewrite <- iter_xO_value in Hpk. inversion Hpk.
    rewrite iter_xO_digits. lia.
Qed.

(** A mantissa of 53 digits followed by [k] zero bits is rounded to
    itself. *)
Lemma binary_round_aux_shift (s : bool) (m0 pk : positive) (f k : Z) :
  Zpos (digits2_pos m0) = 53 -> -1074 <= f <= 971 -> 0 <= k ->
  Zpos pk = Zpos m0 * 2 ^ k ->
  binary_round_aux Num.prec Num.emax s (Zpos pk) (f - k) loc_Exact = S754_finite s m0 f.
Proof.
  intros Hd Hf Hk Hpk. destruct k as [| k | k]; [| | lia].
  - rewrite Z.mul_1_r in Hpk. inversion Hpk; subst pk. rewrite Z.sub_0_r.
    apply binary_round_aux_exact; assumption.
  - pose proof (digits2_pos_shift m0 (Zpos k) pk ltac:(lia) Hpk) as Hdk.
    unfold binary_round_aux, shr_fexp, fexp, emin, Num.prec, Num.emax.
    cbn [Zdigits2 shr_record_of_loc]. rewrite Hdk, Hd.
    replace (Z.max (53 + Zpos k + (f - Zpos k) - 53) (3 - 1024 - 53) - (f - Zpos k))
      with (Zpos k) by lia.
    cbn [shr]. rewrite Hpk, iter_shr_1_exact by lia.
    cbn [shr_m loc_of_shr_record round_nearest_even Zdigits2 shr_record_of_loc].
    rewrite Hd.
    replace (f - Zpos k + Zpos k) with f by lia.
    replace (Z.max (53 + f - 53) (3 - 1024 - 53) - f) with 0 by lia.
    cbn [shr shr_m].
    replace (f <=? 1024 - 53) with true by lia. reflexivity.
Qed.

(** The Number of a whole number below [2^53]: a mantissa of 53 digits. *)
Lemma binary_round_whole (s : bool) (p : positive) :
  Zpos p < 2 ^ 53 ->
  exists m,
    Zpos m = Zpos p * 2 ^ (53 - Zpos (digits2_pos p)) /\
    Zpos (digits2_pos m) = 53 /\
    binary_round Num.prec Num.emax s p 0 = S754_finite s m (Zpos (digits2_pos p) - 53).
Proof.
  intros Hp. pose proof (digits2_pos_bounds p) as Hd.
  assert (Hd53 : Zpos (digits2_pos p) <= 53).
  { destruct (Z_le_gt_dec (Zpos (digits2_pos p)) 53) as [H | H]; [assumption |].
    assert (2 ^ 53 <= 2 ^ (Zpos (digits2_pos p) - 1)) by (apply Z.pow_le_mono_r; lia).
    lia. }
  unfold binary_round, shl_align, fexp, emin, Num.prec, Num.emax.
  replace (Z.max (Zpos (digits2_pos p) + 0 - 53) (3 - 1024 - 53))
    with (Zpos (digits2_pos p) - 53) by lia.
  rewrite Z.sub_0_r.
  destruct (Zpos (digits2_pos p) - 53) as [| k | k] eqn:Hk.
  - exists p. replace (53 - Zpos (digits2_pos p)) with 0 by lia.
    split; [cbn; lia | split; [lia |]].
    apply binary_round_aux_exact; lia.
  - lia.
  - exists (Pos.iter xO p k).
    assert (Hkk : Zpos k = 53 - Zpos (digits2_pos p)) by lia.
    split; [rewrite iter_xO_value, Hkk; reflexivity |].
    assert (Hdig : Zpos (digits2_pos (Pos.iter xO p k)) = 53).
    { rewrite iter_xO_digits, Pos2Z.inj_add. lia. }
    split; [exact Hdig |].
    apply binary_round_aux_exact; [exact Hdig | lia].
Qed.

(** A whole number below [2^53] written with [j] more zero bits and the
    exponent [-j] is the same Number. *)
Lemma binary_round_scaled (s : bool) (p pj : positive) (j : Z) :
  Zpos p < 2 ^ 53 -> 0 <= j <= 1000 -> Zpos pj = Zpos p * 2 ^ j ->
  binary_round Num.prec Num.emax s pj (- j) = binary_round Num.prec Num.emax s p 0.
Proof.
  intros Hp Hj Hpj.
  destruct (binary_round_whole s p Hp) as [m [Hm [Hdm ->]]].
  pose proof (digits2_pos_bounds p) as Hd.
  assert (Hd53 : Zpos (digits2_pos p) <= 53).
  { destruct (Z_le_gt_dec (Zpos (digits2_pos p)) 53) as [H | H]; [assumption |].
    assert (2 ^ 53 <= 2 ^ (Zpos (digits2_pos p) - 1)) by (apply Z.pow_le_mono_r; lia).
    lia. }
  pose proof (digits2_pos_shift p j pj ltac:(lia) Hpj) as Hdj.
  set (f := Zpos (digits2_pos p) - 53) in *.
  unfold binary_round, shl_align, fexp, emin, Num.prec, Num.emax.
  rewrite Hdj.
  replace (Z.max (Zpos (digits2_pos p) + j + - j - 53) (3 - 1024 - 53)) with f by lia.
  destruct (f - - j) as [| k | k] eqn:Hk.
  - replace (- j) with (f - 0) by lia.
    apply binary_round_aux_shift; [exact Hdm | lia | lia |].
    rewrite Z.mul_1_r, Hm, Hpj. f_equal. f_equal. lia.
  - replace (- j) with (f - Zpos k) by lia.
    apply binary_round_aux_shift; [exact Hdm | lia | lia |].
    rewrite Hm, Hpj, <- Z.mul_assoc, <- Z.pow_add_r by lia. f_equal. f_equal. lia.
  - assert (Heq : Pos.iter xO pj k = m).
    { apply Pos2Z.inj. rewrite iter_xO_value, Hm, Hpj, <- Z.mul_assoc, <- Z.pow_add_r by lia.
      f_equal. f_equal. lia. }
    rewrite Heq. apply binary_round_aux_exact; [exact Hdm | lia].
Qed.

Lemma ofZ_whole (n : Z) :
  n <> 0 -> Z.abs n < 2 ^ 53 ->
  exists m e,
    Num.ofZ n = S754_finite (n <? 0) m e /\ -52 <= e <= 0 /\ Zpos m = Z.abs n * 2 ^ (- e).
Proof.
  intros Hn Hb. unfold Num.ofZ, binary_normalize.
  destruct n as [| p | p]; [contradiction | |].
  - destruct (binary_round_whole false p Hb) as [m [Hm [_ ->]]].
    exists m, (Zpos (digits2_pos p) - 53).
    pose proof (digits2_pos_bounds p) as Hd.
    assert (Zpos (digits2_pos p) <= 53).
    { destruct (Z_le_gt_dec (Zpos (digits2_pos p)) 53) as [H | H]; [assumption |].
      assert (2 ^ 53 <= 2 ^ (Zpos (digits2_pos p) - 1)) by (apply Z.pow_le_mono_r; lia).
      lia. }
    split; [reflexivity | split; [lia |]].
    rewrite Hm. cbn [Z.abs]. f_equal. f_equal. lia.
  - destruct (binary_round_whole true p Hb) as [m [Hm [_ ->]]].
    exists m, (Zpos (digits2_pos p) - 53).
    pose proof (digits2_pos_bounds p) as Hd.
    assert (Zpos (digits2_pos p) <= 53).
    { destruct (Z_le_gt_dec (Zpos (digits2_pos p)) 53) as [H | H]; [assumption |].
      assert (2 ^ 53 <= 2 ^ (Zpos (digits2_pos p) - 1)) by (apply Z.pow_le_mono_r; lia).
      lia. }
    split; [reflexivity | split; [lia |]].
    rewrite Hm. cbn [Z.abs]. f_equal. f_equal. lia.
Qed.

Lemma integerPart_ofZ (n : Z) : Z.abs n < 2 ^ 53 -> integerPart (Num.ofZ n) = Some n.
Proof.
  intros Hb. destruct (Z.eq_dec n 0) as [-> | Hn]; [reflexivity |].
  destruct (ofZ_whole n Hn Hb) as [m [e [-> [He Hm]]]]. cbn [integerPart]. f_equal.
  assert (Hp : 0 < 2 ^ (- e)) by (apply Z.pow_pos_nonneg; lia).
  destruct (0 <=? e) eqn:H0.
  - assert (e = 0) by lia. subst e. cbn in Hm. rewrite Z.pow_0_r, Z.mul_1_r.
    destruct (n <? 0) eqn:Hs; cbn [cond_Zopp]; lia.
  - rewrite Hm, Z.div_mul by lia.
    destruct (n <? 0) eqn:Hs; cbn [cond_Zopp]; lia.
Qed.

Lemma isFinite_ofZ (n : Z) : Z.abs n < 2 ^ 53 -> Num.isFinite (Num.ofZ n) = true.
Proof.
  intros Hb. destruct (Z.eq_dec n 0) as [-> | Hn]; [reflexivity |].
  destruct (ofZ_whole n Hn Hb) as [m [e [-> _]]]. reflexivity.
Qed.

Lemma shl_align_value (mx : positive) (ex ez : Z) :
  ez <= ex -> Zpos (fst (shl_align mx ex ez)) = Zpos mx * 2 ^ (ex - ez).
Proof.
  intros Hle. unfold shl_align. destruct (ez - ex) as [| k | k] eqn:Hk.
  - cbn [fst]. replace (ex - ez) with 0 by lia. lia.
  - lia.
  - cbn [fst]. rewrite iter_xO_value. f_equal. f_equal. lia.
Qed.

(** The sum of two whole numbers is exact as long as it stays below
    [2^53]. *)
Lemma add_whole (a b : Z) :
  Z.abs a < 2 ^ 53 -> Z.abs b < 2 ^ 53 -> Z.abs (a + b) < 2 ^ 53 ->
  Num.add (Num.ofZ a) (Num.ofZ b) = Num.ofZ (a + b).
Proof.
  intros Ha Hb Hab.
  destruct (Z.eq_dec a 0) as [-> | Hna].
  { change (Num.ofZ 0) with (S754_zero false). cbn [Z.add].
    destruct (Z.eq_dec b 0) as [-> | Hnb]; [reflexivity |].
    destruct (ofZ_whole b Hnb Hb) as [m [e [-> _]]]. reflexivity. }
  destruct (Z.eq_dec b 0) as [-> | Hnb].
  { rewrite Z.add_0_r. change (Num.ofZ 0) with (S754_zero false).
    destruct (ofZ_whole a Hna Ha) as [m [e [-> _]]]. reflexivity. }
  destruct (ofZ_whole a Hna Ha) as [ma [ea [-> [Hea Hma]]]].
  destruct (ofZ_whole b Hnb Hb) as [mb [eb [-> [Heb Hmb]]]].
  unfold Num.add, SFadd.
  set (ez := Z.min ea eb).
  rewrite !shl_align_value by (subst ez; lia).
  assert (Hsum : cond_Zopp (a <? 0) (Zpos ma * 2 ^ (ea - ez)) +
                 cond_Zopp (b <? 0) (Zpos mb * 2 ^ (eb - ez)) = (a + b) * 2 ^ (- ez)).
  { rewrite Hma, Hmb, <- !Z.mul_assoc, <- !Z.pow_add_r by (subst ez; lia).
    replace (- ea + (ea - ez)) with (- ez) by lia.
    replace (- eb + (eb - ez)) with (- ez) by lia.
    destruct (a <? 0) eqn:Hsa; destruct (b <? 0) eqn:Hsb; cbn [cond_Zopp]; nia. }
  rewrite Hsum.
  assert (Hp : 0 < 2 ^ (- ez)) by (apply Z.pow_pos_nonneg; subst ez; lia).
  unfold Num.ofZ, binary_normalize.
  destruct ((a + b) * 2 ^ (- ez)) as [| pM | pM] eqn:HM.
  - assert (a + b = 0) by nia. replace (a + b) with 0 by lia. reflexivity.
  - destruct (a + b) as [| p0 | p0] eqn:Hp0; [lia | | lia].
    replace ez with (- (- ez)) at 1 by lia.
    apply binary_round_scaled; [exact Hab | subst ez; lia | symmetry; exact HM].
  - destruct (a + b) as [| p0 | p0] eqn:Hp0; [lia | lia |].
    replace ez with (- (- ez)) at 1 by lia.
    apply binary_round_scaled; [exact Hab | subst ez; lia |].
    assert (Zneg pM = - Zpos pM) by reflexivity. assert (Zneg p0 = - Zpos p0) by reflexivity.
    lia.
Qed.

(** ** Due dates *)

(** The civil date of a day number names that day number. *)
Lemma daysFromCivil_civilFromDays (z : Z) :
  let '(y, m, d) := JSDate.civilFromDays z in JSDate.daysFromCivil y m d = z.
Proof.
  unfold JSDate.civilFromDays.
  set (z' := z + 719468).
  set (era := z' / 146097).
  set (doe := z' - era * 146097).
  assert (Hdoe : 0 <= doe <= 146096) by (subst doe era; div_lia).
  set (yoe := (doe - doe / 1460 + doe / 36524 - doe / 146096) / 365).
  assert (Hyoe : 0 <= yoe <= 399) by (subst yoe; div_lia).
  set (doy := doe - (365 * yoe + yoe / 4 - yoe / 100)).
  assert (Hdoy : 0 <= doy <= 365) by (subst doy yoe; div_lia).
  set (mp := (5 * doy + 2) / 153).
  assert (Hmp : 0 <= mp <= 11) by (subst mp; div_lia).
  assert (Edoy : doe = 365 * yoe + yoe / 4 - yoe / 100 + doy) by (subst doy; lia).
  assert (Edoe : z = era * 146097 + doe - 719468) by (subst doe z'; lia).
  clearbody doy. clearbody yoe. clearbody doe. clearbody era.
  cbv zeta.
  unfold JSDate.daysFromCivil.
  destruct (mp <? 10) eqn:Hmp10.
  - replace (mp + 3 <=? 2) with false by lia.
    replace (2 <? mp + 3) with true by lia.
    replace ((yoe + era * 400) / 400) with era by div_lia.
    subst mp. div_lia.
  - replace (mp - 9 <=? 2) with true by lia.
    replace (2 <? mp - 9) with false by lia.
    replace ((yoe + era * 400 + 1 - 1) / 400) with era by div_lia.
    subst mp. div_lia.
Qed.

Lemma civilFromDays_month (z : Z) : 1 <= snd (fst (JSDate.civilFromDays z)) <= 12.
Proof.
  pose proof (civilFromDays_range z) as H.
  destruct (JSDate.civilFromDays z) as [[y m] d]. cbn [fst snd]. lia.
Qed.

Lemma civilFromDays_day (z : Z) : 1 <= snd (JSDate.civilFromDays z) <= 31.
Proof.
  pose proof (civilFromDays_range z) as H.
  destruct (JSDate.civilFromDays z) as [[y m] d]. cbn [fst snd]. lia.
Qed.

(** Moving the local day of the month by [n] moves the time by [n] days,
    at every fixed offset. *)
Lemma setDate_shift (minutes tv n : Z) :
  let host := JSDate.fixedOffset minutes in
  JSDate.setDate host (Some tv) (JSDate.DateFromTime (JSDate.LocalTime host tv) + n) =
    JSDate.TimeClip (tv + n * JSDate.msPerDay).
Proof.
  cbv zeta. unfold JSDate.setDate. f_equal.
  set (t := JSDate.LocalTime (JSDate.fixedOffset minutes) tv).
  unfold JSDate.YearFromTime, JSDate.MonthFromTime, JSDate.DateFromTime.
  pose proof (daysFromCivil_civilFromDays (JSDate.Day t)) as Hrt.
  pose proof (civilFromDays_month (JSDate.Day t)) as Hm.
  destruct (JSDate.civilFromDays (JSDate.Day t)) as [[y m] d]. cbn [fst snd] in *.
  rewrite MakeDay_month by exact Hm.
  rewrite daysFromCivil_day. rewrite daysFromCivil_day in Hrt.
  replace (JSDate.daysFromCivil y m 1 + (d + n) - 1) with (JSDate.Day t + n) by lia.
  unfold JSDate.MakeDate, JSDate.UTC, JSDate.Day, JSDate.TimeWithinDay.
  subst t. unfold JSDate.LocalTime, JSDate.fixedOffset. cbn [JSDate.LocalTZA].
  unfold JSDate.msPerDay. div_lia.
Qed.

Lemma dateOnlyFields_not_empty (y m d : Z) :
  JSDate.dateOnlyFields EmptyString <> Some (y, m, d).
Proof. vm_compute. discriminate. Qed.

Lemma daysOf_whole (n : Z) : Z.abs n < 2 ^ 53 -> Due.daysOf (JNum (Num.ofZ n)) = Num.ofZ n.
Proof.
  intros Hn. unfold Due.daysOf. rewrite isFinite_ofZ by exact Hn. reflexivity.
Qed.

(** The due date of a date-only issue date and a whole number of days: the
    UTC date of the time [n] days after the midnight UTC of the issue
    date. *)
Lemma computeDueDate_days (minutes now : Z) (issueDate : string) (dueDays : jsval)
    (y m d n : Z) :
  JSDate.dateOnlyFields issueDate = Some (y, m, d) ->
  Z.abs n < 2 ^ 52 ->
  Due.daysOf dueDays = Num.ofZ n ->
  Due.computeDueDate (JSDate.fixedOffset minutes) now issueDate dueDays =
    App.dateKey (JSDate.TimeClip ((JSDate.daysFromCivil y m d + n) * JSDate.msPerDay)).
Proof.
  intros Hf Hn Hdays. unfold Due.computeDueDate.
  destruct issueDate as [| c r]; [exfalso; exact (dateOnlyFields_not_empty _ _ _ Hf) |].
  cbn [Str.isEmpty]. rewrite (parse_dateOnly minutes _ y m d Hf). rewrite Hdays.
  set (D := JSDate.daysFromCivil y m d) in *.
  set (host := JSDate.fixedOffset minutes).
  cbn [JSDate.getDate option_map].
  assert (Hdd : 1 <= JSDate.DateFromTime (JSDate.LocalTime host (D * JSDate.msPerDay)) <= 31)
    by apply civilFromDays_day.
  set (dd := JSDate.DateFromTime (JSDate.LocalTime host (D * JSDate.msPerDay))) in *.
  change (2 ^ 52) with 4503599627370496 in Hn.
  rewrite add_whole by (change (2 ^ 53) with 9007199254740992; lia).
  unfold Due.setDate. rewrite integerPart_ofZ by (change (2 ^ 53) with 9007199254740992; lia).
  subst dd. subst host. rewrite (setDate_shift minutes (D * JSDate.msPerDay) n).
  replace (D * JSDate.msPerDay + n * JSDate.msPerDay) with ((D + n) * JSDate.msPerDay) by lia.
  reflexivity.
Qed.

Lemma TimeClip_day (z : Z) :
  Z.abs z <= 100000000 -> JSDate.TimeClip (z * JSDate.msPerDay) = Some (z * JSDate.msPerDay).
Proof.
  intros Hz. unfold JSDate.TimeClip, JSDate.msPerDay.
  replace (Z.abs (z * 86400000) <=? 8640000000000000) with true by lia. reflexivity.
Qed.

Lemma dateOnly_day_range (s : string) (y m d : Z) :
  JSDate.dateOnlyFields s = Some (y, m, d) ->
  inRange (y, m, d) = true /\ JSDate.validDate y m d = true /\
  -719528 <= JSDate.daysFromCivil y m d <= 2933262.
Proof.
  intros Hf. destruct (dateOnlyFields_valid s y m d Hf) as [Hy Hv].
  destruct (validDate_range y m d Hv) as [Hm [Hd Hd31]].
  pose proof (daysFromCivil_bounds y m d ltac:(lia) Hm) as Hb.
  split; [unfold inRange; lia | split; [exact Hv | lia]].
Qed.

(** X15: for an issue date in a date-only form and a whole number of due
    days, [computeDueDate] returns the date that many days after the issue
    date, whatever the fixed offset of the host from UTC (dates with a year
    of four digits). *)
Theorem computeDueDate_adds_days (minutes now : Z) (issueDate : string) (y m d n : Z) :
  JSDate.dateOnlyFields issueDate = Some (y, m, d) ->
  fourDigitYear (JSDate.daysFromCivil y m d + n) ->
  Due.computeDueDate (JSDate.fixedOffset minutes) now issueDate (JNum (Num.ofZ n)) =
    Some (Spec.keyAfter y m d n).
Proof.
  intros Hf Hrange. destruct (dateOnly_day_range _ _ _ _ Hf) as [_ [_ HD]].
  unfold fourDigitYear in Hrange.
  assert (Hn : Z.abs n < 2 ^ 52) by (change (2 ^ 52) with 4503599627370496; lia).
  rewrite (computeDueDate_days minutes now issueDate _ y m d n Hf Hn)
    by (apply daysOf_whole; change (2 ^ 53) with 9007199254740992;
        change (2 ^ 52) with 4503599627370496 in Hn; lia).
  rewrite TimeClip_day by lia.
  unfold Spec.keyAfter.
  pose proof (inRange_civil _ Hrange) as Hin.
  destruct (JSDate.civilFromDays (JSDate.daysFromCivil y m d + n)) as [[y' m'] d'] eqn:Hc.
  apply dateKey_civil; [| exact Hin].
  rewrite Day_midnight. exact Hc.
Qed.

Lemma computeDueDate_adds_days_2024_01_31 :
  Due.computeDueDate utcMinus5 1700000000000 "2024-01-31" (JNum (Num.ofZ 30)) =
    Some "2024-03-01".
Proof.
  apply (computeDueDate_adds_days (-300) 1700000000000 "2024-01-31" 2024 1 31 30).
  - reflexivity.
  - unfold fourDigitYear. vm_compute. split; discriminate.
Defined.

(** X16: when [dueDays] is not a finite Number (a string, [null], NaN, an
    infinity), [computeDueDate] adds no days: for an issue date in a
    date-only form it returns that date. *)
Theorem computeDueDate_without_days (minutes now : Z) (issueDate : string)
    (dueDays : jsval) (y m d : Z) :
  JSDate.dateOnlyFields issueDate = Some (y, m, d) ->
  (forall x, dueDays = JNum x -> Num.isFinite x = false) ->
  Due.computeDueDate (JSDate.fixedOffset minutes) now issueDate dueDays =
    Some (Spec.key y m d).
Proof.
  intros Hf Hnot. destruct (dateOnly_day_range _ _ _ _ Hf) as [Hin [Hv HD]].
  assert (Hdays : Due.daysOf dueDays = Num.ofZ 0).
  { unfold Due.daysOf. destruct dueDays as [| | b | x | s]; try reflexivity.
    rewrite (Hnot x eq_refl). reflexivity. }
  rewrite (computeDueDate_days minutes now issueDate _ y m d 0 Hf ltac:(reflexivity) Hdays).
  rewrite Z.add_0_r, TimeClip_day by lia.
  apply dateKey_civil; [| exact Hin].
  rewrite Day_midnight. apply civil_roundtrip, Hv.
Qed.

Lemma computeDueDate_without_days_string :
  Due.computeDueDate utcPlus1 1700000000000 "2024-01-31" (JStr "14") = Some "2024-01-31".
Proof.
  apply (computeDueDate_without_days 60 1700000000000 "2024-01-31" (JStr "14") 2024 1 31).
  - reflexivity.
  - intros x H. discriminate H.
Defined.

(** X17: [computeDueDate] throws (the RangeError of [toISOString]) when the
    whole number of due days leads more than 100 000 000 days away from
    1970-01-01, where no Date exists. *)
Theorem computeDueDate_out_of_range (minutes now : Z) (issueDate : string) (y m d n : Z) :
  JSDate.dateOnlyFields issueDate = Some (y, m, d) ->
  Z.abs n < 2 ^ 52 ->
  100000000 < Z.abs (JSDate.daysFromCivil y m d + n) ->
  Due.computeDueDate (JSDate.fixedOffset minutes) now issueDate (JNum (Num.ofZ n)) = None.
Proof.
  intros Hf Hn Hfar.
  rewrite (computeDueDate_days minutes now issueDate _ y m d n Hf Hn)
    by (apply daysOf_whole; change (2 ^ 53) with 9007199254740992;
        change (2 ^ 52) with 4503599627370496 in Hn; lia).
  unfold JSDate.TimeClip, JSDate.msPerDay.
  replace (Z.abs ((JSDate.daysFromCivil y m d + n) * 86400000) <=? 8640000000000000)
    with false by lia.
  reflexivity.
Qed.

Lemma computeDueDate_out_of_range_2024 :
  Due.computeDueDate utc 1700000000000 "2024-01-31" (JNum (Num.ofZ 1000000000)) = None.
Proof.
  apply (computeDueDate_out_of_range 0 1700000000000 "2024-01-31" 2024 1 31 1000000000).
  - reflexivity.
  - reflexivity.
  - vm_compute. reflexivity.
Defined.

(** ** The dates of an invoice *)

Lemma local_day_west (minutes n : Z) :
  -1440 < minutes < 0 ->
  JSDate.Day (JSDate.LocalTime (JSDate.fixedOffset minutes) (n * JSDate.msPerDay)) = n - 1.
Proof.
  intros H. unfold JSDate.Day, JSDate.LocalTime, JSDate.fixedOffset, JSDate.msPerDay.
  cbn [JSDate.LocalTZA]. div_lia.
Qed.

Lemma orElse_self (s : string) : InvoiceDates.orElse s s = s.
Proof. unfold InvoiceDates.orElse. destruct (Str.isEmpty s); reflexivity. Qed.

Lemma orElse_twice (s t : string) :
  InvoiceDates.orElse (InvoiceDates.orElse s t) t = InvoiceDates.orElse s t.
Proof.
  unfold InvoiceDates.orElse. destruct (Str.isEmpty s) eqn:Hs; [| rewrite Hs; reflexivity].
  destruct (Str.isEmpty t); reflexivity.
Qed.

(** The sale date that [normalizeInvoice] parses. *)
Lemma normalize_sale (host : JSDate.Host) (now later : Z) (body : InvoiceDates.Body.t)
    (defaultDueDays : jsval) (inv : InvoiceDates.t) :
  InvoiceDates.normalize host now later body defaultDueDays = Some inv ->
  InvoiceDates.month inv =
    option_map (fun m => m + 1) (JSDate.getMonth host (JSDate.parse host (InvoiceDates.saleDate inv)))
  /\ InvoiceDates.year inv = JSDate.getFullYear host (JSDate.parse host (InvoiceDates.saleDate inv)).
Proof.
  unfold InvoiceDates.normalize.
  destruct (JSDate.toISOString (JSDate.TimeClip now)) as [nowIso |]; [| discriminate].
  cbv zeta. rewrite orElse_twice.
  destruct (if Str.isEmpty (Server.cleanText (InvoiceDates.Body.dueDate body)) then _ else _)
    as [due |]; [| discriminate].
  intros H. inversion H; subst inv. cbn [InvoiceDates.month InvoiceDates.year InvoiceDates.saleDate].
  split; reflexivity.
Qed.

(** X18: on a host at UTC or east of it, the [month] and the [year] of a
    normalised invoice are those of its sale date, for a sale date in a
    date-only form. *)
Theorem invoice_month_east_of_utc (minutes now later : Z) (body : InvoiceDates.Body.t)
    (defaultDueDays : jsval) (inv : InvoiceDates.t) (y m d : Z) :
  0 <= minutes < 1440 ->
  InvoiceDates.normalize (JSDate.fixedOffset minutes) now later body defaultDueDays = Some inv ->
  JSDate.dateOnlyFields (InvoiceDates.saleDate inv) = Some (y, m, d) ->
  InvoiceDates.month inv = Some m /\ InvoiceDates.year inv = Some y.
Proof.
  intros Hmin Hn Hf. destruct (normalize_sale _ _ _ _ _ _ Hn) as [-> ->].
  destruct (local_year_month_east minutes _ y m d Hmin Hf) as [Hy Hm].
  rewrite Hy, Hm. cbn [option_map]. split; [f_equal; lia | reflexivity].
Qed.

(** West of UTC the local year and month of a date-only string are those of
    the day before. *)
Lemma local_year_month_west (minutes : Z) (s : string) (y m d : Z) :
  -1440 < minutes < 0 ->
  JSDate.dateOnlyFields s = Some (y, m, d) ->
  let host := JSDate.fixedOffset minutes in
  let before := JSDate.civilFromDays (JSDate.daysFromCivil y m d - 1) in
  JSDate.getFullYear host (JSDate.parse host s) = Some (fst (fst before)) /\
  JSDate.getMonth host (JSDate.parse host s) = Some (snd (fst before) - 1).
Proof.
  intros Hmin H host before. subst host before.
  rewrite (parse_dateOnly _ _ _ _ _ H).
  unfold JSDate.getFullYear, JSDate.getMonth, JSDate.YearFromTime, JSDate.MonthFromTime.
  cbn [option_map]. rewrite (local_day_west _ _ Hmin).
  split; reflexivity.
Qed.

(** X19: on a host west of UTC, the [month] and the [year] of a normalised
    invoice are those of the day before its sale date, for a sale date in a
    date-only form: a sale on the first day of a month is booked in the
    month before. *)
Theorem invoice_month_west_of_utc (minutes now later : Z) (body : InvoiceDates.Body.t)
    (defaultDueDays : jsval) (inv : InvoiceDates.t) (y m d : Z) :
  -1440 < minutes < 0 ->
  InvoiceDates.normalize (JSDate.fixedOffset minutes) now later body defaultDueDays = Some inv ->
  JSDate.dateOnlyFields (InvoiceDates.saleDate inv) = Some (y, m, d) ->
  let before := JSDate.civilFromDays (JSDate.daysFromCivil y m d - 1) in
  InvoiceDates.month inv = Some (snd (fst before)) /\
  InvoiceDates.year inv = Some (fst (fst before)).
Proof.
  intros Hmin Hn Hf before. destruct (normalize_sale _ _ _ _ _ _ Hn) as [-> ->].
  destruct (local_year_month_west minutes _ y m d Hmin Hf) as [Hy Hm].
  fold before in Hy, Hm. rewrite Hy, Hm. cbn [option_map]. split; [f_equal; lia | reflexivity].
Qed.

Lemma invoice_month_east_of_utc_march :
  exists inv,
    InvoiceDates.normalize utcPlus1 1700000000000 1700000000001 marchSale (JNum (Num.ofZ 14))
      = Some inv /\
    InvoiceDates.month inv = Some 3 /\ InvoiceDates.year inv = Some 2024.
Proof.
  eexists. split; [vm_compute; reflexivity |].
  apply (invoice_month_east_of_utc 60 1700000000000 1700000000001 marchSale
           (JNum (Num.ofZ 14)) _ 2024 3 1).
  - lia.
  - vm_compute. reflexivity.
  - vm_compute. reflexivity.
Defined.

Lemma invoice_month_west_of_utc_march :
  exists inv,
    InvoiceDates.normalize utcMinus5 1700000000000 1700000000001 marchSale (JNum (Num.ofZ 14))
      = Some inv /\
    InvoiceDates.month inv = Some 2 /\ InvoiceDates.year inv = Some 2024.
Proof.
  eexists. split; [vm_compute; reflexivity |].
  apply (invoice_month_west_of_utc (-300) 1700000000000 1700000000001 marchSale
           (JNum (Num.ofZ 14)) _ 2024 3 1).
  - lia.
  - vm_compute. reflexivity.
  - vm_compute. reflexivity.
Defined.

(** ** The invoice form *)

Lemma round2_zero_extra : round2 (Server.toNumber JUndefined (JNum Num.zero)) = Num.zero.
Proof. reflexivity. Qed.

(** X20: for every invoice that the form of [app.js] posts, the stored
    totals can be derived again from the stored fields: [totalNet],
    [vatAmount] and [gross] are the documented formulas on the stored
    override or base net, the stored extra line, and the stored VAT rate.
    (The form sends an extra line only with a description, so the server
    never counts an extra net that it does not store.) *)
Theorem form_payload_rederivable (form : Form.t) (profile : option Server.Defaults.t) :
  let inv := Server.normalizeInvoice (Form.payload form) profile in
  Spec.rederive inv =
    (Server.Invoice.totalNet inv, Server.Invoice.vatAmount inv, Server.Invoice.gross inv).
Proof.
  apply normalizeInvoice_rederivable.
  unfold extraNetOf, Form.payload. cbn [Server.Body.extra].
  destruct (Str.isEmpty (Str.trim (Form.extraDesc form))) eqn:Hd.
  - left. exists false. reflexivity.
  - cbn [Server.RawExtra.net].
    destruct (toNumber_number (Json.number (Form.numberOr0 (Form.extraNet form))) Num.zero)
      as [x Hx].
    rewrite Hx.
    pose proof (round2_not_nan x) as Hnan.
    destruct (round2 (JNum x)) as [s | s | | s m e] eqn:Hr.
    + left. exists s. reflexivity.
    + right. unfold Server.normalizeInvoice. cbn [Server.Invoice.extra Server.Body.extra].
      cbn [Server.RawExtra.net Server.RawExtra.desc]. rewrite Hx, Hr.
      unfold Server.cleanText. rewrite trim_idempotent, Hd. discriminate.
    + contradiction.
    + right. unfold Server.normalizeInvoice. cbn [Server.Invoice.extra Server.Body.extra].
      cbn [Server.RawExtra.net Server.RawExtra.desc]. rewrite Hx, Hr.
      unfold Server.cleanText. rewrite trim_idempotent, Hd. discriminate.
Qed.

(** ** Easter Sunday *)

(** The number [v] of which [computeEaster] takes the month and the day:
    from 114 (22 March) to 148 (25 April), and congruent modulo 7 to a
    value that does not depend on the golden number. *)
Lemma easter_value (year : Z) :
  0 <= year ->
  exists v q : Z,
    114 <= v <= 148 /\
    App.easterMonthDay year = (v / 31, v mod 31 + 1) /\
    v = 7 * q + 2 * (year / 100 mod 4) + 2 * (year mod 100 / 4) - year mod 100 mod 4 + 6.
Proof.
  intros Hy. unfold App.easterMonthDay.
  pose proof (rem_nonneg_range year 19 Hy ltac:(lia)) as Ha.
  set (a := Z.rem year 19) in *.
  set (b := year / 100).
  assert (Hb : 0 <= b) by (subst b; div_lia).
  pose proof (rem_nonneg_range year 100 Hy ltac:(lia)) as Hc.
  rewrite (Z.rem_mod_nonneg year 100) in * by lia.
  set (c := year mod 100) in *.
  set (d := b / 4).
  pose proof (rem_nonneg_range b 4 Hb ltac:(lia)) as He.
  rewrite (Z.rem_mod_nonneg b 4) in * by lia.
  set (e := b mod 4) in *.
  set (f := (b + 8) / 25).
  set (g := (b - f + 1) / 3).
  assert (Hn1 : 0 <= 19 * a + b - d - g + 15) by (subst d g f; div_lia).
  pose proof (rem_nonneg_range _ 30 Hn1 ltac:(lia)) as Hh.
  set (h := Z.rem (19 * a + b - d - g + 15) 30) in *.
  set (i := c / 4).
  assert (Hi : 0 <= i <= 24) by (subst i; div_lia).
  pose proof (rem_nonneg_range c 4 ltac:(lia) ltac:(lia)) as Hk.
  rewrite (Z.rem_mod_nonneg c 4) in * by lia.
  set (k := c mod 4) in *.
  assert (Hn2 : 0 <= 32 + 2 * e + 2 * i - h - k) by lia.
  pose proof (rem_nonneg_range _ 7 Hn2 ltac:(lia)) as Hl.
  rewrite (Z.rem_mod_nonneg (32 + 2 * e + 2 * i - h - k) 7) in * by lia.
  set (l := (32 + 2 * e + 2 * i - h - k) mod 7) in *.
  assert (Hlq : exists q, 32 + 2 * e + 2 * i - h - k = 7 * q + l).
  { exists ((32 + 2 * e + 2 * i - h - k) / 7). subst l. div_lia. }
  destruct Hlq as [q Hq].
  set (m := (a + 11 * h + 22 * l) / 451).
  assert (Hm : (m = 0 /\ a + 11 * h + 22 * l < 451) \/ (m = 1 /\ 451 <= a + 11 * h + 22 * l))
    by (subst m; div_lia).
  set (v := h + l - 7 * m + 114).
  assert (Hv : 114 <= v <= 148) by (subst v; lia).
  exists v, (20 - q - m). split; [exact Hv |]. split.
  - rewrite (Z.rem_mod_nonneg v 31) by lia. reflexivity.
  - subst v. clearbody l m. lia.
Qed.

(** The day of the week of a date of March or April. *)
Lemma spring_weekday (year v : Z) :
  0 <= year -> 93 <= v <= 154 ->
  Spec.weekday year (v / 31) (v mod 31 + 1) =
    (5 * (year / 100 mod 4) + year mod 100 + year mod 100 / 4 + v + 1) mod 7.
Proof.
  intros Hy Hv. unfold Spec.weekday, JSDate.daysFromCivil.
  assert (Hmo : v / 31 = 3 \/ v / 31 = 4) by div_lia.
  set (day := v mod 31 + 1).
  assert (Hday : day = v - 31 * (v / 31) + 1) by (subst day; div_lia).
  set (mo := v / 31) in *.
  replace (mo <=? 2) with false by lia.
  replace (2 <? mo) with true by lia.
  set (era := year / 400).
  set (yoe := year - era * 400).
  set (e := year / 100 mod 4). set (c := year mod 100).
  assert (Hyoe : yoe = 100 * e + c) by (subst yoe era e c; div_lia).
  assert (Hc : 0 <= c <= 99) by (subst c; div_lia).
  assert (He : 0 <= e <= 3) by (subst e; div_lia).
  assert (Hdoy : (153 * (mo - 3) + 2) / 5 = 31 * (mo - 3)) by (destruct Hmo as [-> | ->]; reflexivity).
  rewrite Hdoy, Hyoe.
  replace ((100 * e + c) / 4) with (25 * e + c / 4) by div_lia.
  replace ((100 * e + c) / 100) with e by div_lia.
  clearbody day mo era e c. clear Hyoe yoe Hdoy. subst day.
  set (i := c / 4). clearbody i. div_lia.
Qed.

(** The date that [computeEaster] computes is a Sunday from 22 March to
    25 April. *)
Lemma easter_is_sunday (year : Z) :
  0 <= year ->
  let '(month, day) := App.easterMonthDay year in
  ((month = 3 /\ 22 <= day <= 31) \/ (month = 4 /\ 1 <= day <= 25)) /\
  Spec.weekday year month day = 0.
Proof.
  intros Hy. destruct (easter_value year Hy) as [v [q [Hv [-> Hq]]]].
  split; [div_lia |].
  rewrite spring_weekday by lia. rewrite Hq.
  set (e := year / 100 mod 4). set (c := year mod 100).
  assert (Hc : 0 <= c <= 99) by (subst c; div_lia).
  clearbody e c. div_lia.
Qed.

(** X21: for a year from 100 to 9999 and a host at a fixed offset from UTC,
    the Date that [computeEaster] returns is, in local time, a Sunday of
    that year, from 22 March to 25 April. *)
Theorem computeEaster_is_sunday (minutes year : Z) :
  -1440 <= minutes <= 1440 -> 100 <= year <= 9999 ->
  let host := JSDate.fixedOffset minutes in
  let easter := App.computeEaster host year in
  JSDate.getDay host easter = Some 0 /\
  JSDate.getFullYear host easter = Some year /\
  exists month day,
    JSDate.getMonth host easter = Some (month - 1) /\
    JSDate.getDate host easter = Some day /\
    ((month = 3 /\ 22 <= day <= 31) \/ (month = 4 /\ 1 <= day <= 25)).
Proof.
  intros Hmin Hy host easter. subst easter host.
  pose proof (easter_is_sunday year ltac:(lia)) as Hs.
  destruct (easter_valid year ltac:(lia)) as [Hv _].
  unfold App.computeEaster.
  destruct (App.easterMonthDay year) as [em ed]. cbn [fst snd] in Hv.
  destruct Hs as [Hrange Hsun].
  rewrite fromYMD_month by lia.
  destruct (civil_of_local_midnight minutes (JSDate.daysFromCivil year em ed))
    as [Hyear [Hmonth [Hdate Hday]]].
  cbv zeta in Hyear, Hmonth, Hdate, Hday.
  rewrite (civil_roundtrip _ _ _ Hv) in Hyear, Hmonth, Hdate. cbn [fst snd] in *.
  split; [rewrite Hday; exact (f_equal Some Hsun) |].
  split; [exact Hyear |].
  exists em, ed. split; [exact Hmonth | split; [exact Hdate | exact Hrange]].
Qed.

Lemma computeEaster_is_sunday_2024 :
  JSDate.getDay utcPlus1 (App.computeEaster utcPlus1 2024) = Some 0 /\
  JSDate.getFullYear utcPlus1 (App.computeEaster utcPlus1 2024) = Some 2024 /\
  exists month day,
    JSDate.getMonth utcPlus1 (App.computeEaster utcPlus1 2024) = Some (month - 1) /\
    JSDate.getDate utcPlus1 (App.computeEaster utcPlus1 2024) = Some day /\
    ((month = 3 /\ 22 <= day <= 31) \/ (month = 4 /\ 1 <= day <= 25)).
Proof. apply (computeEaster_is_sunday 60 2024); lia. Defined.

(** [d.setDate(d.getDate() + n)] moves a Date by [n] days at every fixed
    offset. *)
Lemma addDays_fixed (minutes tv n : Z) :
  App.addDays (JSDate.fixedOffset minutes) (Some tv) n =
    JSDate.TimeClip (tv + n * JSDate.msPerDay).
Proof. unfold App.addDays. cbn [JSDate.getDate option_map]. apply setDate_shift. Qed.

(** East of UTC, [dateKey] after [setDate(getDate() + k)] on a local
    midnight is the key of the date [k - 1] days later. *)
Lemma addDays_local_midnight_east (minutes y m d k : Z) :
  0 < minutes <= 1440 ->
  0 <= y <= 9999 -> 3 <= m <= 4 -> 1 <= d <= 31 -> 1 <= k <= 100 ->
  App.dateKey
    (App.addDays (JSDate.fixedOffset minutes)
       (Some (JSDate.UTC (JSDate.fixedOffset minutes)
                (JSDate.daysFromCivil y m d * JSDate.msPerDay))) k) =
    Some (Spec.keyAfter y m d (k - 1)).
Proof.
  intros Hmin Hy Hm Hd Hk. rewrite addDays_fixed.
  pose proof (spring_day_bound y m d (k - 1) Hy Hm Hd ltac:(lia)) as Hb.
  set (D := JSDate.daysFromCivil y m d) in *.
  assert (Hclip : forall t, Z.abs t <= 8640000000000000 -> JSDate.TimeClip t = Some t).
  { intros t Ht. unfold JSDate.TimeClip. replace (Z.abs t <=? 8640000000000000) with true by lia.
    reflexivity. }
  rewrite Hclip
    by (unfold JSDate.UTC, JSDate.fixedOffset, JSDate.msPerDay; cbn [JSDate.LocalTZA]; lia).
  unfold Spec.keyAfter. fold D.
  pose proof (inRange_civil _ Hb) as Hin.
  destruct (JSDate.civilFromDays (D + (k - 1))) as [[y' m'] d'] eqn:Hc.
  apply dateKey_civil; [| exact Hin].
  replace (JSDate.Day (JSDate.UTC (JSDate.fixedOffset minutes) (D * JSDate.msPerDay)
                       + k * JSDate.msPerDay)) with (D + (k - 1)); [exact Hc |].
  unfold JSDate.Day, JSDate.UTC, JSDate.fixedOffset, JSDate.msPerDay. cbn [JSDate.LocalTZA].
  div_lia.
Qed.

(** X22: on a host east of UTC (up to a day), for the years 100 to 9999, the
    Set of [polishHolidays(year)] holds the ten fixed dates and, instead of
    Easter Monday and Corpus Christi, the days before them: Easter Sunday
    and the 59th day after it. *)
Theorem polishHolidays_east_of_utc (minutes year : Z) :
  0 < minutes <= 1440 -> 100 <= year <= 9999 ->
  App.polishHolidays (JSDate.fixedOffset minutes) year =
    Some (App.fixedHolidays year ++
          [Spec.keyAfter year (fst (App.easterMonthDay year)) (snd (App.easterMonthDay year)) 0;
           Spec.keyAfter year (fst (App.easterMonthDay year)) (snd (App.easterMonthDay year)) 59])%list.
Proof.
  intros Hmin Hy.
  destruct (easter_valid year ltac:(lia)) as [Hv Hspring].
  unfold App.polishHolidays, App.computeEaster.
  destruct (App.easterMonthDay year) as [em ed]. cbn [fst snd] in *.
  destruct (validDate_range _ _ _ Hv) as [Hm [Hd Hd31]].
  rewrite fromYMD_month by lia.
  rewrite !addDays_local_midnight_east by lia.
  reflexivity.
Qed.

Lemma polishHolidays_east_of_utc_2024 :
  App.polishHolidays utcPlus1 2024 =
    Some (App.fixedHolidays 2024 ++ ["2024-03-31"; "2024-05-29"])%list.
Proof. apply (polishHolidays_east_of_utc 60 2024); lia. Defined.

(** ** The month filter *)

Lemma digitOf_digit (v : Z) :
  0 <= v <= 9 -> Str.digitOf 10 (ascii_of_N (Z.to_N (48 + v))) = Some v.
Proof.
  intros Hv.
  assert (H : v = 0 \/ v = 1 \/ v = 2 \/ v = 3 \/ v = 4 \/ v = 5 \/ v = 6 \/ v = 7 \/ v = 8 \/ v = 9)
    by lia.
  repeat (destruct H as [-> | H]; [reflexivity |]). subst v. reflexivity.
Qed.

Lemma digit_not_hyphen (v : Z) :
  0 <= v <= 9 -> Ascii.eqb (ascii_of_N (Z.to_N (48 + v))) "-" = false.
Proof.
  intros Hv.
  assert (H : v = 0 \/ v = 1 \/ v = 2 \/ v = 3 \/ v = 4 \/ v = 5 \/ v = 6 \/ v = 7 \/ v = 8 \/ v = 9)
    by lia.
  repeat (destruct H as [-> | H]; [reflexivity |]). subst v. reflexivity.
Qed.

(** Reading the digits that [digitsRev] wrote gives the number back. *)
Lemma digitsValue_digitsRev (fuel : nat) (n : Z) (tail : string) :
  0 <= n < 2 ^ Z.of_nat fuel ->
  Str.digitsValue 10 0 (JSDate.revOnto (JSDate.digitsRev fuel n) tail) =
    Str.digitsValue 10 n tail.
Proof.
  revert n tail. induction fuel as [| k IH]; intros n tail Hn.
  - cbn in Hn. assert (n = 0) by lia. subst n. reflexivity.
  - cbn [JSDate.digitsRev JSDate.revOnto].
    assert (Hmod : 0 <= n mod 10 <= 9) by div_lia.
    destruct (n / 10 =? 0) eqn:Hq.
    + cbn [JSDate.revOnto Str.digitsValue]. rewrite digitOf_digit by exact Hmod.
      f_equal. apply Z.eqb_eq in Hq. div_lia.
    + assert (Hk : 0 <= n / 10 < 2 ^ Z.of_nat k).
      { rewrite Nat2Z.inj_succ, Z.pow_succ_r in Hn by lia.
        set (p := 2 ^ Z.of_nat k) in *. clearbody p. div_lia. }
      rewrite (IH (n / 10) _ Hk). cbn [Str.digitsValue].
      rewrite digitOf_digit by exact Hmod. f_equal. div_lia.
Qed.

Lemma includes_digitsRev (fuel : nat) (n : Z) (tail : string) :
  0 <= n ->
  Str.includes "-" (JSDate.revOnto (JSDate.digitsRev fuel n) tail) = Str.includes "-" tail.
Proof.
  revert n tail. induction fuel as [| k IH]; intros n tail Hn; [reflexivity |].
  cbn [JSDate.digitsRev JSDate.revOnto].
  assert (Hmod : 0 <= n mod 10 <= 9) by div_lia.
  destruct (n / 10 =? 0).
  - cbn [JSDate.revOnto Str.includes]. rewrite digit_not_hyphen by exact Hmod. reflexivity.
  - rewrite IH by div_lia. cbn [Str.includes]. rewrite digit_not_hyphen by exact Hmod.
    reflexivity.
Qed.

Lemma natText_value (n : Z) : 0 <= n -> Str.digitsValue 10 0 (JSDate.natText n) = Some n.
Proof.
  intros Hn. unfold JSDate.natText. rewrite digitsValue_digitsRev; [reflexivity |].
  split; [exact Hn |]. rewrite Nat2Z.inj_succ, Z2Nat.id by apply Z.log2_nonneg.
  destruct (Z.eq_dec n 0) as [-> | Hne]; [reflexivity |].
  apply Z.log2_spec. lia.
Qed.

Lemma digitsValue_zeros (k : nat) (s : string) :
  Str.digitsValue 10 0 (JSDate.zeros k ++ s) = Str.digitsValue 10 0 s.
Proof. induction k as [| k IH]; [reflexivity | exact IH]. Qed.

Lemma includes_append (c : ascii) (a b : string) :
  Str.includes c (a ++ b) = Str.includes c a || Str.includes c b.
Proof.
  induction a as [| x a IH]; cbn [append Str.includes]; [reflexivity |].
  destruct (Ascii.eqb x c); [reflexivity | exact IH].
Qed.

Lemma includes_zeros (k : nat) : Str.includes "-" (JSDate.zeros k) = false.
Proof. induction k as [| k IH]; [reflexivity | exact IH]. Qed.

Lemma pad_value (w : nat) (n : Z) :
  0 <= n -> Str.digitsValue 10 0 (JSDate.pad w n) = Some n.
Proof. intros Hn. unfold JSDate.pad. rewrite digitsValue_zeros. apply natText_value, Hn. Qed.

Lemma pad_no_hyphen (w : nat) (n : Z) : 0 <= n -> Str.includes "-" (JSDate.pad w n) = false.
Proof.
  intros Hn. unfold JSDate.pad, JSDate.natText.
  rewrite includes_append, includes_zeros, includes_digitsRev by exact Hn. reflexivity.
Qed.

Lemma split_no_sep (c : ascii) (b : string) :
  Str.includes c b = false -> Str.split c b = [b].
Proof.
  induction b as [| x b IH]; cbn [Str.includes Str.split]; [reflexivity |].
  destruct (Ascii.eqb x c); [discriminate |]. intros H. rewrite (IH H). reflexivity.
Qed.

Lemma split_app_sep (c : ascii) (a r : string) :
  Str.includes c a = false ->
  Str.split c (a ++ String c r) = a :: Str.split c r.
Proof.
  induction a as [| x a IH]; cbn [Str.includes Str.split append].
  - intros _. rewrite Ascii.eqb_refl. reflexivity.
  - destruct (Ascii.eqb x c); [discriminate |]. intros H. rewrite (IH H). reflexivity.
Qed.

(** The month text of a year of four digits is read back by the test and
    the split of the month handlers. *)
Lemma matchYearMonth_text (y m : Z) :
  1000 <= y <= 9999 -> 1 <= m <= 12 ->
  Server.matchYearMonth (JSDate.intText y ++ "-" ++ JSDate.pad 2 m) = Some (y, m).
Proof.
  intros Hy Hm. rewrite intText_pad4 by exact Hy. unfold Server.matchYearMonth.
  change (JSDate.pad 4 y ++ "-" ++ JSDate.pad 2 m)
    with (JSDate.pad 4 y ++ String "-" (JSDate.pad 2 m)).
  rewrite split_app_sep by (apply pad_no_hyphen; lia).
  rewrite split_no_sep by (apply pad_no_hyphen; lia).
  unfold JSDate.fixedDigits.
  rewrite pad4_length, pad2_length by lia. cbn [Nat.eqb].
  rewrite !pad_value by lia. reflexivity.
Qed.

(** X23: the month text that the client writes to its month filter
    ([setDefaultMonth], [getMonthContext]) is accepted by the test
    [/^\d{4}-\d{2}$/] of [getMonthContext] and of [DELETE /api/month] and is
    read back as the local year and month of the moment, whenever that
    year has four digits (1000 to 9999); reading the context again changes
    nothing. *)
Theorem isoMonth_roundtrip (host : JSDate.Host) (now : Z) :
  let year := JSDate.YearFromTime (JSDate.LocalTime host now) in
  let month := JSDate.MonthFromTime (JSDate.LocalTime host now) + 1 in
  1000 <= year <= 9999 ->
  Server.matchYearMonth (Month.isoMonth host now) = Some (year, month) /\
  snd (Month.getMonthContext host now EmptyString) = Month.isoMonth host now /\
  Month.getMonthContext host now (Month.isoMonth host now) =
    Month.getMonthContext host now EmptyString.
Proof.
  intros year month Hy.
  assert (Hm : 1 <= month <= 12).
  { subst month. unfold JSDate.MonthFromTime.
    pose proof (civilFromDays_month (JSDate.Day (JSDate.LocalTime host now))). lia. }
  assert (Hmatch : Server.matchYearMonth (Month.isoMonth host now) = Some (year, month))
    by (apply matchYearMonth_text; assumption).
  split; [exact Hmatch | split; [reflexivity |]].
  unfold Month.getMonthContext at 1. rewrite Hmatch.
  assert (Hne : Str.isEmpty (Month.isoMonth host now) = false).
  { destruct (Month.isoMonth host now); [discriminate Hmatch | reflexivity]. }
  rewrite Hne. reflexivity.
Qed.

Lemma isoMonth_roundtrip_2023_11 :
  Server.matchYearMonth (Month.isoMonth utcPlus1 1700000000000) = Some (2023, 11) /\
  snd (Month.getMonthContext utcPlus1 1700000000000 EmptyString) =
    Month.isoMonth utcPlus1 1700000000000 /\
  Month.getMonthContext utcPlus1 1700000000000 (Month.isoMonth utcPlus1 1700000000000) =
    Month.getMonthContext utcPlus1 1700000000000 EmptyString.
Proof. apply (isoMonth_roundtrip utcPlus1 1700000000000). vm_compute. split; discriminate. Defined.

(** X24: for a month filter [YYYY-MM] with a year from 0100 and a month from
    01 to 12, [getMonthContext] returns that year and month and the number
    of days of the month in the calendar, at every fixed offset of the host
    from UTC, and leaves the filter as it is. *)
Theorem getMonthContext_days (minutes now : Z) (monthValue : string) (y m : Z) :
  -1440 <= minutes <= 1440 ->
  Server.matchYearMonth monthValue = Some (y, m) ->
  100 <= y -> 1 <= m <= 12 ->
  Month.getMonthContext (JSDate.fixedOffset minutes) now monthValue =
    ({| Month.year := y; Month.month := m;
        Month.daysInMonth := Some (JSDate.daysInMonth y m) |}, monthValue).
Proof.
  intros Hmin Hmatch Hy Hm. unfold Month.getMonthContext.
  assert (Hne : Str.isEmpty monthValue = false).
  { destruct monthValue; [discriminate Hmatch | reflexivity]. }
  rewrite Hne, Hmatch.
  assert (Hy4 : y <= 9999).
  { unfold Server.matchYearMonth in Hmatch.
    destruct (Str.split "-" monthValue) as [| ys [| ms [| x r]]]; try discriminate.
    destruct (JSDate.fixedDigits 4 ys) as [y' |] eqn:Hys; [| discriminate].
    destruct (JSDate.fixedDigits 2 ms) as [m' |]; [| discriminate].
    inversion Hmatch; subst y' m'.
    pose proof (fixedDigits_range 4 ys y Hys) as Hr. change (10 ^ Z.of_nat 4) with 10000 in Hr.
    lia. }
  rewrite daysInMonth_west by lia. reflexivity.
Qed.

Lemma getMonthContext_days_2024_02 :
  Month.getMonthContext utcMinus5 1700000000000 "2024-02" =
    ({| Month.year := 2024; Month.month := 2; Month.daysInMonth := Some 29 |}, "2024-02").
Proof.
  apply (getMonthContext_days (-300) 1700000000000 "2024-02" 2024 2).
  - lia.
  - reflexivity.
  - lia.
  - lia.
Defined.

(** ** The invoices of the store *)

(** X25: [POST /api/invoices] stores the normalised invoice in the place of
    the first stored invoice with the same id, or at the end when there is
    none: afterwards the first invoice with that id is the normalised one,
    the invoices at the other positions are as before, the list grows by
    one exactly when the id was new, and ids that were distinct stay
    distinct. *)
Theorem invoice_post_upsert (normalized : Obj.t) (invoices : list Obj.t) :
  strictEq (idOf normalized) (idOf normalized) = true ->
  let test := fun inv => strictEq (idOf inv) (idOf normalized) in
  let next := snd (InvoiceStore.post normalized invoices) in
  fst (InvoiceStore.post normalized invoices) = InvoiceStore.Saved (idOf normalized) /\
  (exists idx,
      findIndex test next = Some idx /\
      nth idx next [] = normalized /\
      idx = match findIndex test invoices with
            | Some i => i
            | None => List.length invoices
            end /\
      forall i, i <> idx -> nth i next [] = nth i invoices []) /\
  List.length next = match findIndex test invoices with
                     | Some _ => List.length invoices
                     | None => S (List.length invoices)
                     end /\
  (distinctIds invoices -> distinctIds next).
Proof.
  intros Hrefl test next. subst next. unfold InvoiceStore.post. fold test.
  destruct (findIndex test invoices) as [i |] eqn:Hf; cbn [fst snd].
  - destruct (findIndex_Some test invoices i [] Hf) as [Hlt [Ht _]].
    split; [reflexivity |]. split; [| split].
    + exists i. split; [apply findIndex_setAt; [exact Hf | exact Hrefl] |].
      split; [rewrite nth_setAt by exact Hlt; rewrite Nat.eqb_refl; reflexivity |].
      split; [reflexivity |].
      intros j Hj. rewrite nth_setAt by exact Hlt.
      destruct (Nat.eqb_spec j i); [contradiction | reflexivity].
    + apply setAt_length.
    + intros Hd. apply distinct_setAt; [exact Hd | exact Hlt | exact Ht].
  - split; [reflexivity |]. split; [| split].
    + exists (List.length invoices).
      split; [apply findIndex_app_new; [exact Hf | exact Hrefl] |].
      split; [rewrite app_nth2 by lia; rewrite Nat.sub_diag; reflexivity |].
      split; [reflexivity |].
      intros j Hj. destruct (Nat.lt_ge_cases j (List.length invoices)) as [Hlt | Hge].
      * apply app_nth1, Hlt.
      * rewrite app_nth2 by lia. rewrite (nth_overflow invoices) by lia.
        destruct (j - List.length invoices)%nat as [| [| k]] eqn:Hk;
          [lia | reflexivity | reflexivity].
    + rewrite length_app. cbn. lia.
    + intros Hd. apply distinct_app; [exact Hd |]. intros a Ha.
      apply (findIndex_None _ _ Hf a Ha).
Qed.

Lemma invoice_post_upsert_again :
  let test := fun inv => strictEq (idOf inv) (idOf invoiceTwoAgain) in
  let next := snd (InvoiceStore.post invoiceTwoAgain sampleInvoices) in
  fst (InvoiceStore.post invoiceTwoAgain sampleInvoices) = InvoiceStore.Saved (JStr "i2") /\
  (exists idx,
      findIndex test next = Some idx /\
      nth idx next [] = invoiceTwoAgain /\
      idx = 1%nat /\
      forall i, i <> idx -> nth i next [] = nth i sampleInvoices []) /\
  List.length next = 2%nat /\
  (distinctIds sampleInvoices -> distinctIds next).
Proof. apply (invoice_post_upsert invoiceTwoAgain sampleInvoices). reflexivity. Defined.

(** X26: [DELETE /api/invoices] with an id stores the invoices whose [id] is
    not that string, each as often as before and in their order, and removes
    all the others; when no stored invoice has the id, the list stays as it
    is.  Without an id the request is refused and nothing changes. *)
Theorem invoice_delete_removes (id : option string) (invoices : list Obj.t) :
  match id with
  | Some i =>
      if Str.isEmpty i
      then InvoiceStore.delete id invoices =
             (InvoiceStore.BadRequest "Missing invoice id", invoices)
      else
        InvoiceStore.delete id invoices =
          (InvoiceStore.Deleted,
           filter (fun inv => negb (strictEq (idOf inv) (JStr i))) invoices) /\
        (forall inv, In inv (snd (InvoiceStore.delete id invoices)) <->
                     In inv invoices /\ idOf inv <> JStr i) /\
        ((forall inv, In inv invoices -> idOf inv <> JStr i) ->
         snd (InvoiceStore.delete id invoices) = invoices)
  | None =>
      InvoiceStore.delete id invoices = (InvoiceStore.BadRequest "Missing invoice id", invoices)
  end.
Proof.
  destruct id as [i |]; [| reflexivity]. unfold InvoiceStore.delete.
  destruct (Str.isEmpty i); [reflexivity |]. cbn [fst snd].
  split; [reflexivity | split].
  - intros inv. rewrite filter_In, negb_true_iff, <- not_true_iff_false, strictEq_JStr.
    reflexivity.
  - intros Hnone. apply filter_all. intros inv Hin.
    rewrite negb_true_iff, <- not_true_iff_false, strictEq_JStr. exact (Hnone inv Hin).
Qed.

(** ** The entry form *)

Lemma parseHours_not_nan (v : jsval) (h : number) :
  App.parseHours v = Some h -> h <> S754_nan.
Proof.
  unfold App.parseHours. intros H.
  assert (Hn : forall w,
             match App.parseNumber w with
             | Some num => Some (round2 (JNum num))
             | None => None
             end = Some h -> h <> S754_nan).
  { intros w Hw. destruct (App.parseNumber w); [| discriminate].
    inversion Hw. apply round2_not_nan. }
  destruct v as [| | b | x | s].
  - exact (Hn JUndefined H).
  - exact (Hn JNull H).
  - exact (Hn (JBool b) H).
  - exact (Hn (JNum x) H).
  - destruct (Str.includes ":" (Str.trim s));
      [exact (parseColon_not_nan _ _ H) | exact (Hn (JStr (Str.trim s)) H)].
Qed.

Lemma not_below_zero (h : number) :
  h <> S754_nan -> Num.ltb h Num.zero = false ->
  (exists s, h = S754_zero s) \/ h = S754_infinity false \/ exists m e, h = S754_finite false m e.
Proof.
  intros Hn Hlt. destruct h as [s | s | | s m e].
  - left. eauto.
  - destruct s; [discriminate Hlt | right; left; reflexivity].
  - contradiction.
  - destruct s; [discriminate Hlt | right; right; eauto].
Qed.

(** X27: the server accepts the hours of every entry that the client form
    sends: when [saveEntry] posts a body and [Date.parse] reads its date,
    [POST /api/entry] saves the entry. *)
Theorem saveEntry_accepted_by_server (host : JSDate.Host) (date hours : string)
    (d h : jsval) (entries : Obj.t) :
  EntryForm.saveEntry date hours = Some (d, h) ->
  JSDate.parse host date <> None ->
  exists stored, Entry.post host d h entries = (Server.Ok stored, stored).
Proof.
  unfold EntryForm.saveEntry. destruct (Str.isEmpty date) eqn:He; [discriminate |].
  destruct (App.parseHours (JStr hours)) as [x |] eqn:Hp; [| discriminate].
  destruct (Num.ltb x Num.zero) eqn:Hlt; [discriminate |].
  intros H Hparse. inversion H; subst d h. unfold Entry.post. rewrite He.
  destruct (JSDate.parse host date); [| contradiction].
  pose proof (parseHours_not_nan _ _ Hp) as Hn.
  assert (Hok : exists y, Server.parseHoursInput (Json.number x) = Some y /\
                          Num.ltb y Num.zero = false).
  { destruct (not_below_zero x Hn Hlt) as [[s ->] | [-> | [m [e ->]]]].
    - exists Num.zero. split; reflexivity.
    - exists Num.zero. split; reflexivity.
    - cbn [Json.number Server.parseHoursInput]. unfold Server.toNumber.
      cbn [Val.ToNumber Num.isFinite]. eexists. split; [reflexivity |].
      pose proof (round2_sign (S754_finite false m e)) as Hs. cbv beta iota in Hs.
      destruct (round2 (JNum (S754_finite false m e))) as [s' | s' | | s' m' e'];
        cbn [hasSign] in Hs; try contradiction; subst s'; reflexivity. }
  destruct Hok as [y [Hy Hylt]]. rewrite Hy, Hylt. eexists. reflexivity.
Qed.

Lemma saveEntry_accepted_by_server_7_30 :
  exists stored,
    Entry.post utc (JStr "2024-03-02") (Json.number (numeral "7.5")) marchEntries =
      (Server.Ok stored, stored).
Proof.
  apply (saveEntry_accepted_by_server utc "2024-03-02" "7:30").
  - vm_compute. reflexivity.
  - vm_compute. discriminate.
Defined.

(** ** Keys and dates *)

(** The day after the last day of a month is the first day of the next. *)
Lemma next_month_first (y m : Z) :
  1 <= m <= 12 ->
  JSDate.daysFromCivil y m (JSDate.daysInMonth y m) + 1 =
    JSDate.daysFromCivil (if m =? 12 then y + 1 else y) (if m =? 12 then 1 else m + 1) 1.
Proof.
  intros Hm. rewrite <- last_day_of_month by exact Hm. unfold JSDate.MakeDay.
  assert (H : m = 12 \/ m < 12) by lia. destruct H as [-> | Hlt].
  - cbn [Z.eqb Pos.eqb]. replace (y + 12 / 12) with (y + 1) by reflexivity.
    replace (12 mod 12 + 1) with 1 by reflexivity. lia.
  - replace (m =? 12) with false by lia.
    replace (y + m / 12) with y by div_lia.
    replace (m mod 12 + 1) with (m + 1) by div_lia. lia.
Qed.

(** Every day number has a civil date that exists. *)
Lemma civilFromDays_valid (z : Z) :
  let '(y, m, d) := JSDate.civilFromDays z in JSDate.validDate y m d = true.
Proof.
  pose proof (daysFromCivil_civilFromDays z) as Hinv.
  pose proof (civilFromDays_range z) as Hr.
  destruct (JSDate.civilFromDays z) as [[y m] d] eqn:Hc.
  destruct Hr as [Hm Hd].
  pose proof (daysInMonth_range y m) as Hdim.
  destruct (Z_le_gt_dec d (JSDate.daysInMonth y m)) as [Hle | Hgt].
  - unfold JSDate.validDate. lia.
  - exfalso.
    set (y' := if m =? 12 then y + 1 else y).
    set (m' := if m =? 12 then 1 else m + 1).
    set (d' := d - JSDate.daysInMonth y m).
    assert (Hz : z = JSDate.daysFromCivil y' m' d').
    { rewrite <- Hinv. rewrite (daysFromCivil_day y' m' d'). subst y' m'.
      rewrite <- next_month_first by exact Hm.
      rewrite (daysFromCivil_day y m d), (daysFromCivil_day y m (JSDate.daysInMonth y m)).
      subst d'. lia. }
    assert (Hv : JSDate.validDate y' m' d' = true).
    { pose proof (daysInMonth_range y' m') as Hdim'. unfold JSDate.validDate.
      subst y' m' d'. destruct (m =? 12) eqn:E; lia. }
    rewrite Hz, (civil_roundtrip _ _ _ Hv) in Hc. inversion Hc. subst m'.
    destruct (m =? 12) eqn:E; lia.
Qed.

(** The key of a date that exists, with a year of four digits, is read
    back as that date. *)
Lemma dateOnlyFields_key (y m d : Z) :
  0 <= y <= 9999 -> JSDate.validDate y m d = true ->
  JSDate.dateOnlyFields (Spec.key y m d) = Some (y, m, d).
Proof.
  intros Hy Hv. destruct (validDate_range _ _ _ Hv) as [Hm [Hd Hd31]].
  unfold Spec.key, JSDate.dateOnlyFields.
  change (JSDate.pad 4 y ++ "-" ++ JSDate.pad 2 m ++ "-" ++ JSDate.pad 2 d)
    with (JSDate.pad 4 y ++ String "-" (JSDate.pad 2 m ++ String "-" (JSDate.pad 2 d))).
  rewrite split_app_sep by (apply pad_no_hyphen; lia).
  rewrite split_app_sep by (apply pad_no_hyphen; lia).
  rewrite split_no_sep by (apply pad_no_hyphen; lia).
  unfold JSDate.fixedDigits.
  rewrite pad4_length by lia. rewrite !pad2_length by lia. cbn [Nat.eqb].
  rewrite !pad_value by lia. rewrite Hv. reflexivity.
Qed.

(** X28: the key that [dateKey] writes for a Date parses back: for a Date
    whose UTC day has a year of four digits, [dateKey] returns a text in
    the form YYYY-MM-DD that [Date.parse] reads, on every host, as the
    midnight UTC of the same UTC day. *)
Theorem dateKey_parse_roundtrip (host : JSDate.Host) (t : Z) :
  fourDigitYear (JSDate.Day t) ->
  exists key,
    App.dateKey (Some t) = Some key /\
    JSDate.dateOnlyFields key = Some (JSDate.civilFromDays (JSDate.Day t)) /\
    JSDate.parse host key = Some (JSDate.Day t * JSDate.msPerDay).
Proof.
  intros Hr. unfold fourDigitYear in Hr.
  pose proof (inRange_civil _ Hr) as Hin.
  pose proof (civilFromDays_valid (JSDate.Day t)) as Hv.
  pose proof (daysFromCivil_civilFromDays (JSDate.Day t)) as Hinv.
  destruct (JSDate.civilFromDays (JSDate.Day t)) as [[y m] d] eqn:Hc.
  exists (Spec.key y m d).
  assert (Hy : 0 <= y <= 9999) by (unfold inRange in Hin; lia).
  split; [apply dateKey_civil; assumption |].
  pose proof (dateOnlyFields_key y m d Hy Hv) as Hk.
  split; [exact Hk |].
  unfold JSDate.parse, JSDate.parseDateOnly. rewrite Hk, Hinv.
  unfold JSDate.MakeDate, JSDate.TimeClip, JSDate.msPerDay. rewrite Z.add_0_r.
  replace (Z.abs (JSDate.Day t * 86400000) <=? 8640000000000000) with true by lia.
  reflexivity.
Qed.

Lemma dateKey_parse_roundtrip_2023 :
  exists key,
    App.dateKey (Some 1700000000000) = Some key /\
    JSDate.dateOnlyFields key = Some (JSDate.civilFromDays (JSDate.Day 1700000000000)) /\
    JSDate.parse utcMinus5 key = Some (JSDate.Day 1700000000000 * JSDate.msPerDay).
Proof.
  apply (dateKey_parse_roundtrip utcMinus5 1700000000000).
  unfold fourDigitYear. vm_compute. split; discriminate.
Defined.
